(** * CivicIndia: a shallow embedding of the client-side logic

    The application is a set of React screens bound to a hosted
    relational backend.  Each screen is embedded as a record of its
    [useState] cells together with one function per event handler; a
    handler takes the state of the render that created it (and whatever
    the backend answers) and returns the next state with the
    notifications and backend requests it issued.

    Conventions.
    - A JavaScript string is a [string]; one character stands for one
      code unit, so [String.length] is the [.length] of the source.  The
      strings of the embedding are those over the code units 0 to 255
      (Latin-1).  [trim] and [toLowerCase] are the built-in functions on
      that range, where both act code unit by code unit.  The built-in
      [toUpperCase] leaves the range (sharp s becomes two letters, y with
      diaeresis and the micro sign go above 255), so the one handler that
      calls it takes it as an argument.
    - An [async] handler is embedded as run from its start to its end,
      with the answers of the backend as inputs.  Where a property
      depends on what the screen does while a request is awaited (the
      quiz answer, the tracking search), the handler is also split at
      its [await]: one definition for the part that runs on the click,
      one for the part that runs when the answer arrives, on the state
      of that moment.
    - A nullable column is an [option].
    - A JavaScript object used as a dictionary is a [gmap string _]. *)

From Stdlib Require Import ZArith QArith Bool Ascii String Lia.
From stdpp Require Import base option list gmap strings pretty.

Local Open Scope string_scope.
Local Open Scope Z_scope.

(** ** JavaScript helpers *)

Module JS.

(** [!!s] for a string: only the empty string is falsy. *)
Definition truthy (s : string) : bool :=
  match s with
  | EmptyString => false
  | String _ _ => true
  end.

(** [a || b] on strings. *)
Definition or_else (a b : string) : string :=
  if truthy a then a else b.

(** [o || b] where [o] is a string or [null]. *)
Definition or_default (o : option string) (b : string) : string :=
  match o with
  | Some a => or_else a b
  | None => b
  end.

(** The white space and line terminators [trim] strips, among the code
    units below 256: tab, line feed, vertical tab, form feed, carriage
    return, space and the no-break space. *)
Definition is_space (c : ascii) : bool :=
  match nat_of_ascii c with
  | 9%nat | 10%nat | 11%nat | 12%nat | 13%nat | 32%nat | 160%nat => true
  | _ => false
  end.

Fixpoint trimStart (s : string) : string :=
  match s with
  | EmptyString => EmptyString
  | String c s' => if is_space c then trimStart s' else s
  end.

(** Drops the trailing white space; the result is empty exactly when
    the whole string is white space. *)
Fixpoint trimEnd (s : string) : string :=
  match s with
  | EmptyString => EmptyString
  | String c s' =>
      match trimEnd s' with
      | EmptyString => if is_space c then EmptyString else String c EmptyString
      | t => String c t
      end
  end.

Definition trim (s : string) : string := trimEnd (trimStart s).

(** The lower case of one code unit below 256: A to Z, and the
    accented capitals 192 to 222 except the multiplication sign, move up
    by 32; every other code unit is its own lower case. *)
Definition lower_unit (c : ascii) : ascii :=
  let n := nat_of_ascii c in
  if ((65 <=? n)%nat && (n <=? 90)%nat)
     || ((192 <=? n)%nat && (n <=? 222)%nat && negb (n =? 215)%nat)
  then ascii_of_nat (n + 32) else c.

Fixpoint toLowerCase (s : string) : string :=
  match s with
  | EmptyString => EmptyString
  | String c s' => String (lower_unit c) (toLowerCase s')
  end.

Fixpoint startsWith (needle hay : string) : bool :=
  match needle, hay with
  | EmptyString, _ => true
  | String _ _, EmptyString => false
  | String a n', String b h' => Ascii.eqb a b && startsWith n' h'
  end.

(** [hay.includes(needle)]. *)
Fixpoint includes (hay needle : string) : bool :=
  startsWith needle hay ||
  match hay with
  | EmptyString => false
  | String _ h' => includes h' needle
  end.

(** [Array.prototype.indexOf]: the first position holding [x], or -1. *)
Fixpoint indexOf_from {A} `{EqDecision A} (l : list A) (x : A) (i : Z) : Z :=
  match l with
  | [] => -1
  | y :: l' => if decide (y = x) then i else indexOf_from l' x (i + 1)
  end.

Definition indexOf {A} `{EqDecision A} (l : list A) (x : A) : Z :=
  indexOf_from l x 0.

(** [Array.prototype.findIndex]. *)
Fixpoint findIndex_from {A} (p : A -> bool) (l : list A) (i : Z) : Z :=
  match l with
  | [] => -1
  | y :: l' => if p y then i else findIndex_from p l' (i + 1)
  end.

Definition findIndex {A} (p : A -> bool) (l : list A) : Z :=
  findIndex_from p l 0.

(** [Array.prototype.slice(0, e)]: a negative [e] counts from the end. *)
Definition slice0 {A} (l : list A) (e : Z) : list A :=
  let len := Z.of_nat (length l) in
  let stop := if e <? 0 then Z.max (len + e) 0 else Z.min e len in
  take (Z.to_nat stop) l.

(** [Array.prototype.some]. *)
Definition some {A} (p : A -> bool) (l : list A) : bool := existsb p l.

(** Strict equality of two strings. *)
Definition seq (a b : string) : bool := String.eqb a b.

(** [Array.prototype.join]. *)
Fixpoint join (sep : string) (l : list string) : string :=
  match l with
  | [] => ""
  | [x] => x
  | x :: (_ :: _) as l' => x ++ sep ++ join sep l'
  end.

(** [String.prototype.split] on a one-character separator. *)
Fixpoint split (sep : ascii) (s : string) : list string :=
  match s with
  | EmptyString => [EmptyString]
  | String c s' =>
      if Ascii.eqb c sep then EmptyString :: split sep s'
      else
        match split sep s' with
        | [] => [String c EmptyString]
        | w :: ws => String c w :: ws
        end
  end.

(** The upper case of an ASCII letter; other code units are kept. *)
Definition upper_ascii (c : ascii) : ascii :=
  let n := nat_of_ascii c in
  if (97 <=? n)%nat && (n <=? 122)%nat then ascii_of_nat (n - 32) else c.

(** A string with its letters a to z in upper case.  This is not the
    built-in [toUpperCase], which also changes code units above 127; it
    serves to write inputs down and agrees with the built-in on ASCII
    strings. *)
Fixpoint asciiUpper (s : string) : string :=
  match s with
  | EmptyString => EmptyString
  | String c s' => String (upper_ascii c) (asciiUpper s')
  end.

(** [[...].filter(Boolean)] on strings that may be [null]: the non-empty
    ones. *)
Definition filter_Boolean (l : list (option string)) : list string :=
  omap (fun o => match o with
                 | Some v => if truthy v then Some v else None
                 | None => None
                 end) l.

End JS.

(** ** Shared vocabulary *)

(** A notification raised through [toast]. *)
Record Toast := mkToast {
  toast_title : string;
  toast_description : string;
  toast_destructive : bool
}.

(** What a backend call hands back: [{ data, error }]. *)
Inductive Response (A : Type) : Type :=
| Ok (data : A)
| Err (message : string).
Arguments Ok {A} data.
Arguments Err {A} message.

(** The [report_status] enumeration. *)
Inductive ReportStatus : Set :=
| submitted | in_review | assigned | in_progress | resolved | rejected.

#[global] Instance ReportStatus_eq_dec : EqDecision ReportStatus.
Proof. solve_decision. Defined.

Definition status_name (s : ReportStatus) : string :=
  match s with
  | submitted => "submitted"
  | in_review => "in_review"
  | assigned => "assigned"
  | in_progress => "in_progress"
  | resolved => "resolved"
  | rejected => "rejected"
  end.

(** A row of the [reports] table as the screens read it.  [status] has
    the six values of the screens' [ReportStatus]; [city] is nullable,
    which the admin search guards against with [?.]. *)
Record Report := mkReport {
  id : string;
  report_number : string;
  title : string;
  description : string;
  category : string;
  severity : string;
  status : ReportStatus;
  address : option string;
  city : option string;
  state : option string;
  assigned_to : option string;
  authority_remarks : option string;
  image_urls : option (list string);
  created_at : string;
  updated_at : string;
  resolved_at : option string;
  user_id : option string
}.

(** Modelled from the spec: the default of the [status] column of the
    [reports] table, which an insert that names no status receives
    (section 3: "created on submission with status submitted"). *)
Definition status_default : ReportStatus := submitted.

(** ** Report tracking *)

Module Track.

Definition statusOrder : list ReportStatus :=
  [submitted; in_review; assigned; in_progress; resolved].

Definition status_label (s : ReportStatus) : string :=
  match s with
  | submitted => "Submitted"
  | in_review => "In Review"
  | assigned => "Assigned"
  | in_progress => "In Progress"
  | resolved => "Resolved"
  | rejected => "Rejected"
  end.

Record State := mkState {
  searchId : string;
  report : option Report;
  userReports : list Report;
  loading : bool;
  loadingUserReports : bool
}.

Definition set_report (o : option Report) (st : State) : State :=
  mkState (searchId st) o (userReports st) (loading st) (loadingUserReports st).

Definition set_loading (b : bool) (st : State) : State :=
  mkState (searchId st) (report st) (userReports st) b (loadingUserReports st).

(** [.eq('report_number', reportId)] over the table. *)
Definition eq_report_number (reportId : string) (table : list Report) : list Report :=
  filter (fun r => report_number r = reportId) table.

(** [.maybeSingle()]: no row is [null], one row is that row, several
    rows are an error. *)
Definition maybeSingle (rows : list Report) : Response (option Report) :=
  match rows with
  | [] => Ok None
  | [r] => Ok (Some r)
  | _ :: _ :: _ => Err "JSON object requested, multiple (or no) rows returned"
  end.

(** The rows a response carries to the client. *)
Definition rows_of (resp : Response (option Report)) : list Report :=
  match resp with
  | Ok (Some r) => [r]
  | Ok None => []
  | Err _ => []
  end.

(** [id || searchId.trim()]. *)
Definition reportId_of (arg : option string) (st : State) : string :=
  JS.or_default arg (JS.trim (searchId st)).

Definition toast_enter_id : Toast :=
  mkToast "Enter Report ID" "Please enter a valid report ID to search." true.

Definition toast_not_found : Toast :=
  mkToast "Report not found"
          "No report found with this ID. Please check and try again." true.

Definition toast_search_failed (message : string) : Toast :=
  mkToast "Search failed" (JS.or_else message "Please try again.") true.

(** How a backend that holds [table] answers
    [.eq('report_number', reportId).maybeSingle()].  [failure] is the
    error of a request that is not served (no network, a server error):
    then no row comes back, whatever the table holds. *)
Definition lookup (failure : option string) (table : list Report) (reportId : string)
  : Response (option Report) :=
  match failure with
  | Some message => Err message
  | None => maybeSingle (eq_report_number reportId table)
  end.

(** The body of the [try] block from the answer on.  [inl] is a thrown
    error ([if (error) throw error]), [inr] normal completion. *)
Definition searchReport_try (answer : Response (option Report)) (st : State)
  : string + State * list Toast :=
  match answer with
  | Err message => inl message
  | Ok None => inr (set_report None st, [toast_not_found])
  | Ok (Some data) => inr (set_report (Some data) st, [])
  end.

(** What runs when the awaited answer arrives, on the state of that
    moment: the rest of [try], then [catch] and [finally]. *)
Definition searchReport_settle (answer : Response (option Report)) (st : State)
  : State * list Toast :=
  match searchReport_try answer st with
  | inl message => (set_loading false st, [toast_search_failed message])
  | inr (st', toasts) => (set_loading false st', toasts)
  end.

(** [searchReport] with nothing else happening while the request is
    awaited: the next state and the notifications raised.  [backend]
    gives the answer to the request for an identifier. *)
Definition searchReport (arg : option string)
    (backend : string -> Response (option Report)) (st : State)
  : State * list Toast :=
  let reportId := reportId_of arg st in
  if negb (JS.truthy reportId) then (st, [toast_enter_id])
  else searchReport_settle (backend reportId) (set_loading true st).

Definition getStatusIndex (s : ReportStatus) : Z := JS.indexOf statusOrder s.

(** One rendered step of the status timeline. *)
Record Step := mkStep {
  step_status : ReportStatus;
  isCompleted : bool;
  isCurrent : bool
}.

(** The body of [statusOrder.map((status, index) => ...)]. *)
Definition render_step (r : Report) (index : nat) (s : ReportStatus) : Step :=
  mkStep s
         (getStatusIndex (status r) >=? Z.of_nat index)
         (bool_decide (status r = s)).

Definition timeline (r : Report) : list Step := imap (render_step r) statusOrder.

(** The status badge above the timeline. *)
Definition badge (r : Report) : string := status_label (status r).

(** The width of the progress line in percent,
    [(getStatusIndex(report.status) / (statusOrder.length - 1)) * 100],
    read as a rational. *)
Definition progress_width (r : Report) : Q :=
  (inject_Z (getStatusIndex (status r))
   / inject_Z (Z.of_nat (length statusOrder) - 1) * 100)%Q.

(** The "Location" line of the details:
    [[address, city, state].filter(Boolean).join(', ') || 'Not specified']. *)
Definition location_line (r : Report) : string :=
  JS.or_else (JS.join ", " (JS.filter_Boolean [address r; city r; state r]))
             "Not specified".

End Track.

(** ** Admin dashboard *)

Module Admin.

(** The four tiles; the [n_] prefix keeps the field names apart from the
    status values of the same spelling. *)
Record Stats := mkStats {
  n_total : nat;
  n_submitted : nat;
  n_in_progress : nat;
  n_resolved : nat
}.

(** The [updateData] cell of the edit dialog. *)
Record UpdateData := mkUpdateData {
  form_status : string;
  form_assigned_to : string;
  form_remarks : string
}.

Record State := mkState {
  reports : list Report;
  stats : Stats;
  loading : bool;
  searchQuery : string;
  categoryFilter : string;
  statusFilter : string;
  selectedReport : option Report;
  updateData : UpdateData;
  updating : bool
}.

Definition set_reports (l : list Report) (st : State) : State :=
  mkState l (stats st) (loading st) (searchQuery st) (categoryFilter st)
          (statusFilter st) (selectedReport st) (updateData st) (updating st).

Definition set_stats (s : Stats) (st : State) : State :=
  mkState (reports st) s (loading st) (searchQuery st) (categoryFilter st)
          (statusFilter st) (selectedReport st) (updateData st) (updating st).

Definition set_loading (b : bool) (st : State) : State :=
  mkState (reports st) (stats st) b (searchQuery st) (categoryFilter st)
          (statusFilter st) (selectedReport st) (updateData st) (updating st).

Definition set_searchQuery (q : string) (st : State) : State :=
  mkState (reports st) (stats st) (loading st) q (categoryFilter st)
          (statusFilter st) (selectedReport st) (updateData st) (updating st).

Definition set_selectedReport (o : option Report) (st : State) : State :=
  mkState (reports st) (stats st) (loading st) (searchQuery st) (categoryFilter st)
          (statusFilter st) o (updateData st) (updating st).

Definition set_updating (b : bool) (st : State) : State :=
  mkState (reports st) (stats st) (loading st) (searchQuery st) (categoryFilter st)
          (statusFilter st) (selectedReport st) (updateData st) b.

(** The "view" button of a row: select the report and fill the dialog
    with its current values. *)
Definition openReport (report : Report) (st : State) : State :=
  mkState (reports st) (stats st) (loading st) (searchQuery st) (categoryFilter st)
          (statusFilter st) (Some report)
          (mkUpdateData (status_name (status report))
                        (JS.or_default (assigned_to report) "")
                        (JS.or_default (authority_remarks report) ""))
          (updating st).

(** [['in_review', 'assigned', 'in_progress'].includes(r.status)]. *)
Definition in_progress_bucket (s : ReportStatus) : bool :=
  JS.some (fun x => bool_decide (x = s)) [in_review; assigned; in_progress].

(** The "Calculate stats" block of [fetchReports]. *)
Definition computeStats (allReports : list Report) : Stats :=
  {| n_total := length allReports;
     n_submitted :=
       length (List.filter (fun r => bool_decide (status r = submitted)) allReports);
     n_in_progress :=
       length (List.filter (fun r => in_progress_bucket (status r)) allReports);
     n_resolved :=
       length (List.filter (fun r => bool_decide (status r = resolved)) allReports) |}.

(** [fetchReports], given what the query answered ([data] may be
    [null]).  A failed query is only logged. *)
Definition fetchReports (resp : Response (option (list Report))) (st : State) : State :=
  let st1 := set_loading true st in
  match resp with
  | Err _ => set_loading false st1
  | Ok data =>
      let allReports := default [] data in
      set_loading false (set_stats (computeStats allReports) (set_reports allReports st1))
  end.

(** The partial-field update sent to the [reports] table. *)
Record UpdateRequest := mkUpdateRequest {
  upd_fields : gmap string string;
  upd_id : string
}.

(** The [updates] object built by [handleUpdateReport]; [now] is
    [new Date().toISOString()]. *)
Definition build_updates (u : UpdateData) (now : string) : gmap string string :=
  let updates : gmap string string := ∅ in
  let updates :=
    if JS.truthy (form_status u) then <["status" := form_status u]> updates
    else updates in
  let updates :=
    if JS.truthy (form_assigned_to u) then <["assigned_to" := form_assigned_to u]> updates
    else updates in
  let updates :=
    if JS.truthy (form_remarks u) then <["authority_remarks" := form_remarks u]> updates
    else updates in
  if JS.seq (form_status u) "resolved" then <["resolved_at" := now]> updates
  else updates.

Definition toast_updated : Toast :=
  mkToast "Report updated" "The report has been updated successfully." false.

Definition toast_update_failed (message : string) : Toast :=
  mkToast "Update failed" message true.

(** What one run of [handleUpdateReport] does. *)
Record UpdateOutcome := mkUpdateOutcome {
  out_state : State;
  out_requests : list UpdateRequest;
  out_toasts : list Toast
}.

(** [handleUpdateReport]: [upd] is the answer to the update and [refetch]
    the answer to the [fetchReports] that follows a successful one. *)
Definition handleUpdateReport (now : string) (upd : Response unit)
    (refetch : Response (option (list Report))) (st : State) : UpdateOutcome :=
  match selectedReport st with
  | None => mkUpdateOutcome st [] []
  | Some sel =>
      let st1 := set_updating true st in
      let updates := build_updates (updateData st) now in
      let req := mkUpdateRequest updates (id sel) in
      match upd with
      | Err message =>
          mkUpdateOutcome (set_updating false st1) [req] [toast_update_failed message]
      | Ok _ =>
          let st2 := set_selectedReport None st1 in
          let st3 := fetchReports refetch st2 in
          mkUpdateOutcome (set_updating false st3) [req] [toast_updated]
      end
  end.

Definition status_of_name (s : string) : option ReportStatus :=
  if JS.seq s "submitted" then Some submitted
  else if JS.seq s "in_review" then Some in_review
  else if JS.seq s "assigned" then Some assigned
  else if JS.seq s "in_progress" then Some in_progress
  else if JS.seq s "resolved" then Some resolved
  else if JS.seq s "rejected" then Some rejected
  else None.

(** Modelled from the spec: the hosted table's partial-field update
    (section 4.3, "committing issues a partial-field update").  A column
    named in the request takes the request's value, every other column
    keeps its value; a status outside the enumeration is refused. *)
Definition apply_update (fields : gmap string string) (r : Report) : option Report :=
  match fields !! "status", mbind status_of_name (fields !! "status") with
  | Some _, None => None
  | _, st' =>
      Some (mkReport (id r) (report_number r) (title r) (description r)
              (category r) (severity r)
              (default (status r) st')
              (address r) (city r) (state r)
              (match fields !! "assigned_to" with
               | Some v => Some v | None => assigned_to r end)
              (match fields !! "authority_remarks" with
               | Some v => Some v | None => authority_remarks r end)
              (image_urls r) (created_at r) (updated_at r)
              (match fields !! "resolved_at" with
               | Some v => Some v | None => resolved_at r end)
              (user_id r))
  end.

(** The value of a JavaScript condition that is a boolean or
    [undefined]. *)
Inductive Cond : Set := CTrue | CFalse | CUndefined.

Definition cond_of_bool (b : bool) : Cond := if b then CTrue else CFalse.

Definition cond_truthy (c : Cond) : bool :=
  match c with CTrue => true | CFalse | CUndefined => false end.

(** [a || b]: the left operand when truthy, else the right one. *)
Definition cond_or (a b : Cond) : Cond := if cond_truthy a then a else b.

(** The predicate of [filteredReports]; [report.city?.] short-circuits
    the rest of its chain to [undefined] on a null city. *)
Definition search_predicate (searchQuery : string) (report : Report) : Cond :=
  let q := JS.toLowerCase searchQuery in
  cond_or
    (cond_or
       (cond_of_bool (JS.includes (JS.toLowerCase (title report)) q))
       (cond_of_bool (JS.includes (JS.toLowerCase (report_number report)) q)))
    (match city report with
     | None => CUndefined
     | Some c => cond_of_bool (JS.includes (JS.toLowerCase c) q)
     end).

Definition filteredReports (st : State) : list Report :=
  List.filter (fun report => cond_truthy (search_predicate (searchQuery st) report))
              (reports st).

(** The first render. *)
Definition initial : State :=
  mkState [] (mkStats 0 0 0 0) true "" "all" "all" None (mkUpdateData "" "" "") false.

Definition set_categoryFilter (c : string) (st : State) : State :=
  mkState (reports st) (stats st) (loading st) (searchQuery st) c
          (statusFilter st) (selectedReport st) (updateData st) (updating st).

Definition set_statusFilter (c : string) (st : State) : State :=
  mkState (reports st) (stats st) (loading st) (searchQuery st) (categoryFilter st)
          c (selectedReport st) (updateData st) (updating st).

Definition set_updateData (u : UpdateData) (st : State) : State :=
  mkState (reports st) (stats st) (loading st) (searchQuery st) (categoryFilter st)
          (statusFilter st) (selectedReport st) u (updating st).

(** The three inputs of the dialog: [setUpdateData(d => ({ ...d, status: v }))]
    and its two siblings. *)
Definition chooseStatus (v : string) (st : State) : State :=
  set_updateData (mkUpdateData v (form_assigned_to (updateData st))
                               (form_remarks (updateData st))) st.

Definition typeAssignee (v : string) (st : State) : State :=
  set_updateData (mkUpdateData (form_status (updateData st)) v
                               (form_remarks (updateData st))) st.

Definition typeRemarks (v : string) (st : State) : State :=
  set_updateData (mkUpdateData (form_status (updateData st))
                               (form_assigned_to (updateData st)) v) st.

(** What happens on the dashboard: a [fetchReports] started by the
    effect gets its answer, the admin types in the search box, picks a
    filter, opens or closes the dialog, edits it, or saves it. *)
Inductive Event : Type :=
| Fetched (resp : Response (option (list Report)))
| SearchTyped (q : string)
| CategoryPicked (c : string)
| StatusPicked (c : string)
| Opened (report : Report)
| Closed
| StatusChosen (v : string)
| AssigneeTyped (v : string)
| RemarksTyped (v : string)
| Saved (now : string) (upd : Response unit)
        (refetch : Response (option (list Report))).

Definition step (st : State) (ev : Event) : State :=
  match ev with
  | Fetched resp => fetchReports resp st
  | SearchTyped q => set_searchQuery q st
  | CategoryPicked c => set_categoryFilter c st
  | StatusPicked c => set_statusFilter c st
  | Opened report => openReport report st
  | Closed => set_selectedReport None st
  | StatusChosen v => chooseStatus v st
  | AssigneeTyped v => typeAssignee v st
  | RemarksTyped v => typeRemarks v st
  | Saved now upd refetch => out_state (handleUpdateReport now upd refetch st)
  end.

Definition run (evs : list Event) (st : State) : State := foldl step st evs.

End Admin.

(** ** Leaderboard *)

Module Leaderboard.

(** A fetched [profiles] row: [select('id, user_id, full_name, points, city')].
    [points] is a number, as [LeaderboardEntry] declares it. *)
Record Profile := mkProfile {
  p_id : string;
  p_user_id : string;
  p_full_name : option string;
  p_points : Z;
  p_city : option string
}.

Record LeaderboardEntry := mkEntry {
  id : string;
  user_id : string;
  full_name : option string;
  points : Z;
  city : option string;
  badge_count : nat
}.

Record State := mkState {
  leaderboard : list LeaderboardEntry;
  loading : bool;
  userRank : option Z;
  userPoints : Z
}.

Definition initial : State := mkState [] true None 0.

(** The [forEach] that fills [badgeCountMap] from the fetched
    [user_badges] rows (each row is its [user_id]). *)
Definition count_badges (badgeCounts : list string) : gmap string nat :=
  foldl (fun m b => <[b := (default 0%nat (m !! b) + 1)%nat]> m) ∅ badgeCounts.

Definition enrich (badgeCountMap : gmap string nat) (p : Profile) : LeaderboardEntry :=
  mkEntry (p_id p) (p_user_id p) (p_full_name p) (p_points p) (p_city p)
          (default 0%nat (badgeCountMap !! p_user_id p)).

(** [fetchLeaderboard]: [profiles] answers the first query, [badges] is
    the [data] of the second one (its error is never read), [user] is
    the signed-in user's id. *)
Definition fetchLeaderboard (user : option string)
    (profiles : Response (option (list Profile)))
    (badges : option (list string)) (st : State) : State :=
  match profiles with
  | Err _ => mkState (leaderboard st) false (userRank st) (userPoints st)
  | Ok data =>
      let badgeCountMap := count_badges (default [] badges) in
      let enrichedData := enrich badgeCountMap <$> default [] data in
      match user with
      | None => mkState enrichedData false (userRank st) (userPoints st)
      | Some uid =>
          let userIndex := JS.findIndex (fun p => JS.seq (user_id p) uid) enrichedData in
          if userIndex =? -1
          then mkState enrichedData false (userRank st) (userPoints st)
          else
            match enrichedData !! Z.to_nat userIndex with
            | Some e => mkState enrichedData false (Some (userIndex + 1)) (points e)
            | None => mkState enrichedData false (Some (userIndex + 1)) (userPoints st)
            end
      end
  end.




(** [n[0]] as [join] sees it: the first character, nothing for the
    empty string. *)
Definition first_char (w : string) : string :=
  match w with
  | EmptyString => EmptyString
  | String c _ => String c EmptyString
  end.

(** [getInitials].  [toUpperCase] stands for the built-in function of
    that name. *)
Definition getInitials (toUpperCase : string -> string) (name : option string)
  : string :=
  match name with
  | None => "U"
  | Some n =>
      if JS.truthy n
      then String.substring 0 2
             (toUpperCase (JS.join "" (first_char <$> JS.split " "%char n)))
      else "U"
  end.

End Leaderboard.

(** ** Education and quizzes *)

Module Education.

Record Quiz := mkQuiz {
  id : string;
  question : string;
  options : list string;
  correct_answer : Z;
  points : Z;
  category_id : string
}.

Record UserProgress := mkUserProgress {
  quiz_id : string;
  is_correct : bool
}.

(** A row of the [user_quiz_progress] table. *)
Record ProgressRow := mkProgressRow {
  row_user_id : string;
  row_quiz_id : string;
  row_is_correct : bool
}.

Record State := mkState {
  user : option string;
  quizzes : list Quiz;
  userProgress : list UserProgress;
  selectedCategory : option string;
  currentQuizIndex : nat;
  selectedAnswer : option Z;
  showResult : bool
}.

(** [quizzes.filter(q => q.category_id === categoryId)]; a [null]
    category matches no question. *)
Definition getCategoryQuizzes (st : State) (categoryId : option string) : list Quiz :=
  match categoryId with
  | None => []
  | Some c => List.filter (fun q => JS.seq (category_id q) c) (quizzes st)
  end.

Record Progress := mkProgress {
  completed : nat;
  total : nat;
  correct : nat
}.

Definition getCategoryProgress (st : State) (categoryId : string) : Progress :=
  let categoryQuizzes := getCategoryQuizzes st (Some categoryId) in
  let completedQuizzes :=
    List.filter (fun p => JS.some (fun q => JS.seq (id q) (quiz_id p)) categoryQuizzes)
                (userProgress st) in
  mkProgress (length completedQuizzes) (length categoryQuizzes)
             (length (List.filter is_correct completedQuizzes)).

(** The ratio shown by the progress bar, [completed / total], read as a
    rational; it is rendered only when [total > 0]. *)
Definition ratio (p : Progress) : Q :=
  (inject_Z (Z.of_nat (completed p)) / inject_Z (Z.of_nat (total p)))%Q.

Definition handleStartQuiz (categoryId : string) (st : State) : State :=
  mkState (user st) (quizzes st) (userProgress st) (Some categoryId) 0 None false.

Definition toast_correct (pts : Z) : Toast :=
  mkToast "🎉 Correct!" ("You earned " ++ pretty pts ++ " points!") false.

Definition toast_incorrect : Toast :=
  mkToast "❌ Incorrect" "Better luck next time!" true.

(** What one run of [handleAnswer] does: the next state, the table, the
    inserts it issued, its notifications, and whether it threw. *)
Record AnswerOutcome := mkAnswerOutcome {
  out_state : State;
  out_table : list ProgressRow;
  out_inserts : list ProgressRow;
  out_toasts : list Toast;
  out_threw : bool
}.

(** [handleAnswer] run from the click to its end with nothing handled
    while the insert is awaited ([handleAnswer_click] and
    [handleAnswer_resume] below are its two halves).  [accepted] tells
    whether the table takes the insert (its result is never read by the
    handler); [table] is the [user_quiz_progress] table. *)
Definition handleAnswer (answerIndex : Z) (accepted : bool)
    (table : list ProgressRow) (st : State) : AnswerOutcome :=
  if showResult st then mkAnswerOutcome st table [] [] false
  else
    let st1 := mkState (user st) (quizzes st) (userProgress st) (selectedCategory st)
                       (currentQuizIndex st) (Some answerIndex) true in
    match getCategoryQuizzes st (selectedCategory st) !! currentQuizIndex st with
    | None => mkAnswerOutcome st1 table [] [] true
    | Some currentQuiz =>
        let isCorrect := bool_decide (answerIndex = correct_answer currentQuiz) in
        let notice :=
          if isCorrect then toast_correct (points currentQuiz) else toast_incorrect in
        match user st with
        | None => mkAnswerOutcome st1 table [] [notice] false
        | Some uid =>
            let alreadyAnswered :=
              JS.some (fun p => JS.seq (quiz_id p) (id currentQuiz)) (userProgress st) in
            if alreadyAnswered then mkAnswerOutcome st1 table [] [notice] false
            else
              let row := mkProgressRow uid (id currentQuiz) isCorrect in
              let st2 :=
                mkState (user st) (quizzes st)
                        (userProgress st ++ [mkUserProgress (id currentQuiz) isCorrect])
                        (selectedCategory st) (currentQuizIndex st)
                        (Some answerIndex) true in
              mkAnswerOutcome st2 (if accepted then table ++ [row] else table)
                              [row] [notice] false
        end
    end.

(** [handleNext]; the flag tells whether it asked for [fetchData], whose
    answer starts a new fetched state. *)
Definition handleNext (st : State) : State * bool :=
  let categoryQuizzes := getCategoryQuizzes st (selectedCategory st) in
  if Z.of_nat (currentQuizIndex st) <? Z.of_nat (length categoryQuizzes) - 1
  then (mkState (user st) (quizzes st) (userProgress st) (selectedCategory st)
                (currentQuizIndex st + 1) None false, false)
  else (mkState (user st) (quizzes st) (userProgress st) None
                (currentQuizIndex st) (selectedAnswer st) (showResult st), true).

(** "Exit Quiz": [setSelectedCategory(null)]. *)
Definition exitQuiz (st : State) : State :=
  mkState (user st) (quizzes st) (userProgress st) None
          (currentQuizIndex st) (selectedAnswer st) (showResult st).

(** The progress part of [fetchData] for a signed-in user: the rows of
    that user, projected on [quiz_id, is_correct]. *)
Definition fetch_progress (uid : string) (table : list ProgressRow) : list UserProgress :=
  (fun r => mkUserProgress (row_quiz_id r) (row_is_correct r)) <$>
  List.filter (fun r => JS.seq (row_user_id r) uid) table.

(** The events of one session between two fetches. *)
Inductive Event : Type :=
| Answer (answerIndex : Z) (accepted : bool)
| Next
| Start (categoryId : string)
| Leave.

Definition step (ev : Event) (cfg : State * list ProgressRow) : State * list ProgressRow :=
  let '(st, table) := cfg in
  match ev with
  | Answer answerIndex accepted =>
      let out := handleAnswer answerIndex accepted table st in
      (out_state out, out_table out)
  | Next => (fst (handleNext st), table)
  | Start categoryId => (handleStartQuiz categoryId st, table)
  | Leave => (exitQuiz st, table)
  end.

Definition run (evs : list Event) (cfg : State * list ProgressRow)
  : State * list ProgressRow :=
  foldl (fun c ev => step ev c) cfg evs.

(** The inserts issued along a run, oldest first. *)
Fixpoint inserts_of (evs : list Event) (cfg : State * list ProgressRow)
  : list ProgressRow :=
  match evs with
  | [] => []
  | ev :: evs' =>
      match ev with
      | Answer answerIndex accepted =>
          out_inserts (handleAnswer answerIndex accepted (snd cfg) (fst cfg))
      | _ => []
      end ++ inserts_of evs' (step ev cfg)
  end.

(** The number of rows of the table for the pair (user, quiz). *)
Definition records_for (uid quiz : string) (table : list ProgressRow) : nat :=
  length (List.filter
            (fun r => JS.seq (row_user_id r) uid && JS.seq (row_quiz_id r) quiz) table).

(** The number of local progress records for a quiz. *)
Definition local_records_for (quiz : string) (l : list UserProgress) : nat :=
  length (List.filter (fun p => JS.seq (quiz_id p) quiz) l).

(** The part of [fetchData] that reaches these cells: [quizData] and
    [progressData] are the [data] of the two queries ([null] when a query
    failed); the progress is fetched for a signed-in user only. *)
Definition fetchData (quizData : option (list Quiz))
    (progressData : option (list UserProgress)) (st : State) : State :=
  mkState (user st) (default [] quizData)
          (match user st with
           | Some _ => default [] progressData
           | None => userProgress st
           end)
          (selectedCategory st) (currentQuizIndex st) (selectedAnswer st)
          (showResult st).

(** What the progress query of [fetchData] answers for the state's user:
    that user's rows when it is served, [null] when it fails. *)
Definition progress_answer (served : bool) (table : list ProgressRow) (st : State)
  : option (list UserProgress) :=
  match user st with
  | Some uid => if served then Some (fetch_progress uid table) else None
  | None => None
  end.

(** A session across fetches: the events of the screen, and the answers
    of [fetchData] as they arrive. *)
Inductive SessionEvent : Type :=
| Ui (ev : Event)
| Refreshed (quizData : option (list Quiz)) (served : bool).

Definition session_step (cfg : State * list ProgressRow) (ev : SessionEvent)
  : State * list ProgressRow :=
  match ev with
  | Ui e => step e cfg
  | Refreshed quizData served =>
      (fetchData quizData (progress_answer served (snd cfg) (fst cfg)) (fst cfg),
       snd cfg)
  end.

Definition session (evs : list SessionEvent) (cfg : State * list ProgressRow)
  : State * list ProgressRow :=
  foldl session_step cfg evs.

(** [k] presses of "Next Question". *)
Definition nexts (k : nat) (st : State) : State :=
  Nat.iter k (fun s => fst (handleNext s)) st.

(** *** [handleAnswer] around its [await]

    The screen stays live while the insert is awaited: "Exit Quiz",
    "Next Question", a category card and, after those, an option button
    can all be pressed before the handler resumes. *)

(** An insert that has been sent and whose [await] has not resumed: the
    row, the notification the handler raises once it resumes, and
    whether the request has reached the table. *)
Record Pending := mkPending {
  pending_row : ProgressRow;
  pending_notice : Toast;
  pending_landed : bool
}.

(** What [handleAnswer] does on the click, before anything is awaited. *)
Record ClickOutcome := mkClickOutcome {
  click_state : State;
  click_insert : option Pending;
  click_toasts : list Toast;
  click_threw : bool
}.

(** [handleAnswer] up to its [await], on the state of the render whose
    button was pressed.  When no insert is sent the handler runs to its
    end and raises its notification at once. *)
Definition handleAnswer_click (answerIndex : Z) (st : State) : ClickOutcome :=
  if showResult st then mkClickOutcome st None [] false
  else
    let st1 := mkState (user st) (quizzes st) (userProgress st) (selectedCategory st)
                       (currentQuizIndex st) (Some answerIndex) true in
    match getCategoryQuizzes st (selectedCategory st) !! currentQuizIndex st with
    | None => mkClickOutcome st1 None [] true
    | Some currentQuiz =>
        let isCorrect := bool_decide (answerIndex = correct_answer currentQuiz) in
        let notice :=
          if isCorrect then toast_correct (points currentQuiz) else toast_incorrect in
        match user st with
        | None => mkClickOutcome st1 None [notice] false
        | Some uid =>
            let alreadyAnswered :=
              JS.some (fun p => JS.seq (quiz_id p) (id currentQuiz)) (userProgress st) in
            if alreadyAnswered then mkClickOutcome st1 None [notice] false
            else
              mkClickOutcome
                st1
                (Some (mkPending (mkProgressRow uid (id currentQuiz) isCorrect)
                                 notice false))
                [] false
        end
    end.

(** [handleAnswer] from its [await] on, on the state of the moment the
    insert returns: [setUserProgress(prev => [...prev, ...])] and the
    notification. *)
Definition handleAnswer_resume (p : Pending) (st : State) : State * list Toast :=
  (mkState (user st) (quizzes st)
           (userProgress st
            ++ [mkUserProgress (row_quiz_id (pending_row p))
                               (row_is_correct (pending_row p))])
           (selectedCategory st) (currentQuizIndex st) (selectedAnswer st)
           (showResult st),
   [pending_notice p]).

(** The screen with its requests in flight: the state, the
    [user_quiz_progress] table, and the inserts awaited, oldest first. *)
Record Live := mkLive {
  live_state : State;
  live_table : list ProgressRow;
  live_pending : list Pending
}.

(** What can happen to the live screen, one thing at a time: an option
    button is pressed; the [k]-th awaited insert reaches the table, which
    takes it or not; the [k]-th awaited insert, having reached the table,
    returns and its handler resumes; one of the other buttons is pressed;
    the answers of a [fetchData] arrive. *)
Inductive LiveEvent : Type :=
| Clicked (answerIndex : Z)
| Landed (k : nat) (accepted : bool)
| Resumed (k : nat)
| NextPressed
| Started (categoryId : string)
| Exited
| Refetched (quizData : option (list Quiz)) (progressData : option (list UserProgress)).

Definition with_landed (p : Pending) : Pending :=
  mkPending (pending_row p) (pending_notice p) true.

Definition live_step (cfg : Live) (ev : LiveEvent) : Live :=
  let '(mkLive st table pending) := cfg in
  match ev with
  | Clicked answerIndex =>
      let out := handleAnswer_click answerIndex st in
      mkLive (click_state out) table (pending ++ option_list (click_insert out))
  | Landed k accepted =>
      match pending !! k with
      | Some p =>
          if pending_landed p then cfg
          else mkLive st (if accepted then table ++ [pending_row p] else table)
                      (<[k := with_landed p]> pending)
      | None => cfg
      end
  | Resumed k =>
      match pending !! k with
      | Some p =>
          if pending_landed p
          then mkLive (fst (handleAnswer_resume p st)) table (delete k pending)
          else cfg
      | None => cfg
      end
  | NextPressed => mkLive (fst (handleNext st)) table pending
  | Started categoryId => mkLive (handleStartQuiz categoryId st) table pending
  | Exited => mkLive (exitQuiz st) table pending
  | Refetched quizData progressData =>
      mkLive (fetchData quizData progressData st) table pending
  end.

Definition live_run (evs : list LiveEvent) (cfg : Live) : Live :=
  foldl live_step cfg evs.

(** The awaited inserts for a quiz, and those of them that have not
    reached the table. *)
Definition pending_for (quiz : string) (l : list Pending) : nat :=
  length (List.filter (fun p => JS.seq (row_quiz_id (pending_row p)) quiz) l).

Definition unlanded_for (quiz : string) (l : list Pending) : nat :=
  length (List.filter
            (fun p => JS.seq (row_quiz_id (pending_row p)) quiz
                      && negb (pending_landed p)) l).

End Education.

(** ** Contact form *)

Module Contact.

Record FormData := mkFormData {
  name : string;
  email : string;
  subject : string;
  message : string
}.

(** One entry of [result.error.errors]. *)
Record Issue := mkIssue {
  path : string;
  issue_message : string
}.

(** [z.string().min(n, msg)] on the field [field]. *)
Definition check_min (n : nat) (msg field value : string) : list Issue :=
  if (String.length value <? n)%nat then [mkIssue field msg] else [].

(** [.max(n)], with the library's default message. *)
Definition check_max (n : nat) (field value : string) : list Issue :=
  if (n <? String.length value)%nat
  then [mkIssue field
          ("String must contain at most " ++ pretty n ++ " character(s)")]
  else [].

Section Schema.

(** The validation library's e-mail test. *)
Variable isEmail : string -> bool.

Definition check_email (msg field value : string) : list Issue :=
  if isEmail value then [] else [mkIssue field msg].

(** The issues [contactSchema] raises, field by field and check by
    check, in declaration order. *)
Definition contactSchema (f : FormData) : list Issue :=
  (check_min 2 "Name must be at least 2 characters" "name" (name f)
     ++ check_max 100 "name" (name f))
  ++ (check_email "Please enter a valid email address" "email" (email f)
     ++ check_max 255 "email" (email f))
  ++ (check_min 5 "Subject must be at least 5 characters" "subject" (subject f)
     ++ check_max 200 "subject" (subject f))
  ++ (check_min 10 "Message must be at least 10 characters" "message" (message f)
     ++ check_max 1000 "message" (message f)).

(** [contactSchema.safeParse(formData)]: the data, or the issues. *)
Definition safeParse (f : FormData) : FormData + list Issue :=
  match contactSchema f with
  | [] => inl f
  | issues => inr issues
  end.

Record State := mkState {
  formData : FormData;
  errors : gmap string string;
  loading : bool;
  submitted : bool
}.

(** The [forEach] that fills [fieldErrors]: a later issue on the same
    field overwrites an earlier one. *)
Definition collect_errors (issues : list Issue) : gmap string string :=
  foldl (fun fieldErrors err =>
           if JS.truthy (path err) then <[path err := issue_message err]> fieldErrors
           else fieldErrors)
        ∅ issues.

Definition toast_sent : Toast :=
  mkToast "Message sent!" "We will get back to you soon." false.

Definition toast_failed : Toast :=
  mkToast "Failed to send" "Please try again later." true.

Record SubmitOutcome := mkSubmitOutcome {
  out_state : State;
  out_inserts : list FormData;
  out_toasts : list Toast
}.

(** [handleSubmit]; [resp] is the answer to the insert, read only when
    the insert is issued. *)
Definition handleSubmit (resp : Response unit) (st : State) : SubmitOutcome :=
  let st0 := mkState (formData st) ∅ (loading st) (submitted st) in
  match safeParse (formData st) with
  | inr issues =>
      mkSubmitOutcome
        (mkState (formData st) (collect_errors issues) (loading st) (submitted st))
        [] []
  | inl _ =>
      let row := mkFormData (name (formData st)) (email (formData st))
                            (subject (formData st)) (message (formData st)) in
      match resp with
      | Err _ =>
          mkSubmitOutcome (mkState (formData st0) (errors st0) false (submitted st0))
                          [row] [toast_failed]
      | Ok _ =>
          mkSubmitOutcome (mkState (formData st0) (errors st0) false true)
                          [row] [toast_sent]
      end
  end.

(** The schema in the words of its description: the bounds on each
    field. *)
Definition name_ok (f : FormData) : bool :=
  (2 <=? String.length (name f))%nat && (String.length (name f) <=? 100)%nat.

Definition email_ok (f : FormData) : bool :=
  isEmail (email f) && (String.length (email f) <=? 255)%nat.

Definition subject_ok (f : FormData) : bool :=
  (5 <=? String.length (subject f))%nat && (String.length (subject f) <=? 200)%nat.

Definition message_ok (f : FormData) : bool :=
  (10 <=? String.length (message f))%nat && (String.length (message f) <=? 1000)%nat.

Definition form_ok (f : FormData) : bool :=
  name_ok f && email_ok f && subject_ok f && message_ok f.

(** Whether a field of the form meets its bounds ([true] for a name
    that is not a field). *)
Definition field_ok (f : FormData) (field : string) : bool :=
  if JS.seq field "name" then name_ok f
  else if JS.seq field "email" then email_ok f
  else if JS.seq field "subject" then subject_ok f
  else if JS.seq field "message" then message_ok f
  else true.

End Schema.

(** A stand-in e-mail test for examples: some character, an [@], some
    character. *)
Definition sample_isEmail (s : string) : bool :=
  match String.index 0 "@" s with
  | Some (S n) => (S (S n) <? String.length s)%nat
  | _ => false
  end.

(** [{ ...prev, [name]: value }] on the form. *)
Definition set_field (field value : string) (f : FormData) : FormData :=
  if JS.seq field "name" then mkFormData value (email f) (subject f) (message f)
  else if JS.seq field "email" then mkFormData (name f) value (subject f) (message f)
  else if JS.seq field "subject" then mkFormData (name f) (email f) value (message f)
  else if JS.seq field "message" then mkFormData (name f) (email f) (subject f) value
  else f.

(** [handleChange]: store the value and blank the field's error when it
    has one. *)
Definition handleChange (field value : string) (st : State) : State :=
  mkState (set_field field value (formData st))
          (if JS.truthy (default "" (errors st !! field))
           then <[field := ""]> (errors st)
           else errors st)
          (loading st) (submitted st).

(** The message rendered under a field: [errors.field && <p>...</p>]. *)
Definition error_shown (st : State) (field : string) : option string :=
  match errors st !! field with
  | Some m => if JS.truthy m then Some m else None
  | None => None
  end.

End Contact.

(** ** Report submission *)

Module ReportNow.

(** A selected file; only its name is read. *)
Record File := mkFile {
  file_name : string
}.

Record FormData := mkFormData {
  category : string;
  severity : string;
  title : string;
  description : string;
  address : string;
  city : string;
  state : string;
  pincode : string;
  latitude : option Q;
  longitude : option Q
}.

Record State := mkState {
  formData : FormData;
  images : list File;
  loading : bool;
  submitted : bool;
  reportNumber : string
}.

(** The first render; [param] is [searchParams.get('category')]. *)
Definition initial (param : option string) : State :=
  mkState (mkFormData (JS.or_default param "") "medium" "" "" "" "" "" "" None None)
          [] false false "".

(** [{ ...prev, [name]: value }] on the text fields of the form; a name
    that is not a field of the form adds a key nothing reads. *)
Definition set_field (field value : string) (f : FormData) : FormData :=
  if JS.seq field "category" then
    mkFormData value (severity f) (title f) (description f) (address f) (city f)
               (state f) (pincode f) (latitude f) (longitude f)
  else if JS.seq field "severity" then
    mkFormData (category f) value (title f) (description f) (address f) (city f)
               (state f) (pincode f) (latitude f) (longitude f)
  else if JS.seq field "title" then
    mkFormData (category f) (severity f) value (description f) (address f) (city f)
               (state f) (pincode f) (latitude f) (longitude f)
  else if JS.seq field "description" then
    mkFormData (category f) (severity f) (title f) value (address f) (city f)
               (state f) (pincode f) (latitude f) (longitude f)
  else if JS.seq field "address" then
    mkFormData (category f) (severity f) (title f) (description f) value (city f)
               (state f) (pincode f) (latitude f) (longitude f)
  else if JS.seq field "city" then
    mkFormData (category f) (severity f) (title f) (description f) (address f) value
               (state f) (pincode f) (latitude f) (longitude f)
  else if JS.seq field "state" then
    mkFormData (category f) (severity f) (title f) (description f) (address f) (city f)
               value (pincode f) (latitude f) (longitude f)
  else if JS.seq field "pincode" then
    mkFormData (category f) (severity f) (title f) (description f) (address f) (city f)
               (state f) value (latitude f) (longitude f)
  else f.

Definition with_formData (f : FormData) (st : State) : State :=
  mkState f (images st) (loading st) (submitted st) (reportNumber st).

Definition with_images (l : list File) (st : State) : State :=
  mkState (formData st) l (loading st) (submitted st) (reportNumber st).

(** [handleChange] and [handleSelectChange]. *)
Definition handleChange (field value : string) (st : State) : State :=
  with_formData (set_field field value (formData st)) st.

(** The position callback of [getLocation]: the coordinates. *)
Definition setCoordinates (lat lon : Q) (st : State) : State :=
  let f := formData st in
  with_formData
    (mkFormData (category f) (severity f) (title f) (description f) (address f)
                (city f) (state f) (pincode f) (Some lat) (Some lon)) st.

(** [handleImageUpload]; [files] is [e.target.files]. *)
Definition handleImageUpload (files : option (list File)) (st : State) : State :=
  match files with
  | None => st
  | Some fs =>
      let newFiles := JS.slice0 fs (5 - Z.of_nat (length (images st))) in
      with_images (images st ++ newFiles) st
  end.

(** [prev.filter((_, i) => i !== index)]. *)
Definition remove_at {A} (index : nat) (l : list A) : list A :=
  snd <$> List.filter (fun ix => negb (fst ix =? index)%nat)
                      (imap (fun i x => (i, x)) l).

Definition removeImage (index : nat) (st : State) : State :=
  with_images (remove_at index (images st)) st.

(** What the form can do before it is submitted. *)
Inductive Event : Type :=
| Change (field value : string)
| Located (lat lon : Q)
| ImageUpload (files : option (list File))
| RemoveImage (index : nat).

Definition step (st : State) (ev : Event) : State :=
  match ev with
  | Change field value => handleChange field value st
  | Located lat lon => setCoordinates lat lon st
  | ImageUpload files => handleImageUpload files st
  | RemoveImage index => removeImage index st
  end.

Definition run (evs : list Event) (st : State) : State := foldl step st evs.

(** The row object handed to [insert]. *)
Record InsertRow := mkInsertRow {
  ins_user_id : string;
  ins_report_number : string;
  ins_category : string;
  ins_severity : string;
  ins_title : string;
  ins_description : string;
  ins_address : string;
  ins_city : string;
  ins_state : string;
  ins_pincode : string;
  ins_latitude : option Q;
  ins_longitude : option Q;
  ins_image_urls : list string
}.

(** What the table generates for a new row. *)
Record Generated := mkGenerated {
  gen_id : string;
  gen_report_number : string;
  gen_created_at : string
}.

(** What the backend and the clock answer during one submission:
    [date_now i] is [Date.now()] at the i-th image, [upload_error i] the
    error of its upload ([None] when it succeeded), [public_url] what
    the storage client answers to [getPublicUrl] for a file name (it
    encodes the name as the client library sees fit), [insert_answer]
    the answer to the insert. *)
Record Env := mkEnv {
  date_now : nat -> Z;
  upload_error : nat -> option string;
  public_url : string -> string;
  insert_answer : Response Generated
}.

(** Modelled from the spec: the [reports] table's handling of an insert
    (sections 3 and 4.1: "created on submission with status submitted",
    "a server-assigned tracking number").  The columns the client leaves
    out take their defaults, the tracking number is replaced by the
    generated one, and the categorical columns are kept as sent. *)
Definition created_row (g : Generated) (r : InsertRow) : Report :=
  mkReport (gen_id g) (gen_report_number g) (ins_title r) (ins_description r)
           (ins_category r) (ins_severity r) status_default
           (Some (ins_address r)) (Some (ins_city r)) (Some (ins_state r))
           None None (Some (ins_image_urls r))
           (gen_created_at g) (gen_created_at g) None (Some (ins_user_id r)).

(** [`${user.id}/${Date.now()}-${image.name}`]. *)
Definition fileName_of (uid : string) (now : Z) (image : File) : string :=
  uid ++ "/" ++ pretty now ++ "-" ++ file_name image.

(** [getPublicUrl(fileName).data.publicUrl]. *)
Definition getPublicUrl (env : Env) (fileName : string) : string :=
  public_url env fileName.

(** The [for (const image of images)] loop from position [i] on: the
    uploads attempted and the URLs pushed on [imageUrls]. *)
Fixpoint upload_loop (env : Env) (uid : string) (i : nat) (imgs : list File)
    (imageUrls : list string) : list string * list string :=
  match imgs with
  | [] => ([], imageUrls)
  | image :: rest =>
      let fileName := fileName_of uid (date_now env i) image in
      let imageUrls' :=
        match upload_error env i with
        | None => (imageUrls ++ [getPublicUrl env fileName])%list
        | Some _ => imageUrls
        end in
      let '(attempted, urls) := upload_loop env uid (S i) rest imageUrls' in
      (fileName :: attempted, urls)
  end.

Definition toast_missing : Toast :=
  mkToast "Missing information" "Please fill in all required fields." true.

Definition toast_submitted (number : string) : Toast :=
  mkToast "Report submitted!" ("Your report ID is " ++ number) false.

Definition toast_submission_failed (message : string) : Toast :=
  mkToast "Submission failed" (JS.or_else message "Please try again later.") true.

Record SubmitOutcome := mkSubmitOutcome {
  out_state : State;
  out_uploads : list string;
  out_inserts : list InsertRow;
  out_created : option Report;
  out_toasts : list Toast
}.

(** The three required fields are filled. *)
Definition required_filled (f : FormData) : bool :=
  JS.truthy (category f) && JS.truthy (title f) && JS.truthy (description f).

(** [handleSubmit]; [user] is the signed-in user's id, which the handler
    dereferences without a test. *)
Definition handleSubmit (user : option string) (env : Env) (st : State)
  : SubmitOutcome :=
  let f := formData st in
  if negb (required_filled f) then mkSubmitOutcome st [] [] None [toast_missing]
  else
    match user with
    | None =>
        mkSubmitOutcome
          (mkState f (images st) false (submitted st) (reportNumber st))
          [] [] None
          [toast_submission_failed "Cannot read properties of null (reading 'id')"]
    | Some uid =>
        let '(attempted, imageUrls) := upload_loop env uid 0 (images st) [] in
        let row :=
          mkInsertRow uid "TEMP" (category f) (severity f) (title f) (description f)
                      (address f) (city f) (state f) (pincode f)
                      (latitude f) (longitude f) imageUrls in
        match insert_answer env with
        | Err message =>
            mkSubmitOutcome
              (mkState f (images st) false (submitted st) (reportNumber st))
              attempted [row] None [toast_submission_failed message]
        | Ok g =>
            mkSubmitOutcome
              (mkState f (images st) false true (gen_report_number g))
              attempted [row] (Some (created_row g row))
              [toast_submitted (gen_report_number g)]
        end
    end.

(** The images whose upload succeeded, by position from [i] on. *)
Fixpoint uploaded_from (env : Env) (i : nat) (imgs : list File) : list (nat * File) :=
  match imgs with
  | [] => []
  | image :: rest =>
      match upload_error env i with
      | None => (i, image) :: uploaded_from env (S i) rest
      | Some _ => uploaded_from env (S i) rest
      end
  end.

Definition uploaded (env : Env) (st : State) : list (nat * File) :=
  uploaded_from env 0 (images st).

(** The public URL of the image uploaded at position [i]. *)
Definition url_of (env : Env) (uid : string) (ix : nat * File) : string :=
  getPublicUrl env (fileName_of uid (date_now env (fst ix)) (snd ix)).

(** "Submit Another Report". *)
Definition resetForm (st : State) : State :=
  mkState (mkFormData "" "medium" "" "" "" "" "" "" None None)
          [] (loading st) false "".

(** The [address] object of a reverse-geocoding answer. *)
Record GeoAddress := mkGeoAddress {
  geo_city : option string;
  geo_town : option string;
  geo_village : option string;
  geo_state : option string;
  geo_postcode : option string
}.

(** What the reverse geocoder gives: nothing usable (the request or the
    parsing threw), or a document with an optional [display_name] and an
    optional [address]. *)
Inductive Geocode : Type :=
| GeoFailed
| GeoAnswer (display_name : option string) (geo_address : option GeoAddress).

Definition toast_location_detected : Toast :=
  mkToast "Location detected" "Your location has been added to the report." false.

Definition toast_location_error : Toast :=
  mkToast "Location error" "Unable to get your location. Please enter manually." true.

Definition toast_geolocation_unsupported : Toast :=
  mkToast "Geolocation not supported"
          "Your browser does not support location services." true.

(** The success callback of [getLocation]: store the coordinates, then
    the address when the geocoder gave one. *)
Definition onPosition (lat lon : Q) (geo : Geocode) (st : State) : State * list Toast :=
  let st1 := setCoordinates lat lon st in
  let st2 :=
    match geo with
    | GeoAnswer display_name (Some a) =>
        let f := formData st1 in
        with_formData
          (mkFormData (category f) (severity f) (title f) (description f)
             (JS.or_default display_name "")
             (JS.or_else
                (JS.or_else (JS.or_default (geo_city a) "")
                            (JS.or_default (geo_town a) ""))
                (JS.or_default (geo_village a) ""))
             (JS.or_default (geo_state a) "")
             (JS.or_default (geo_postcode a) "")
             (latitude f) (longitude f)) st1
    | _ => st1
    end in
  (st2, [toast_location_detected]).

(** What the browser answers to [getLocation]. *)
Inductive Position : Type :=
| Unsupported
| Denied
| Positioned (lat lon : Q) (geo : Geocode).

Definition getLocation (pos : Position) (st : State) : State * list Toast :=
  match pos with
  | Unsupported => (st, [toast_geolocation_unsupported])
  | Denied => (st, [toast_location_error])
  | Positioned lat lon geo => onPosition lat lon geo st
  end.

End ReportNow.

(** * Sample data and reference notions *)

Local Open Scope list_scope.

Definition sample_report (number : string) (s : ReportStatus) : Report :=
  mkReport "r-1" number "Open manhole" "Cover missing near the market"
           "drainage" "high" s (Some "MG Road") None (Some "Maharashtra")
           None None None "2025-01-05T10:00:00Z" "2025-01-05T10:00:00Z" None
           (Some "u-1").

(** The number of reports of a list in a given status. *)
Definition count_status (s : ReportStatus) (l : list Report) : nat :=
  count_occ ReportStatus_eq_dec (status <$> l) s.

(** The value a form field contributes to an update: nothing when the
    field is empty. *)
Definition filled (v : string) : option string :=
  if decide (v = "") then None else Some v.

Definition sample_admin_state : Admin.State :=
  Admin.mkState [sample_report "CIV-1" assigned] (Admin.mkStats 1 0 1 0) false
                "" "all" "all" (Some (sample_report "CIV-1" assigned))
                (Admin.mkUpdateData "resolved" "" "Fixed on site") false.


(** Every question of the category has a progress record of the user. *)
Definition all_answered (st : Education.State) (categoryId : string) : Prop :=
  forall q : Education.Quiz,
    q ∈ Education.getCategoryQuizzes st (Some categoryId) ->
    exists p : Education.UserProgress,
      p ∈ Education.userProgress st /\ Education.quiz_id p = Education.id q.

(** The progress-ratio property for one state and category: on a
    category with questions, the ratio lies between 0 and 1 and is 1
    exactly when every question has a record. *)
Definition ratio_in_unit_interval (st : Education.State) (categoryId : string) : Prop :=
  let p := Education.getCategoryProgress st categoryId in
  (0 < Education.total p)%nat ->
  (0 <= Education.ratio p)%Q /\ (Education.ratio p <= 1)%Q
  /\ ((Education.ratio p == 1)%Q <-> all_answered st categoryId).

Definition sample_quizzes : list Education.Quiz :=
  [Education.mkQuiz "q-1" "Who maintains city roads?" ["State"; "Municipality"] 1 10 "civic";
   Education.mkQuiz "q-2" "Helmet is mandatory for?" ["Rider"; "Both"] 1 10 "traffic";
   Education.mkQuiz "q-3" "Emergency number?" ["112"; "911"] 0 5 "civic"].

(** A progress list holding two records for the same question. *)
Definition duplicated_progress_state : Education.State :=
  Education.mkState (Some "u-1") sample_quizzes
    [Education.mkUserProgress "q-2" true; Education.mkUserProgress "q-2" false]
    None 0 None false.

Definition sample_quiz_state : Education.State :=
  Education.mkState (Some "u-1") sample_quizzes
    [Education.mkUserProgress "q-1" true] (Some "civic") 0 None false.

(** The two ways a run of [handleAnswer] can go: nothing is recorded, or
    one record for a question that had none locally is inserted and
    appended to the local list. *)
Inductive answer_effect (accepted : bool) (table : list Education.ProgressRow)
    (st : Education.State) (out : Education.AnswerOutcome) : Prop :=
| effect_none :
    Education.out_inserts out = [] ->
    Education.userProgress (Education.out_state out) = Education.userProgress st ->
    Education.out_table out = table ->
    answer_effect accepted table st out
| effect_insert (uid quiz : string) (isCorrect : bool) :
    Education.user st = Some uid ->
    Education.local_records_for quiz (Education.userProgress st) = 0%nat ->
    Education.out_inserts out = [Education.mkProgressRow uid quiz isCorrect] ->
    Education.userProgress (Education.out_state out)
    = (Education.userProgress st ++ [Education.mkUserProgress quiz isCorrect])%list ->
    Education.out_table out
    = (if accepted then (table ++ [Education.mkProgressRow uid quiz isCorrect])%list
       else table) ->
    answer_effect accepted table st out.

Definition step_inserts (ev : Education.Event)
    (cfg : Education.State * list Education.ProgressRow) : list Education.ProgressRow :=
  match ev with
  | Education.Answer answerIndex accepted =>
      Education.out_inserts
        (Education.handleAnswer answerIndex accepted (snd cfg) (fst cfg))
  | _ => []
  end.

Definition sample_progress_table : list Education.ProgressRow :=
  [Education.mkProgressRow "u-9" "q-3" false;
   Education.mkProgressRow "u-1" "q-1" true].

(** Answer the first civic question again, move on, answer the second
    one, finish, start over and answer once more. *)
Definition sample_session : list Education.Event :=
  [Education.Answer 1 true; Education.Next; Education.Answer 0 true;
   Education.Next; Education.Start "civic"; Education.Answer 1 true;
   Education.Next; Education.Answer 1 false].

Definition sample_contact_state : Contact.State :=
  Contact.mkState
    (Contact.mkFormData "A" "asha@example.org" "Streetlight out on 4th lane"
                        "short")
    ∅ false false.

Definition photo (n : string) : ReportNow.File := ReportNow.mkFile n.

(** Fill the required fields, pick four photos, try to add three more,
    drop the first one. *)
Definition sample_form_events : list ReportNow.Event :=
  [ReportNow.Change "title" "Pothole on 4th lane";
   ReportNow.Change "description" "Deep pothole next to the bus stop";
   ReportNow.ImageUpload (Some [photo "a.jpg"; photo "b.jpg"; photo "c.jpg"; photo "d.jpg"]);
   ReportNow.ImageUpload (Some [photo "e.jpg"; photo "f.jpg"; photo "g.jpg"]);
   ReportNow.RemoveImage 0].

(** The upload of the second image fails; the insert succeeds. *)
Definition sample_env : ReportNow.Env :=
  ReportNow.mkEnv (fun i => 1700000000000 + Z.of_nat i)
                  (fun i => if (i =? 1)%nat then Some "Payload too large" else None)
                  (fun fileName => "https://cdn.example/report-images/" +:+ fileName)
                  (Ok (ReportNow.mkGenerated "r-77" "CIV-2025-0077"
                                             "2025-03-01T08:00:00Z")).

(** Two rows carrying the same tracking number. *)
Definition duplicated_number_table : list Report :=
  [sample_report "CIV-7" submitted; sample_report "CIV-8" assigned;
   sample_report "CIV-7" resolved].

(** A morning on the dashboard: the first fetch arrives, the admin
    filters, searches, opens a report, resolves it, and the refetch
    arrives. *)
Definition sample_admin_events : list Admin.Event :=
  [Admin.Fetched (Ok (Some [sample_report "CIV-1" assigned;
                            sample_report "CIV-2" rejected]));
   Admin.StatusPicked "assigned";
   Admin.Fetched (Err "timeout");
   Admin.SearchTyped "civ";
   Admin.Opened (sample_report "CIV-1" assigned);
   Admin.StatusChosen "resolved";
   Admin.RemarksTyped "Fixed on site";
   Admin.Saved "2025-02-01T09:30:00.000Z" (Ok tt)
               (Ok (Some [sample_report "CIV-1" resolved]))].

(** A string of [n] spaces. *)
Fixpoint spaces (n : nat) : string :=
  match n with
  | O => EmptyString
  | S n' => String " "%char (spaces n')
  end.

(** The board entry made of a profile and a number of badges. *)
Definition entry_of (p : Leaderboard.Profile) (badges : nat) : Leaderboard.LeaderboardEntry :=
  Leaderboard.mkEntry (Leaderboard.p_id p) (Leaderboard.p_user_id p)
                      (Leaderboard.p_full_name p) (Leaderboard.p_points p)
                      (Leaderboard.p_city p) badges.

(** Profiles in no particular order, the signed-in user "u-1" third. *)
Definition unsorted_profiles : list Leaderboard.Profile :=
  [Leaderboard.mkProfile "p-3" "u-4" (Some "Vikram N") 95 (Some "Nagpur");
   Leaderboard.mkProfile "p-1" "u-7" (Some "Asha Rao") 320 (Some "Pune");
   Leaderboard.mkProfile "p-2" "u-1" None 180 None].

(** In quiz mode the current index points at a question of the selected
    category. *)
Definition in_range (st : Education.State) : Prop :=
  match Education.selectedCategory st with
  | None => True
  | Some c =>
      (Education.currentQuizIndex st
       < length (Education.getCategoryQuizzes st (Some c)))%nat
  end.

(** The "Start Quiz" button is disabled on a category without
    questions. *)
Definition start_enabled (quizzes : list Education.Quiz) (ev : Education.Event) : Prop :=
  match ev with
  | Education.Start c => exists q, q ∈ quizzes /\ Education.category_id q = c
  | _ => True
  end.

(** The message of a [max] check. *)
Definition max_message (n : nat) : string :=
  "String must contain at most " +:+ pretty n +:+ " character(s)".

(** The message a failed submission leaves on each field of the contact
    form: the length message when the value is too long, else the
    field's own message when it is too short (or not an e-mail), else
    none. *)
Definition expected_error (isEmail : string -> bool) (f : Contact.FormData)
    (field : string) : option string :=
  if JS.seq field "name" then
    if (100 <? String.length (Contact.name f))%nat then Some (max_message 100)
    else if (String.length (Contact.name f) <? 2)%nat
         then Some "Name must be at least 2 characters" else None
  else if JS.seq field "email" then
    if (255 <? String.length (Contact.email f))%nat then Some (max_message 255)
    else if isEmail (Contact.email f) then None
         else Some "Please enter a valid email address"
  else if JS.seq field "subject" then
    if (200 <? String.length (Contact.subject f))%nat then Some (max_message 200)
    else if (String.length (Contact.subject f) <? 5)%nat
         then Some "Subject must be at least 5 characters" else None
  else if JS.seq field "message" then
    if (1000 <? String.length (Contact.message f))%nat then Some (max_message 1000)
    else if (String.length (Contact.message f) <? 10)%nat
         then Some "Message must be at least 10 characters" else None
  else None.

(** A form that fails on its name and, twice, on its e-mail. *)
Definition sample_long_email_state : Contact.State :=
  Contact.mkState
    (Contact.mkFormData "A"
       (String.string_of_list_ascii (List.repeat "x"%char 256))
       "Streetlight out on 4th lane" "The lamp post at the corner is dark.")
    ∅ false false.

(** A form with a typed PIN code, and a geocoder answer that knows the
    town but neither a city nor a postcode. *)
Definition sample_typed_form : ReportNow.State :=
  ReportNow.run [ReportNow.Change "pincode" "411001"; ReportNow.Change "city" "Poona"]
                (ReportNow.initial (Some "pothole")).

Definition sample_geocode : ReportNow.Geocode :=
  ReportNow.GeoAnswer (Some "4th Lane, Baner, Maharashtra")
    (Some (ReportNow.mkGeoAddress None (Some "Baner") (Some "Balewadi")
                                  (Some "Maharashtra") None)).

(** The live screen as a fetch leaves it: nothing is awaited. *)
Definition fetched (st : Education.State) (table : list Education.ProgressRow)
  : Education.Live :=
  Education.mkLive st table [].

(** An event that keeps the answer handler's check meaningful: an option
    button is pressed on a question only while no insert for that
    question is still awaited, and the progress a refetch brings is what
    the table holds for the user at the moment it arrives. *)
Definition event_calm (cfg : Education.Live) (ev : Education.LiveEvent) : Prop :=
  match ev with
  | Education.Clicked answerIndex =>
      match Education.click_insert
              (Education.handleAnswer_click answerIndex (Education.live_state cfg)) with
      | Some p =>
          Education.pending_for (Education.row_quiz_id (Education.pending_row p))
                                (Education.live_pending cfg) = 0%nat
      | None => True
      end
  | Education.Refetched _ progressData =>
      progressData
      = Education.progress_answer true (Education.live_table cfg)
                                  (Education.live_state cfg)
  | _ => True
  end.

Fixpoint calm (evs : list Education.LiveEvent) (cfg : Education.Live) : Prop :=
  match evs with
  | [] => True
  | ev :: evs' => event_calm cfg ev /\ calm evs' (Education.live_step cfg ev)
  end.

(** An event within one fetched progress state. *)
Definition no_refetch (ev : Education.LiveEvent) : Prop :=
  match ev with
  | Education.Refetched _ _ => False
  | _ => True
  end.

(** "At most one record per (user, quiz) pair" for one run of the live
    screen from the fetched progress of the signed-in user, within that
    fetched state. *)
Definition one_record_per_pair (uid : string) (evs : list Education.LiveEvent)
    (st : Education.State) (table : list Education.ProgressRow) : Prop :=
  Education.user st = Some uid ->
  Education.userProgress st = Education.fetch_progress uid table ->
  Forall no_refetch evs ->
  forall quiz,
    (Education.records_for uid quiz
       (Education.live_table (Education.live_run evs (fetched st table))) <= 1)%nat
    /\ (Education.local_records_for quiz
          (Education.userProgress
             (Education.live_state (Education.live_run evs (fetched st table)))) <= 1)%nat.

(** A table that already holds two records for one pair, as two
    screens of the same user can leave it. *)
Definition twice_recorded_table : list Education.ProgressRow :=
  [Education.mkProgressRow "u-1" "q-1" true;
   Education.mkProgressRow "u-1" "q-1" false].

(** Answer the first civic question, leave the quiz and start it again
    while the insert is awaited, answer the same question once more;
    then both inserts reach the table and both handlers resume. *)
Definition interleaved_answers : list Education.LiveEvent :=
  [Education.Clicked 1; Education.Exited; Education.Started "civic";
   Education.Clicked 1;
   Education.Landed 0 true; Education.Landed 1 true;
   Education.Resumed 0; Education.Resumed 0].

(** Answer a known question, move on and answer a new one; leave while
    its insert is awaited and answer a question of another category;
    the two inserts land and return in the other order; retake the first
    category. *)
Definition sample_live_session : list Education.LiveEvent :=
  [Education.Clicked 1; Education.NextPressed; Education.Clicked 0;
   Education.Exited; Education.Started "traffic"; Education.Clicked 1;
   Education.Landed 1 true; Education.Landed 0 true;
   Education.Resumed 1; Education.Resumed 0;
   Education.Started "civic"; Education.Clicked 1; Education.NextPressed;
   Education.Clicked 0].

(** The same with a refetch arriving between the landing of an insert and
    the resumption of its handler. *)
Definition sample_live_refetch : list Education.LiveEvent :=
  [Education.Clicked 1; Education.NextPressed; Education.Clicked 0;
   Education.Landed 0 true;
   Education.Refetched
     (Some sample_quizzes)
     (Some (Education.fetch_progress
              "u-1" (sample_progress_table
                     ++ [Education.mkProgressRow "u-1" "q-3" true])));
   Education.Resumed 0;
   Education.Started "civic"; Education.NextPressed; Education.Clicked 0].

(** What is kept along a calm run: the signed-in user, the awaited
    inserts are that user's, and every pair the table records is
    recorded locally or still awaited. *)
Definition live_inv (uid : string) (cfg : Education.Live) : Prop :=
  Education.user (Education.live_state cfg) = Some uid
  /\ Forall (fun p => Education.row_user_id (Education.pending_row p) = uid)
            (Education.live_pending cfg)
  /\ forall quiz,
       (0 < Education.records_for uid quiz (Education.live_table cfg))%nat ->
       (0 < Education.local_records_for quiz
              (Education.userProgress (Education.live_state cfg)))%nat
       \/ (0 < Education.pending_for quiz (Education.live_pending cfg))%nat.

(** * Properties *)

(** ** JavaScript helpers on small inputs *)

Example trim_both_ends : JS.trim "  CIV-2025-0042 " = "CIV-2025-0042".
Proof. reflexivity. Qed.

Example trim_blank : JS.trim "   " = "".
Proof. reflexivity. Qed.

Example toLowerCase_mixed : JS.toLowerCase "MG Road, Pune-411001" = "mg road, pune-411001".
Proof. reflexivity. Qed.

Example includes_inner : JS.includes "open manhole" "n man" = true.
Proof. reflexivity. Qed.

Example includes_absent : JS.includes "open manhole" "mane" = false.
Proof. reflexivity. Qed.

Example indexOf_absent : JS.indexOf [1; 2; 3] 7 = -1.
Proof. reflexivity. Qed.

Example slice0_room_for_two : JS.slice0 ["a"; "b"; "c"] 2 = ["a"; "b"].
Proof. reflexivity. Qed.

Example slice0_no_room : JS.slice0 ["a"; "b"; "c"] 0 = [].
Proof. reflexivity. Qed.

Example slice0_negative : JS.slice0 ["a"; "b"; "c"] (-1) = ["a"; "b"].
Proof. reflexivity. Qed.

Example remove_at_middle : ReportNow.remove_at 1 ["a"; "b"; "c"] = ["a"; "c"].
Proof. reflexivity. Qed.

(** ** Report tracking *)

Lemma getStatusIndex_table (s : ReportStatus) :
  Track.getStatusIndex s =
  match s with
  | submitted => 0
  | in_review => 1
  | assigned => 2
  | in_progress => 3
  | resolved => 4
  | rejected => -1
  end.
Proof. destruct s; reflexivity. Qed.

Lemma timeline_length (r : Report) : length (Track.timeline r) = 5%nat.
Proof. unfold Track.timeline. rewrite length_imap. reflexivity. Qed.

Lemma timeline_lookup (r : Report) (i : nat) (step : Track.Step) :
  Track.timeline r !! i = Some step ->
  exists s, Track.statusOrder !! i = Some s /\ step = Track.render_step r i s.
Proof.
  unfold Track.timeline. rewrite list_lookup_imap.
  destruct (Track.statusOrder !! i) as [s|]; simpl; [|discriminate].
  intros [= <-]. exists s. split; reflexivity.
Qed.

(** C7: the timeline shows the five steps submitted, in_review,
    assigned, in_progress, resolved in that order; the step at position
    [i] is marked completed exactly when the index of the report's status
    in that sequence is at least [i]; the index of rejected is -1, so a
    rejected report has no completed (and no current) step and shows
    rejected only on its badge. *)
Theorem timeline_completed_steps (r : Report) :
  Track.statusOrder = [submitted; in_review; assigned; in_progress; resolved]
  /\ Track.step_status <$> Track.timeline r = Track.statusOrder
  /\ (forall (i : nat) (step : Track.Step),
        Track.timeline r !! i = Some step ->
        (Track.isCompleted step = true <->
         Z.of_nat i <= Track.getStatusIndex (status r)))
  /\ Track.getStatusIndex (status r)
     = match status r with
       | submitted => 0
       | in_review => 1
       | assigned => 2
       | in_progress => 3
       | resolved => 4
       | rejected => -1
       end
  /\ (status r = rejected ->
        Forall (fun step => Track.isCompleted step = false
                            /\ Track.isCurrent step = false
                            /\ Track.step_status step <> rejected)
               (Track.timeline r)
        /\ Track.badge r = "Rejected").
Proof.
  split; [reflexivity|]. split; [reflexivity|]. split.
  - intros i step Hstep.
    destruct (timeline_lookup r i step Hstep) as (s & _ & ->).
    unfold Track.render_step; simpl.
    rewrite Z.geb_le. reflexivity.
  - split; [apply getStatusIndex_table|].
    intros Hrej. split.
    + unfold Track.timeline, Track.render_step. rewrite Hrej. simpl.
      repeat constructor; discriminate.
    + unfold Track.badge. rewrite Hrej. reflexivity.
Qed.

Lemma timeline_completed_steps_witness :
  (Track.isCompleted (Track.mkStep assigned true false) = true <->
   Z.of_nat 2 <= Track.getStatusIndex (status (sample_report "CIV-1" in_progress)))
  /\ Track.badge (sample_report "CIV-2" rejected) = "Rejected".
Proof.
  split.
  - apply (proj1 (proj2 (proj2
             (timeline_completed_steps (sample_report "CIV-1" in_progress)))) 2%nat).
    reflexivity.
  - apply (proj2 (proj2 (proj2 (proj2
             (timeline_completed_steps (sample_report "CIV-2" rejected)))))).
    reflexivity.
Defined.

Lemma maybeSingle_rows (rows : list Report) :
  (length (Track.rows_of (Track.maybeSingle rows)) <= 1)%nat.
Proof. destruct rows as [|r [|r' rows]]; simpl; lia. Qed.

Lemma eq_report_number_none (reportId : string) (table : list Report) :
  Forall (fun r => report_number r <> reportId) table ->
  Track.eq_report_number reportId table = [].
Proof.
  unfold Track.eq_report_number. induction 1 as [|r table Hr _ IH]; [reflexivity|].
  rewrite filter_cons_False by exact Hr. exact IH.
Qed.

Lemma truthy_nonempty (s : string) : s <> "" -> JS.truthy s = true.
Proof. destruct s; [congruence | reflexivity]. Qed.

Lemma lookup_rows (failure : option string) (table : list Report) (reportId : string) :
  (length (Track.rows_of (Track.lookup failure table reportId)) <= 1)%nat
  /\ Forall (fun r => r ∈ table /\ report_number r = reportId)
            (Track.rows_of (Track.lookup failure table reportId)).
Proof.
  unfold Track.lookup. destruct failure as [message|]; [simpl; split; [lia | constructor]|].
  split; [apply maybeSingle_rows|].
  destruct (Track.eq_report_number reportId table) as [|r [|r' rows]] eqn:Hrows;
    simpl; try constructor; [|constructor].
  assert (r ∈ Track.eq_report_number reportId table) as Hin
    by (rewrite Hrows; apply list_elem_of_singleton; reflexivity).
  unfold Track.eq_report_number in Hin. rewrite list_elem_of_filter in Hin. tauto.
Qed.

Lemma eq_report_number_nil (reportId : string) (table : list Report) :
  Track.eq_report_number reportId table = []
  <-> Forall (fun r => report_number r <> reportId) table.
Proof.
  split; [|apply eq_report_number_none].
  intros Hnil. apply Forall_forall. intros r Hr Heq.
  assert (r ∈ Track.eq_report_number reportId table) as Hin
    by (unfold Track.eq_report_number; rewrite list_elem_of_filter; tauto).
  rewrite Hnil in Hin. apply elem_of_nil in Hin. exact Hin.
Qed.

Lemma lookup_no_row (table : list Report) (reportId : string) :
  Track.lookup None table reportId = Ok None
  <-> Forall (fun r => report_number r <> reportId) table.
Proof.
  rewrite <- eq_report_number_nil. unfold Track.lookup.
  destruct (Track.eq_report_number reportId table) as [|r [|r' rows]]; simpl;
    split; intros H; congruence.
Qed.

(** With nothing to look up the handler asks for an identifier and
    leaves the state alone; no query is issued. *)
Lemma searchReport_blank (arg : option string)
    (backend : string -> Response (option Report)) (st : Track.State) :
  Track.reportId_of arg st = "" ->
  Track.searchReport arg backend st = (st, [Track.toast_enter_id]).
Proof. unfold Track.searchReport. intros ->. reflexivity. Qed.

(** A lookup answered with one row displays it and raises nothing. *)
Lemma searchReport_found (arg : option string)
    (backend : string -> Response (option Report)) (st : Track.State) (r : Report) :
  Track.reportId_of arg st <> "" ->
  backend (Track.reportId_of arg st) = Ok (Some r) ->
  Track.searchReport arg backend st
  = (Track.set_loading false (Track.set_report (Some r) (Track.set_loading true st)), []).
Proof.
  intros Hid Hone. unfold Track.searchReport.
  rewrite (truthy_nonempty _ Hid), Hone. reflexivity.
Qed.

(** C5: a lookup hands the client at most one row, and only a row of
    the table that carries the identifier asked for, whether the request
    is served or fails.  A backend that is reached answers with no row
    exactly when no row of its table carries the identifier.  When a
    lookup is issued (the identifier is not empty) and answered with no
    row, nothing is thrown inside the handler: the [try] block completes,
    the displayed report is set to none and the only notification is
    "Report not found"; the handler ends with the loading flag lowered
    and the other cells untouched.  The part that runs when the answer
    arrives does the same on whatever state the screen is in then. *)
Theorem searchReport_not_found :
  (forall (failure : option string) (table : list Report) (reportId : string),
      let rows := Track.rows_of (Track.lookup failure table reportId) in
      (length rows <= 1)%nat
      /\ Forall (fun r => r ∈ table /\ report_number r = reportId) rows)
  /\ (forall (table : list Report) (reportId : string),
        Track.lookup None table reportId = Ok None
        <-> Forall (fun r => report_number r <> reportId) table)
  /\ (forall st : Track.State,
        Track.searchReport_try (Ok None) st
        = inr (Track.set_report None st, [Track.toast_not_found])
        /\ Track.searchReport_settle (Ok None) st
           = (Track.set_loading false (Track.set_report None st),
              [Track.toast_not_found]))
  /\ (forall (arg : option string) (backend : string -> Response (option Report))
             (st : Track.State),
        Track.reportId_of arg st <> "" ->
        backend (Track.reportId_of arg st) = Ok None ->
        let res := Track.searchReport arg backend st in
        Track.report (fst res) = None
        /\ Track.loading (fst res) = false
        /\ Track.searchId (fst res) = Track.searchId st
        /\ Track.userReports (fst res) = Track.userReports st
        /\ Track.loadingUserReports (fst res) = Track.loadingUserReports st
        /\ snd res = [Track.toast_not_found]).
Proof.
  split; [|split; [|split]].
  - intros failure table reportId. apply lookup_rows.
  - intros table reportId. apply lookup_no_row.
  - intros st. split; reflexivity.
  - intros arg backend st Hid Hnone res. subst res.
    unfold Track.searchReport.
    rewrite (truthy_nonempty _ Hid). simpl. rewrite Hnone. simpl.
    repeat split; reflexivity.
Qed.

Lemma searchReport_not_found_witness :
  let st := Track.mkState "  CIV-404 " (Some (sample_report "CIV-1" assigned)) [] false false in
  let res := Track.searchReport None (Track.lookup None [sample_report "CIV-1" assigned]) st in
  Track.report (fst res) = None /\ snd res = [Track.toast_not_found].
Proof.
  intros st res.
  pose proof (proj2 (proj2 (proj2 searchReport_not_found)) None
                (Track.lookup None [sample_report "CIV-1" assigned]) st) as H.
  destruct H as (H1 & _ & _ & _ & _ & H6).
  - vm_compute. discriminate.
  - vm_compute. reflexivity.
  - split; [exact H1 | exact H6].
Defined.

(** ** Admin dashboard *)

Lemma filter_status_count (s : ReportStatus) (l : list Report) :
  length (List.filter (fun r => bool_decide (status r = s)) l) = count_status s l.
Proof.
  unfold count_status. induction l as [|r l IH]; [reflexivity|].
  cbn [List.filter fmap list_fmap count_occ].
  destruct (ReportStatus_eq_dec (status r) s) as [Heq|Hne].
  - rewrite (bool_decide_eq_true_2 _ Heq). simpl. f_equal. exact IH.
  - rewrite (bool_decide_eq_false_2 _ Hne). exact IH.
Qed.

Lemma filter_bucket_count (l : list Report) :
  length (List.filter (fun r => Admin.in_progress_bucket (status r)) l)
  = (count_status in_review l + count_status assigned l
     + count_status in_progress l)%nat.
Proof.
  unfold count_status. induction l as [|r l IH]; [reflexivity|].
  cbn [List.filter fmap list_fmap].
  assert (Admin.in_progress_bucket (status r)
          = match status r with
            | in_review | assigned | in_progress => true
            | _ => false
            end) as -> by (destruct (status r); reflexivity).
  destruct (status r); cbn [length]; rewrite IH; cbn; lia.
Qed.

Lemma count_status_total (l : list Report) :
  length l
  = (count_status submitted l + count_status in_review l + count_status assigned l
     + count_status in_progress l + count_status resolved l
     + count_status rejected l)%nat.
Proof.
  unfold count_status. induction l as [|r l IH]; [reflexivity|].
  cbn [length fmap list_fmap]. rewrite IH.
  destruct (status r); cbn; lia.
Qed.

(** C4: after a successful fetch of the list [data], the four tiles are
    computed from [data] alone: total is its length, "new" the number of
    submitted reports, "in progress" the number of reports in review,
    assigned or in progress, "resolved" the number of resolved reports;
    the three buckets and the rejected reports add up to the total, so a
    rejected report is counted in the total only. *)
Theorem stats_partition_by_status (data : list Report) (st : Admin.State) :
  let st' := Admin.fetchReports (Ok (Some data)) st in
  Admin.reports st' = data
  /\ Admin.n_total (Admin.stats st') = length data
  /\ Admin.n_submitted (Admin.stats st') = count_status submitted data
  /\ Admin.n_in_progress (Admin.stats st')
     = (count_status in_review data + count_status assigned data
        + count_status in_progress data)%nat
  /\ Admin.n_resolved (Admin.stats st') = count_status resolved data
  /\ Admin.n_total (Admin.stats st')
     = (Admin.n_submitted (Admin.stats st') + Admin.n_in_progress (Admin.stats st')
        + Admin.n_resolved (Admin.stats st') + count_status rejected data)%nat.
Proof.
  intros st'. subst st'. unfold Admin.fetchReports. simpl.
  rewrite !filter_status_count, filter_bucket_count.
  repeat split; try reflexivity.
  rewrite (count_status_total data) at 1. lia.
Qed.

Lemma build_updates_status (u : Admin.UpdateData) (now : string) :
  Admin.build_updates u now !! "status" = filled (Admin.form_status u).
Proof.
  unfold Admin.build_updates, filled.
  destruct (Admin.form_status u) as [|c s] eqn:Hs;
    destruct (Admin.form_assigned_to u) as [|c1 s1];
    destruct (Admin.form_remarks u) as [|c2 s2];
    destruct (JS.seq _ "resolved"); simpl; simplify_map_eq; reflexivity.
Qed.

Lemma build_updates_assigned_to (u : Admin.UpdateData) (now : string) :
  Admin.build_updates u now !! "assigned_to" = filled (Admin.form_assigned_to u).
Proof.
  unfold Admin.build_updates, filled.
  destruct (Admin.form_status u) as [|c s] eqn:Hs;
    destruct (Admin.form_assigned_to u) as [|c1 s1];
    destruct (Admin.form_remarks u) as [|c2 s2];
    destruct (JS.seq _ "resolved"); simpl; simplify_map_eq; reflexivity.
Qed.

Lemma build_updates_remarks (u : Admin.UpdateData) (now : string) :
  Admin.build_updates u now !! "authority_remarks" = filled (Admin.form_remarks u).
Proof.
  unfold Admin.build_updates, filled.
  destruct (Admin.form_status u) as [|c s] eqn:Hs;
    destruct (Admin.form_assigned_to u) as [|c1 s1];
    destruct (Admin.form_remarks u) as [|c2 s2];
    destruct (JS.seq _ "resolved"); simpl; simplify_map_eq; reflexivity.
Qed.

Lemma build_updates_resolved_at (u : Admin.UpdateData) (now : string) :
  Admin.build_updates u now !! "resolved_at"
  = if decide (Admin.form_status u = "resolved") then Some now else None.
Proof.
  unfold Admin.build_updates, JS.seq.
  destruct (String.eqb_spec (Admin.form_status u) "resolved") as [Heq|Hne].
  - rewrite decide_True by exact Heq. apply lookup_insert_eq.
  - rewrite decide_False by exact Hne.
    destruct (JS.truthy (Admin.form_status u));
      destruct (JS.truthy (Admin.form_assigned_to u));
      destruct (JS.truthy (Admin.form_remarks u)); simplify_map_eq; reflexivity.
Qed.

Lemma build_updates_other (u : Admin.UpdateData) (now k : string) :
  k <> "status" -> k <> "assigned_to" -> k <> "authority_remarks" ->
  k <> "resolved_at" ->
  Admin.build_updates u now !! k = None.
Proof.
  intros H1 H2 H3 H4. unfold Admin.build_updates.
  destruct (JS.truthy (Admin.form_status u));
    destruct (JS.truthy (Admin.form_assigned_to u));
    destruct (JS.truthy (Admin.form_remarks u));
    destruct (JS.seq _ "resolved"); simplify_map_eq; reflexivity.
Qed.

Lemma status_of_name_name (s : ReportStatus) :
  Admin.status_of_name (status_name s) = Some s.
Proof. destruct s; reflexivity. Qed.

(** Saving a dialog right after opening it always names the status, and
    stamps [resolved_at] only on a resolved report. *)
Lemma build_updates_after_open (report : Report) (st : Admin.State) (now : string) :
  let fields := Admin.build_updates (Admin.updateData (Admin.openReport report st)) now in
  fields !! "status" = Some (status_name (status report))
  /\ (is_Some (fields !! "resolved_at") <-> status report = resolved).
Proof.
  cbn zeta. rewrite build_updates_status, build_updates_resolved_at.
  unfold Admin.openReport. cbn [Admin.updateData Admin.form_status].
  destruct (status report); vm_compute filled; vm_compute decide;
    (split; [reflexivity|]);
    (split; [intros [x Hx]; first [discriminate | reflexivity]
            | intros H; first [discriminate | eexists; reflexivity]]).
Qed.

Lemma apply_update_frame (fields : gmap string string) (r r' : Report) :
  Admin.apply_update fields r = Some r' ->
  id r' = id r /\ report_number r' = report_number r /\ title r' = title r
  /\ description r' = description r /\ category r' = category r
  /\ severity r' = severity r /\ address r' = address r /\ city r' = city r
  /\ state r' = state r /\ image_urls r' = image_urls r
  /\ created_at r' = created_at r /\ updated_at r' = updated_at r
  /\ user_id r' = user_id r
  /\ (fields !! "status" = None -> status r' = status r)
  /\ (fields !! "assigned_to" = None -> assigned_to r' = assigned_to r)
  /\ (fields !! "authority_remarks" = None ->
      authority_remarks r' = authority_remarks r)
  /\ (fields !! "resolved_at" = None -> resolved_at r' = resolved_at r).
Proof.
  unfold Admin.apply_update.
  destruct (fields !! "status") as [v|] eqn:Hst; simpl.
  - destruct (Admin.status_of_name v); [|discriminate].
    intros [= <-]; simpl. repeat split; try discriminate.
    + intros ->. reflexivity.
    + intros ->. reflexivity.
    + intros ->. reflexivity.
  - intros [= <-]; simpl. repeat split.
    + intros ->. reflexivity.
    + intros ->. reflexivity.
    + intros ->. reflexivity.
Qed.

Lemma filled_None (v : string) : v = "" -> filled v = None.
Proof. intros ->. reflexivity. Qed.

(** C8: an update issued for the selected report is one request on that
    report's id whose fields are exactly: status, assigned_to and
    authority_remarks for the form values that are not empty, and
    resolved_at (holding the current time) exactly when the selected
    status is resolved.  It names no other column, so every other field
    of the report is left as it is. *)
Theorem update_touches_filled_fields
    (now : string) (upd : Response unit) (refetch : Response (option (list Report)))
    (st : Admin.State) (sel : Report) :
  Admin.selectedReport st = Some sel ->
  let u := Admin.updateData st in
  exists fields : gmap string string,
    Admin.out_requests (Admin.handleUpdateReport now upd refetch st)
    = [Admin.mkUpdateRequest fields (id sel)]
    /\ fields !! "status" = filled (Admin.form_status u)
    /\ fields !! "assigned_to" = filled (Admin.form_assigned_to u)
    /\ fields !! "authority_remarks" = filled (Admin.form_remarks u)
    /\ (forall v, fields !! "resolved_at" = Some v <->
                  Admin.form_status u = "resolved" /\ v = now)
    /\ (forall k, k <> "status" -> k <> "assigned_to" ->
                  k <> "authority_remarks" -> k <> "resolved_at" ->
                  fields !! k = None).
Proof.
  intros Hsel u. subst u.
  exists (Admin.build_updates (Admin.updateData st) now).
  split.
  { unfold Admin.handleUpdateReport. rewrite Hsel. destruct upd; reflexivity. }
  split; [apply build_updates_status|].
  split; [apply build_updates_assigned_to|].
  split; [apply build_updates_remarks|].
  split; [|intros k; apply build_updates_other].
  intros v. rewrite build_updates_resolved_at.
  destruct (decide (Admin.form_status (Admin.updateData st) = "resolved")) as [He|Hn].
  - split; [intros [= <-]; split; [exact He | reflexivity] | intros [_ ->]; reflexivity].
  - split; [discriminate | intros [He _]; contradiction].
Qed.

Lemma update_touches_filled_fields_witness :
  exists fields : gmap string string,
    Admin.out_requests
      (Admin.handleUpdateReport "2025-02-01T09:30:00.000Z" (Ok tt) (Err "offline")
                                sample_admin_state)
    = [Admin.mkUpdateRequest fields "r-1"]
    /\ fields !! "status" = Some "resolved"
    /\ fields !! "assigned_to" = None
    /\ fields !! "resolved_at" = Some "2025-02-01T09:30:00.000Z".
Proof.
  destruct (update_touches_filled_fields "2025-02-01T09:30:00.000Z" (Ok tt)
              (Err "offline") sample_admin_state (sample_report "CIV-1" assigned)
              eq_refl)
    as (fields & Hreq & Hs & Ha & _ & Hres & _).
  exists fields. split; [exact Hreq|]. split; [exact Hs|]. split; [exact Ha|].
  apply Hres. split; reflexivity.
Defined.

(** On the table, as modelled by [apply_update]: the request built from
    the form changes no column of the row but the ones whose form value
    is filled, and [resolved_at] only for a resolved status. *)
Lemma update_leaves_other_columns (now : string) (u : Admin.UpdateData) (r r' : Report) :
  Admin.apply_update (Admin.build_updates u now) r = Some r' ->
  id r' = id r /\ report_number r' = report_number r /\ title r' = title r
  /\ description r' = description r /\ category r' = category r
  /\ severity r' = severity r /\ address r' = address r /\ city r' = city r
  /\ state r' = state r /\ image_urls r' = image_urls r
  /\ created_at r' = created_at r /\ updated_at r' = updated_at r
  /\ user_id r' = user_id r
  /\ (Admin.form_status u = "" -> status r' = status r)
  /\ (Admin.form_assigned_to u = "" -> assigned_to r' = assigned_to r)
  /\ (Admin.form_remarks u = "" -> authority_remarks r' = authority_remarks r)
  /\ (Admin.form_status u <> "resolved" -> resolved_at r' = resolved_at r).
Proof.
  intros Happ.
  pose proof (apply_update_frame _ _ _ Happ) as F.
  destruct F as (F1 & F2 & F3 & F4 & F5 & F6 & F7 & F8 & F9 & F10 & F11 & F12
                 & F13 & Fs & Fa & Fr & Ft).
  repeat (split; [assumption|]).
  split; [|split; [|split]].
  - intros He. apply Fs. rewrite build_updates_status. apply filled_None, He.
  - intros He. apply Fa. rewrite build_updates_assigned_to. apply filled_None, He.
  - intros He. apply Fr. rewrite build_updates_remarks. apply filled_None, He.
  - intros Hn. apply Ft. rewrite build_updates_resolved_at.
    rewrite decide_False by exact Hn. reflexivity.
Qed.

Lemma includes_empty (hay : string) : JS.includes hay "" = true.
Proof. destruct hay; reflexivity. Qed.

Lemma filter_all_true {A} (p : A -> bool) (l : list A) :
  (forall x, p x = true) -> List.filter p l = l.
Proof.
  intros Hp. induction l as [|x l IH]; [reflexivity|].
  simpl. rewrite Hp, IH. reflexivity.
Qed.

Lemma filter_sublist_of {A} (p : A -> bool) (l : list A) :
  sublist (List.filter p l) l.
Proof.
  induction l as [|x l IH]; simpl; [constructor|].
  destruct (p x); [apply sublist_skip | apply sublist_cons]; exact IH.
Qed.

(** C10: with the empty search string the client-side filter returns the
    fetched list unchanged; for any search string its result is a
    subsequence of the fetched list; and on a report whose city is null
    the predicate is decided by the title and tracking-number checks
    alone. *)
Theorem filteredReports_identity_and_subsequence :
  (forall st : Admin.State,
      Admin.filteredReports (Admin.set_searchQuery "" st) = Admin.reports st)
  /\ (forall st : Admin.State,
        sublist (Admin.filteredReports st) (Admin.reports st))
  /\ (forall (q : string) (r : Report),
        city r = None ->
        Admin.cond_truthy (Admin.search_predicate q r)
        = JS.includes (JS.toLowerCase (title r)) (JS.toLowerCase q)
          || JS.includes (JS.toLowerCase (report_number r)) (JS.toLowerCase q)).
Proof.
  split; [|split].
  - intros st. unfold Admin.filteredReports. simpl.
    apply filter_all_true. intros r.
    unfold Admin.search_predicate. simpl. rewrite includes_empty. reflexivity.
  - intros st. apply filter_sublist_of.
  - intros q r Hcity. unfold Admin.search_predicate. rewrite Hcity.
    destruct (JS.includes (JS.toLowerCase (title r)) _);
      destruct (JS.includes (JS.toLowerCase (report_number r)) _); reflexivity.
Qed.

Lemma filteredReports_identity_and_subsequence_witness :
  Admin.cond_truthy (Admin.search_predicate "civ" (sample_report "CIV-1" assigned))
  = JS.includes "open manhole" "civ" || JS.includes "civ-1" "civ".
Proof.
  apply (proj2 (proj2 filteredReports_identity_and_subsequence)
           "civ" (sample_report "CIV-1" assigned)).
  reflexivity.
Defined.

(** ** Leaderboard *)








(** ** Education and quizzes *)

Lemma ratio_unfold (c n k : nat) :
  Education.ratio (Education.mkProgress c (S n) k)
  = (Z.of_nat c * 1 # 1 * Pos.of_succ_nat n)%Q.
Proof. reflexivity. Qed.

Lemma ratio_nonneg (p : Education.Progress) :
  (0 < Education.total p)%nat -> (0 <= Education.ratio p)%Q.
Proof.
  destruct p as [c [|n] k]; simpl; [lia|]. intros _. rewrite ratio_unfold.
  unfold Qle. cbn [Qnum Qden]. lia.
Qed.

Lemma ratio_le_1 (p : Education.Progress) :
  (0 < Education.total p)%nat ->
  ((Education.ratio p <= 1)%Q <-> (Education.completed p <= Education.total p)%nat).
Proof.
  destruct p as [c [|n] k]; simpl; [lia|]. intros _. rewrite ratio_unfold.
  unfold Qle. cbn [Qnum Qden]. lia.
Qed.

Lemma ratio_eq_1 (p : Education.Progress) :
  (0 < Education.total p)%nat ->
  ((Education.ratio p == 1)%Q <-> Education.completed p = Education.total p).
Proof.
  destruct p as [c [|n] k]; simpl; [lia|]. intros _. rewrite ratio_unfold.
  unfold Qeq. cbn [Qnum Qden]. lia.
Qed.

Lemma some_id_elem (quizzes : list Education.Quiz) (k : string) :
  JS.some (fun q => JS.seq (Education.id q) k) quizzes = true
  <-> k ∈ Education.id <$> quizzes.
Proof.
  unfold JS.some, JS.seq. rewrite existsb_exists, list_elem_of_fmap.
  split.
  - intros (q & Hq & Heq). exists q. apply String.eqb_eq in Heq.
    split; [symmetry; exact Heq | apply list_elem_of_In; exact Hq].
  - intros (q & -> & Hq). exists q.
    split; [apply list_elem_of_In; exact Hq | apply String.eqb_refl].
Qed.

Lemma elem_of_List_filter {A} (p : A -> bool) (l : list A) (x : A) :
  x ∈ List.filter p l <-> x ∈ l /\ p x = true.
Proof. rewrite !list_elem_of_In. apply filter_In. Qed.

Section CategoryProgress.

Variable st : Education.State.
Variable categoryId : string.

Let categoryQuizzes := Education.getCategoryQuizzes st (Some categoryId).

Let completedQuizzes :=
  List.filter
    (fun p => JS.some (fun q => JS.seq (Education.id q) (Education.quiz_id p))
                      categoryQuizzes)
    (Education.userProgress st).

Lemma completed_ids_NoDup :
  NoDup (Education.quiz_id <$> Education.userProgress st) ->
  NoDup (Education.quiz_id <$> completedQuizzes).
Proof.
  intros Hnd. eapply sublist_NoDup; [exact Hnd|].
  apply fmap_sublist, filter_sublist_of.
Qed.

Lemma completed_ids_in_category (k : string) :
  k ∈ Education.quiz_id <$> completedQuizzes -> k ∈ Education.id <$> categoryQuizzes.
Proof.
  rewrite list_elem_of_fmap. intros (p & -> & Hp).
  apply elem_of_List_filter in Hp as [_ Hp]. apply some_id_elem, Hp.
Qed.

Lemma completed_le_total :
  NoDup (Education.quiz_id <$> Education.userProgress st) ->
  (length completedQuizzes <= length categoryQuizzes)%nat.
Proof.
  intros Hnd.
  rewrite <- (length_fmap Education.quiz_id completedQuizzes).
  rewrite <- (length_fmap Education.id categoryQuizzes).
  apply submseteq_length, NoDup_submseteq.
  - apply completed_ids_NoDup, Hnd.
  - apply completed_ids_in_category.
Qed.

Lemma completed_all_answered :
  NoDup (Education.quiz_id <$> Education.userProgress st) ->
  length completedQuizzes = length categoryQuizzes ->
  all_answered st categoryId.
Proof.
  intros Hnd Hlen q Hq.
  assert (Hperm : Education.quiz_id <$> completedQuizzes
                  ≡ₚ Education.id <$> categoryQuizzes).
  { apply submseteq_length_Permutation.
    - apply NoDup_submseteq;
        [apply completed_ids_NoDup, Hnd | apply completed_ids_in_category].
    - rewrite !length_fmap. lia. }
  assert (Hin : Education.id q ∈ Education.quiz_id <$> completedQuizzes).
  { rewrite Hperm. apply list_elem_of_fmap_2. exact Hq. }
  apply list_elem_of_fmap in Hin as (p & Heq & Hp).
  apply elem_of_List_filter in Hp as [Hp _].
  exists p. split; [exact Hp | symmetry; exact Heq].
Qed.

Lemma all_answered_completed :
  NoDup (Education.quiz_id <$> Education.userProgress st) ->
  NoDup (Education.id <$> categoryQuizzes) ->
  all_answered st categoryId ->
  length completedQuizzes = length categoryQuizzes.
Proof.
  intros Hnd Hids Hall. apply Nat.le_antisymm; [apply completed_le_total, Hnd|].
  rewrite <- (length_fmap Education.quiz_id completedQuizzes).
  rewrite <- (length_fmap Education.id categoryQuizzes).
  apply submseteq_length, NoDup_submseteq; [exact Hids|].
  intros k Hk. apply list_elem_of_fmap in Hk as (q & -> & Hq).
  destruct (Hall q Hq) as (p & Hp & Heq).
  rewrite <- Heq. apply list_elem_of_fmap_2.
  apply elem_of_List_filter. split; [exact Hp|].
  apply some_id_elem. rewrite Heq. apply list_elem_of_fmap_2. exact Hq.
Qed.

End CategoryProgress.

(** C6 (as amended): when the user's progress holds at most one record
    per question, the ratio completed/total of a category with questions
    lies between 0 and 1, and a ratio of 1 means every question of the
    category has a record; conversely, when the questions of the category
    have pairwise distinct ids and each has a record, the ratio is 1. *)
Theorem category_ratio_with_unique_records
    (st : Education.State) (categoryId : string) :
  NoDup (Education.quiz_id <$> Education.userProgress st) ->
  let p := Education.getCategoryProgress st categoryId in
  (0 < Education.total p)%nat ->
  (0 <= Education.ratio p)%Q /\ (Education.ratio p <= 1)%Q
  /\ ((Education.ratio p == 1)%Q -> all_answered st categoryId)
  /\ (NoDup (Education.id <$> Education.getCategoryQuizzes st (Some categoryId)) ->
      all_answered st categoryId -> (Education.ratio p == 1)%Q).
Proof.
  intros Hnd p Hpos. split; [apply ratio_nonneg, Hpos|]. split; [|split].
  - apply ratio_le_1; [exact Hpos|]. apply completed_le_total, Hnd.
  - intros H1. apply ratio_eq_1 in H1; [|exact Hpos].
    apply completed_all_answered; [exact Hnd | exact H1].
  - intros Hids Hall. apply ratio_eq_1; [exact Hpos|].
    apply all_answered_completed; assumption.
Qed.

Lemma category_ratio_with_unique_records_witness :
  let p := Education.getCategoryProgress sample_quiz_state "civic" in
  (Education.completed p, Education.total p) = (1%nat, 2%nat)
  /\ (0 <= Education.ratio p)%Q /\ (Education.ratio p <= 1)%Q.
Proof.
  intros p.
  assert (Hnd : NoDup (Education.quiz_id <$> Education.userProgress sample_quiz_state)).
  { simpl. apply NoDup_singleton. }
  destruct (category_ratio_with_unique_records sample_quiz_state "civic" Hnd)
    as (H0 & H1 & _).
  - simpl. lia.
  - split; [reflexivity|]. split; [exact H0 | exact H1].
Defined.

(** Without that premise the property fails: on a progress list with two
    records for one question, the only question of the category counts
    twice and the ratio is 2. *)
Lemma category_ratio_exceeds_one :
  ~ ratio_in_unit_interval duplicated_progress_state "traffic".
Proof.
  unfold ratio_in_unit_interval. intros H.
  destruct H as (_ & Hle & _); [simpl; lia|].
  revert Hle. vm_compute. intros Hle. apply Hle. reflexivity.
Qed.

Lemma filter_none_of {A} (p : A -> bool) (l : list A) :
  existsb p l = false -> List.filter p l = [].
Proof.
  induction l as [|x l IH]; simpl; [reflexivity|].
  destruct (p x); simpl; [discriminate | exact IH].
Qed.

Lemma records_for_snoc (uid quiz : string) (table : list Education.ProgressRow)
    (row : Education.ProgressRow) :
  Education.records_for uid quiz (table ++ [row])
  = (Education.records_for uid quiz table
     + if JS.seq (Education.row_user_id row) uid
          && JS.seq (Education.row_quiz_id row) quiz then 1 else 0)%nat.
Proof.
  unfold Education.records_for. rewrite List.filter_app, length_app. simpl.
  destruct (_ && _); reflexivity.
Qed.

Lemma local_records_for_snoc (quiz : string) (l : list Education.UserProgress)
    (p : Education.UserProgress) :
  Education.local_records_for quiz (l ++ [p])
  = (Education.local_records_for quiz l
     + if JS.seq (Education.quiz_id p) quiz then 1 else 0)%nat.
Proof.
  unfold Education.local_records_for. rewrite List.filter_app, length_app. simpl.
  destruct (JS.seq _ _); reflexivity.
Qed.

(** What the fetch of the signed-in user's progress holds for a
    question is what the table holds for the pair. *)
Lemma fetch_progress_records (uid quiz : string) (table : list Education.ProgressRow) :
  Education.local_records_for quiz (Education.fetch_progress uid table)
  = Education.records_for uid quiz table.
Proof.
  unfold Education.local_records_for, Education.records_for, Education.fetch_progress.
  induction table as [|r table IH]; [reflexivity|].
  cbn [List.filter]. destruct (JS.seq (Education.row_user_id r) uid); simpl.
  - destruct (JS.seq (Education.row_quiz_id r) quiz); simpl;
      [f_equal|]; exact IH.
  - exact IH.
Qed.

Lemma handleAnswer_effect (answerIndex : Z) (accepted : bool)
    (table : list Education.ProgressRow) (st : Education.State) :
  let out := Education.handleAnswer answerIndex accepted table st in
  Education.user (Education.out_state out) = Education.user st
  /\ answer_effect accepted table st out.
Proof.
  unfold Education.handleAnswer.
  destruct (Education.showResult st); [split; [reflexivity | by apply effect_none]|].
  destruct (_ !! _) as [currentQuiz|];
    [|split; [reflexivity | by apply effect_none]].
  destruct (Education.user st) as [uid|] eqn:Huser;
    [|split; [reflexivity | by apply effect_none]].
  destruct (JS.some _ (Education.userProgress st)) eqn:Halready;
    [split; [reflexivity | by apply effect_none]|].
  split; [reflexivity|].
  eapply effect_insert; simpl; try reflexivity.
  - exact Huser.
  - unfold Education.local_records_for.
    rewrite (filter_none_of _ _ Halready). reflexivity.
Qed.

Lemma inserts_of_cons (ev : Education.Event) (evs : list Education.Event)
    (cfg : Education.State * list Education.ProgressRow) :
  Education.inserts_of (ev :: evs) cfg
  = step_inserts ev cfg ++ Education.inserts_of evs (Education.step ev cfg).
Proof. destruct ev; reflexivity. Qed.

Lemma handleNext_frame (st : Education.State) :
  Education.user (fst (Education.handleNext st)) = Education.user st
  /\ Education.userProgress (fst (Education.handleNext st)) = Education.userProgress st.
Proof. unfold Education.handleNext. destruct (_ <? _); split; reflexivity. Qed.

Lemma run_cons (ev : Education.Event) (evs : list Education.Event)
    (cfg : Education.State * list Education.ProgressRow) :
  Education.run (ev :: evs) cfg = Education.run evs (Education.step ev cfg).
Proof. reflexivity. Qed.

Lemma handleAnswer_click_spec (answerIndex : Z) (st : Education.State) :
  let out := Education.handleAnswer_click answerIndex st in
  Education.user (Education.click_state out) = Education.user st
  /\ Education.userProgress (Education.click_state out) = Education.userProgress st
  /\ match Education.click_insert out with
     | None => True
     | Some p =>
         Education.user st = Some (Education.row_user_id (Education.pending_row p))
         /\ Education.local_records_for
              (Education.row_quiz_id (Education.pending_row p))
              (Education.userProgress st) = 0%nat
         /\ Education.pending_landed p = false
     end.
Proof.
  unfold Education.handleAnswer_click.
  destruct (Education.showResult st); [repeat split|].
  destruct (_ !! _) as [currentQuiz|]; [|repeat split].
  destruct (Education.user st) as [uid|] eqn:Huser; [|repeat split].
  destruct (JS.some _ (Education.userProgress st)) eqn:Halready; [repeat split|].
  cbn. repeat split.
  unfold Education.local_records_for. rewrite (filter_none_of _ _ Halready). reflexivity.
Qed.

(** The uninterrupted handler is the click, the insert reaching the
    table and the resumption, one after the other. *)
Lemma handleAnswer_uninterrupted (answerIndex : Z) (accepted : bool)
    (table : list Education.ProgressRow) (st : Education.State) :
  let out := Education.handleAnswer answerIndex accepted table st in
  Education.live_run
    [Education.Clicked answerIndex; Education.Landed 0 accepted; Education.Resumed 0]
    (fetched st table)
  = fetched (Education.out_state out) (Education.out_table out).
Proof.
  unfold Education.handleAnswer, fetched, Education.live_run.
  cbn [foldl Education.live_step]. unfold Education.handleAnswer_click.
  destruct (Education.showResult st) eqn:Hshow; [reflexivity|].
  destruct (Education.getCategoryQuizzes st (Education.selectedCategory st)
              !! Education.currentQuizIndex st) as [currentQuiz|]; [|reflexivity].
  destruct (Education.user st) as [uid|] eqn:Huser; [|reflexivity].
  destruct (JS.some _ (Education.userProgress st)); [reflexivity|].
  destruct accepted; reflexivity.
Qed.

Lemma filter_middle {A} (f : A -> bool) (l : list A) (k : nat) (x : A) :
  l !! k = Some x ->
  length (List.filter f l)
  = (length (List.filter f (take k l)) + (if f x then 1 else 0)
     + length (List.filter f (drop (S k) l)))%nat.
Proof.
  intros Hk. rewrite <- (take_drop_middle l k x Hk) at 1.
  rewrite List.filter_app, length_app. simpl.
  destruct (f x); simpl; lia.
Qed.

Lemma filter_insert_length {A} (f : A -> bool) (l : list A) (k : nat) (x y : A) :
  l !! k = Some x ->
  (length (List.filter f (<[k := y]> l)) + (if f x then 1 else 0)
   = length (List.filter f l) + (if f y then 1 else 0))%nat.
Proof.
  intros Hk. rewrite (filter_middle f l k x Hk).
  rewrite insert_take_drop by (apply lookup_lt_is_Some; eauto).
  rewrite List.filter_app, length_app. simpl.
  destruct (f x), (f y); simpl; lia.
Qed.

Lemma filter_delete_length {A} (f : A -> bool) (l : list A) (k : nat) (x : A) :
  l !! k = Some x ->
  (length (List.filter f (delete k l)) + (if f x then 1 else 0)
   = length (List.filter f l))%nat.
Proof.
  intros Hk. rewrite (filter_middle f l k x Hk).
  rewrite delete_take_drop, List.filter_app, length_app. lia.
Qed.

Lemma unlanded_le_pending (quiz : string) (l : list Education.Pending) :
  (Education.unlanded_for quiz l <= Education.pending_for quiz l)%nat.
Proof.
  unfold Education.unlanded_for, Education.pending_for.
  induction l as [|p l IH]; simpl; [lia|].
  destruct (JS.seq _ quiz); simpl; [|exact IH].
  destruct (Education.pending_landed p); simpl; lia.
Qed.

Lemma pending_for_snoc (quiz : string) (l : list Education.Pending)
    (p : Education.Pending) :
  Education.pending_for quiz (l ++ [p])
  = (Education.pending_for quiz l
     + if JS.seq (Education.row_quiz_id (Education.pending_row p)) quiz
       then 1 else 0)%nat.
Proof.
  unfold Education.pending_for. rewrite List.filter_app, length_app. simpl.
  destruct (JS.seq _ _); reflexivity.
Qed.

Lemma unlanded_for_snoc (quiz : string) (l : list Education.Pending)
    (p : Education.Pending) :
  Education.unlanded_for quiz (l ++ [p])
  = (Education.unlanded_for quiz l
     + if JS.seq (Education.row_quiz_id (Education.pending_row p)) quiz
          && negb (Education.pending_landed p)
       then 1 else 0)%nat.
Proof.
  unfold Education.unlanded_for. rewrite List.filter_app, length_app. simpl.
  destruct (_ && _); reflexivity.
Qed.

Ltac live_cbn :=
  cbn [Education.live_state Education.live_table Education.live_pending
       Education.handleAnswer_resume Education.handleStartQuiz Education.exitQuiz
       Education.fetchData Education.user Education.userProgress fst default].

Section LiveStep.

Variable uid : string.

Let db (quiz : string) (cfg : Education.Live) : nat :=
  Education.records_for uid quiz (Education.live_table cfg).
Let loc (quiz : string) (cfg : Education.Live) : nat :=
  Education.local_records_for quiz (Education.userProgress (Education.live_state cfg)).
Let pend (quiz : string) (cfg : Education.Live) : nat :=
  Education.pending_for quiz (Education.live_pending cfg).
Let unl (quiz : string) (cfg : Education.Live) : nat :=
  Education.unlanded_for quiz (Education.live_pending cfg).

(** One event of a calm run: the bookkeeping is kept; for every question
    the records of the table together with the inserts that have not
    reached it do not exceed the larger of 1 and what they were; and,
    short of a refetch, neither do the local records together with the
    awaited inserts. *)
Lemma live_step_bounds (cfg : Education.Live) (ev : Education.LiveEvent) :
  live_inv uid cfg ->
  event_calm cfg ev ->
  let cfg' := Education.live_step cfg ev in
  live_inv uid cfg'
  /\ forall quiz,
       (db quiz cfg' + unl quiz cfg' <= Nat.max 1 (db quiz cfg + unl quiz cfg))%nat
       /\ (no_refetch ev ->
           (loc quiz cfg' + pend quiz cfg' <= Nat.max 1 (loc quiz cfg + pend quiz cfg))%nat).
Proof.
  destruct cfg as [st table pending]. intros (Huser & Hrows & Hsync) Hcalm.
  unfold db, loc, pend, unl.
  cbn [Education.live_state Education.live_table Education.live_pending] in *.
  destruct ev as [answerIndex|k accepted|k| |categoryId| |quizData progressData];
    cbn [Education.live_step event_calm Education.live_state Education.live_table
         Education.live_pending] in *.
  - (* Clicked *)
    destruct (handleAnswer_click_spec answerIndex st) as (Hu & Hp & Hins).
    cbn zeta in Hu, Hp, Hins.
    destruct (Education.click_insert _) as [p|]; cbn [option_list option_rect].
    + destruct Hins as (Hpu & Hzero & Hland).
      rewrite Huser in Hpu. injection Hpu as Hpu.
      set (qp := Education.row_quiz_id (Education.pending_row p)) in *.
      assert (Hdb0 : Education.records_for uid qp table = 0%nat).
      { destruct (Education.records_for uid qp table) eqn:E; [reflexivity|].
        destruct (Hsync qp); lia. }
      pose proof (unlanded_le_pending qp pending) as Hle.
      split; [split; [|split]|].
      * live_cbn. rewrite Hu. exact Huser.
      * live_cbn. apply Forall_app. split; [exact Hrows|]. repeat constructor. congruence.
      * live_cbn. intros quiz Hq. rewrite Hp, pending_for_snoc.
        destruct (Hsync quiz Hq); [left; assumption | right; lia].
      * intros quiz. live_cbn. rewrite Hp, pending_for_snoc, unlanded_for_snoc.
        fold qp. rewrite Hland. cbn [negb]. rewrite andb_true_r.
        destruct (JS.seq qp quiz) eqn:Hqq.
        -- apply String.eqb_eq in Hqq. subst quiz. lia.
        -- lia.
    + rewrite app_nil_r. split; [split; [|split]|].
      * live_cbn. rewrite Hu. exact Huser.
      * exact Hrows.
      * live_cbn. intros quiz Hq. rewrite Hp. apply Hsync, Hq.
      * intros quiz. live_cbn. rewrite Hp. lia.
  - (* Landed *)
    destruct (pending !! k) as [p|] eqn:Hk;
      [|split; [repeat split; assumption | intros quiz; live_cbn; lia]].
    destruct (Education.pending_landed p) eqn:Hland;
      [split; [repeat split; assumption | intros quiz; live_cbn; lia]|].
    assert (Hpu : Education.row_user_id (Education.pending_row p) = uid).
    { apply (proj1 (Forall_lookup _ _) Hrows k p Hk). }
    set (qp := Education.row_quiz_id (Education.pending_row p)) in *.
    assert (Hpend : forall quiz,
               Education.pending_for quiz (<[k := Education.with_landed p]> pending)
               = Education.pending_for quiz pending).
    { intros quiz. unfold Education.pending_for.
      pose proof (filter_insert_length
                    (fun p => JS.seq (Education.row_quiz_id (Education.pending_row p)) quiz)
                    pending k p (Education.with_landed p) Hk) as H.
      cbn [Education.with_landed Education.pending_row] in H.
      destruct (JS.seq _ quiz); lia. }
    assert (Hunl : forall quiz,
               (Education.unlanded_for quiz (<[k := Education.with_landed p]> pending)
                + (if JS.seq qp quiz then 1 else 0)
                = Education.unlanded_for quiz pending)%nat).
    { intros quiz. unfold Education.unlanded_for.
      pose proof (filter_insert_length
                    (fun p => JS.seq (Education.row_quiz_id (Education.pending_row p)) quiz
                              && negb (Education.pending_landed p))
                    pending k p (Education.with_landed p) Hk) as H.
      cbn [Education.with_landed Education.pending_row Education.pending_landed] in H.
      rewrite Hland in H. fold qp in H. cbn [negb] in H.
      rewrite andb_false_r, andb_true_r in H.
      destruct (JS.seq qp quiz); lia. }
    assert (Hin : forall quiz, JS.seq qp quiz = true ->
                               (0 < Education.pending_for quiz pending)%nat).
    { intros quiz Hq. unfold Education.pending_for.
      rewrite (filter_middle _ pending k p Hk). fold qp. rewrite Hq. lia. }
    assert (Hdb : forall quiz,
               Education.records_for uid quiz
                 (if accepted then table ++ [Education.pending_row p] else table)
               = (Education.records_for uid quiz table
                  + if accepted && JS.seq qp quiz then 1 else 0)%nat).
    { intros quiz. destruct accepted; [|cbn [andb]; lia].
      rewrite records_for_snoc, Hpu. fold qp. unfold JS.seq at 1.
      rewrite String.eqb_refl. reflexivity. }
    split; [split; [|split]|].
    + exact Huser.
    + live_cbn. apply Forall_insert; [exact Hrows | exact Hpu].
    + live_cbn. intros quiz Hq. rewrite Hpend. rewrite Hdb in Hq.
      destruct (JS.seq qp quiz) eqn:Hqq.
      * right. apply Hin, Hqq.
      * rewrite andb_false_r in Hq. apply Hsync. lia.
    + intros quiz. live_cbn. rewrite Hpend, Hdb. specialize (Hunl quiz).
      destruct accepted, (JS.seq qp quiz); cbn [andb]; lia.
  - (* Resumed *)
    destruct (pending !! k) as [p|] eqn:Hk;
      [|split; [repeat split; assumption | intros quiz; live_cbn; lia]].
    destruct (Education.pending_landed p) eqn:Hland;
      [|split; [repeat split; assumption | intros quiz; live_cbn; lia]].
    set (qp := Education.row_quiz_id (Education.pending_row p)) in *.
    assert (Hpend : forall quiz,
               (Education.pending_for quiz (delete k pending)
                + (if JS.seq qp quiz then 1 else 0)
                = Education.pending_for quiz pending)%nat).
    { intros quiz. unfold Education.pending_for.
      exact (filter_delete_length _ pending k p Hk). }
    assert (Hunl : forall quiz,
               Education.unlanded_for quiz (delete k pending)
               = Education.unlanded_for quiz pending).
    { intros quiz. unfold Education.unlanded_for.
      pose proof (filter_delete_length
                    (fun p => JS.seq (Education.row_quiz_id (Education.pending_row p)) quiz
                              && negb (Education.pending_landed p))
                    pending k p Hk) as H.
      cbn beta in H. rewrite Hland, andb_false_r in H. lia. }
    split; [split; [|split]|].
    + exact Huser.
    + live_cbn. apply Forall_delete. exact Hrows.
    + live_cbn. intros quiz Hq. rewrite local_records_for_snoc.
      cbn [Education.quiz_id]. fold qp. specialize (Hpend quiz).
      destruct (Hsync quiz Hq); [left; lia|].
      destruct (JS.seq qp quiz); [left; lia | right; lia].
    + intros quiz. live_cbn. rewrite local_records_for_snoc, Hunl.
      cbn [Education.quiz_id]. fold qp. specialize (Hpend quiz).
      destruct (JS.seq qp quiz); lia.
  - (* NextPressed *)
    destruct (handleNext_frame st) as [Hu Hp].
    split; [split; [|split]|].
    + live_cbn. rewrite Hu. exact Huser.
    + exact Hrows.
    + live_cbn. intros quiz Hq. rewrite Hp. apply Hsync, Hq.
    + intros quiz. live_cbn. rewrite Hp. lia.
  - (* Started *)
    split; [repeat split; assumption | intros quiz; live_cbn; lia].
  - (* Exited *)
    split; [repeat split; assumption | intros quiz; live_cbn; lia].
  - (* Refetched *)
    subst progressData. unfold Education.progress_answer. rewrite Huser.
    split; [split; [|split]|].
    + exact Huser.
    + exact Hrows.
    + live_cbn. rewrite Huser. intros quiz Hq. left.
      change (0 < Education.local_records_for quiz (Education.fetch_progress uid table))%nat.
      rewrite fetch_progress_records. exact Hq.
    + intros quiz. live_cbn. split; [lia | intros []].
Qed.

Lemma live_run_bounds (evs : list Education.LiveEvent) :
  forall cfg : Education.Live,
  live_inv uid cfg ->
  calm evs cfg ->
  let cfg' := Education.live_run evs cfg in
  live_inv uid cfg'
  /\ forall quiz,
       (db quiz cfg' + unl quiz cfg' <= Nat.max 1 (db quiz cfg + unl quiz cfg))%nat
       /\ (Forall no_refetch evs ->
           (loc quiz cfg' + pend quiz cfg' <= Nat.max 1 (loc quiz cfg + pend quiz cfg))%nat).
Proof.
  induction evs as [|ev evs IH]; intros cfg Hinv Hcalm.
  - cbn. split; [exact Hinv|]. intros quiz. split; [lia | intros _; lia].
  - destruct Hcalm as [Hev Hevs].
    destruct (live_step_bounds cfg ev Hinv Hev) as [Hinv1 Hb1].
    destruct (IH _ Hinv1 Hevs) as [Hinv2 Hb2].
    change (Education.live_run (ev :: evs) cfg)
      with (Education.live_run evs (Education.live_step cfg ev)).
    split; [exact Hinv2|]. intros quiz.
    destruct (Hb1 quiz) as [Hd1 Hl1]. destruct (Hb2 quiz) as [Hd2 Hl2].
    split; [lia|]. intros Hno. apply Forall_cons in Hno as [Hn Hns].
    specialize (Hl1 Hn). specialize (Hl2 Hns). lia.
Qed.

End LiveStep.

Lemma fetched_live_inv (uid : string) (st : Education.State)
    (table : list Education.ProgressRow) :
  Education.user st = Some uid ->
  Education.userProgress st = Education.fetch_progress uid table ->
  live_inv uid (fetched st table).
Proof.
  intros Huser Hfetch. split; [exact Huser|]. split; [constructor|].
  intros quiz Hq. left. cbn. rewrite Hfetch, fetch_progress_records. exact Hq.
Qed.

(** C2, as stated, fails on the live screen.  The handler's check reads
    the progress list of the render whose button was pressed, and the
    list only grows when the awaited insert returns: leaving the quiz,
    starting it again and answering the same question before that moment
    passes the check a second time, and the table and the local list end
    with two records for a pair that had none.  And a pair that has two
    records when the progress is fetched keeps them, whatever is
    answered. *)
Lemma second_answer_during_insert_is_recorded :
  let st := Education.mkState (Some "u-1") sample_quizzes [] (Some "civic") 0 None false in
  let cfg' := Education.live_run interleaved_answers (fetched st []) in
  let st2 := Education.mkState (Some "u-1") sample_quizzes
               (Education.fetch_progress "u-1" twice_recorded_table)
               (Some "civic") 0 None false in
  Education.records_for "u-1" "q-1" (Education.live_table cfg') = 2%nat
  /\ Education.local_records_for "q-1" (Education.userProgress (Education.live_state cfg'))
     = 2%nat
  /\ ~ one_record_per_pair "u-1" interleaved_answers st []
  /\ ~ one_record_per_pair "u-1" [] st2 twice_recorded_table.
Proof.
  intros st cfg' st2. split; [reflexivity|]. split; [reflexivity|]. split.
  - intros Hclaim.
    destruct (Hclaim eq_refl eq_refl ltac:(repeat constructor) "q-1") as [Htable _].
    vm_compute in Htable. lia.
  - intros Hclaim.
    destruct (Hclaim eq_refl eq_refl ltac:(constructor) "q-1") as [Htable _].
    vm_compute in Htable. lia.
Qed.

(** C2 (amended): the answer handler sends an insert only when the
    progress list of the render whose button was pressed holds no record
    for the question, sends it for the signed-in user, and extends the
    local list by the inserted record when the insert returns.  Hence,
    within one fetched progress state of the signed-in user, as long as
    no answer is given on a question while an insert for that same
    question is still awaited, the table and the local list hold at most
    one record for a (user, quiz) pair that had at most one, whatever the
    order in which the awaited inserts reach the table and return. *)
Theorem answers_recorded_once_unless_interleaved :
  (forall (answerIndex : Z) (st : Education.State),
      match Education.click_insert (Education.handleAnswer_click answerIndex st) with
      | None => True
      | Some p =>
          Education.user st = Some (Education.row_user_id (Education.pending_row p))
          /\ Education.local_records_for
               (Education.row_quiz_id (Education.pending_row p))
               (Education.userProgress st) = 0%nat
      end)
  /\ (forall (p : Education.Pending) (st : Education.State),
        Education.userProgress (fst (Education.handleAnswer_resume p st))
        = Education.userProgress st
          ++ [Education.mkUserProgress
                (Education.row_quiz_id (Education.pending_row p))
                (Education.row_is_correct (Education.pending_row p))])
  /\ (forall (uid : string) (evs : list Education.LiveEvent) (st : Education.State)
             (table : list Education.ProgressRow) (quiz : string),
        Education.user st = Some uid ->
        Education.userProgress st = Education.fetch_progress uid table ->
        Forall no_refetch evs ->
        calm evs (fetched st table) ->
        (Education.records_for uid quiz table <= 1)%nat ->
        let cfg' := Education.live_run evs (fetched st table) in
        (Education.records_for uid quiz (Education.live_table cfg')
         + Education.unlanded_for quiz (Education.live_pending cfg') <= 1)%nat
        /\ (Education.local_records_for quiz
              (Education.userProgress (Education.live_state cfg'))
            + Education.pending_for quiz (Education.live_pending cfg') <= 1)%nat).
Proof.
  split; [|split].
  - intros answerIndex st.
    destruct (handleAnswer_click_spec answerIndex st) as (_ & _ & H).
    cbn zeta in H. destruct (Education.click_insert _); [|exact I].
    destruct H as (Hu & Hz & _). split; assumption.
  - intros p st. reflexivity.
  - intros uid evs st table quiz Huser Hfetch Hno Hcalm Hone cfg'.
    destruct (live_run_bounds uid evs (fetched st table)
                (fetched_live_inv uid st table Huser Hfetch) Hcalm) as [_ Hb].
    destruct (Hb quiz) as [Hdb Hloc]. specialize (Hloc Hno).
    fold cfg' in Hdb, Hloc. unfold fetched in Hdb, Hloc.
    cbn [Education.live_state Education.live_table Education.live_pending] in Hdb, Hloc.
    rewrite Hfetch, fetch_progress_records in Hloc.
    unfold Education.unlanded_for at 2 in Hdb.
    unfold Education.pending_for at 2 in Hloc.
    cbn [List.filter length] in Hdb, Hloc. lia.
Qed.

Lemma answers_recorded_once_unless_interleaved_witness :
  let st := Education.mkState (Some "u-1") sample_quizzes
              (Education.fetch_progress "u-1" sample_progress_table)
              (Some "civic") 0 None false in
  let cfg' := Education.live_run sample_live_session (fetched st sample_progress_table) in
  (Education.records_for "u-1" "q-3" (Education.live_table cfg') <= 1)%nat
  /\ (Education.local_records_for "q-3"
        (Education.userProgress (Education.live_state cfg')) <= 1)%nat.
Proof.
  intros st cfg'.
  destruct (proj2 (proj2 answers_recorded_once_unless_interleaved)
              "u-1" sample_live_session st sample_progress_table "q-3")
    as [Htable Hlocal].
  - reflexivity.
  - reflexivity.
  - repeat constructor.
  - vm_compute. repeat split; reflexivity.
  - vm_compute. lia.
  - fold cfg' in Htable, Hlocal. split; lia.
Defined.

(** ** Contact form *)

Lemma elem_check_min (n : nat) (msg field value : string) (i : Contact.Issue) :
  i ∈ Contact.check_min n msg field value
  <-> i = Contact.mkIssue field msg /\ (String.length value < n)%nat.
Proof.
  unfold Contact.check_min. destruct (Nat.ltb_spec (String.length value) n).
  - rewrite list_elem_of_singleton. tauto.
  - rewrite elem_of_nil. split; [tauto | lia].
Qed.

Lemma elem_check_max (n : nat) (field value : string) (i : Contact.Issue) :
  i ∈ Contact.check_max n field value
  <-> i = Contact.mkIssue field
            ("String must contain at most " +:+ pretty n +:+ " character(s)")
      /\ (n < String.length value)%nat.
Proof.
  unfold Contact.check_max. destruct (Nat.ltb_spec n (String.length value)).
  - rewrite list_elem_of_singleton. tauto.
  - rewrite elem_of_nil. split; [tauto | lia].
Qed.

Lemma elem_check_email (isEmail : string -> bool) (msg field value : string)
    (i : Contact.Issue) :
  i ∈ Contact.check_email isEmail msg field value
  <-> i = Contact.mkIssue field msg /\ isEmail value = false.
Proof.
  unfold Contact.check_email. destruct (isEmail value).
  - rewrite elem_of_nil. split; [tauto | intros [_ ?]; discriminate].
  - rewrite list_elem_of_singleton. tauto.
Qed.

Section ContactSchema.

Variable isEmail : string -> bool.
Variable f : Contact.FormData.

Let issues := Contact.contactSchema isEmail f.

(** Every issue names one of the four fields, on a field that breaks its
    bounds, with a message that is not empty. *)
Lemma issue_sound (i : Contact.Issue) :
  i ∈ issues ->
  Contact.field_ok isEmail f (Contact.path i) = false
  /\ JS.truthy (Contact.path i) = true
  /\ Contact.issue_message i <> "".
Proof.
  unfold issues, Contact.contactSchema.
  rewrite !elem_of_app, !elem_check_min, !elem_check_max, elem_check_email.
  unfold Contact.field_ok, Contact.name_ok, Contact.email_ok, Contact.subject_ok,
    Contact.message_ok.
  intros [[[-> H]|[-> H]]|[[[-> H]|[-> H]]|[[[-> H]|[-> H]]|[[-> H]|[-> H]]]]];
    cbn [Contact.path Contact.issue_message JS.seq String.eqb Ascii.eqb Bool.eqb
         JS.truthy];
    (split; [|split; [reflexivity | discriminate]]).
  - apply andb_false_iff; left. apply Nat.leb_gt. lia.
  - apply andb_false_iff; right. apply Nat.leb_gt. lia.
  - apply andb_false_iff; left. exact H.
  - apply andb_false_iff; right. apply Nat.leb_gt. lia.
  - apply andb_false_iff; left. apply Nat.leb_gt. lia.
  - apply andb_false_iff; right. apply Nat.leb_gt. lia.
  - apply andb_false_iff; left. apply Nat.leb_gt. lia.
  - apply andb_false_iff; right. apply Nat.leb_gt. lia.
Qed.

(** A field that breaks its bounds has an issue. *)
Lemma issue_complete (field : string) :
  Contact.field_ok isEmail f field = false ->
  exists i, i ∈ issues /\ Contact.path i = field.
Proof.
  unfold Contact.field_ok, JS.seq.
  destruct (String.eqb_spec field "name") as [->|_].
  { unfold Contact.name_ok. intros [H|H]%andb_false_iff; apply Nat.leb_gt in H.
    - exists (Contact.mkIssue "name" "Name must be at least 2 characters").
      split; [|reflexivity]. unfold issues, Contact.contactSchema.
      rewrite !elem_of_app, !elem_check_min. left; left. split; [reflexivity | lia].
    - eexists. split; [|shelve]. unfold issues, Contact.contactSchema.
      rewrite !elem_of_app, !elem_check_max. left; right.
      split; [reflexivity | lia]. Unshelve. reflexivity. }
  destruct (String.eqb_spec field "email") as [->|_].
  { unfold Contact.email_ok. intros [H|H]%andb_false_iff.
    - exists (Contact.mkIssue "email" "Please enter a valid email address").
      split; [|reflexivity]. unfold issues, Contact.contactSchema.
      rewrite !elem_of_app, elem_check_email. right; left; left.
      split; [reflexivity | exact H].
    - apply Nat.leb_gt in H. eexists. split; [|shelve].
      unfold issues, Contact.contactSchema.
      rewrite !elem_of_app, !elem_check_max. right; left; right.
      split; [reflexivity | lia]. Unshelve. reflexivity. }
  destruct (String.eqb_spec field "subject") as [->|_].
  { unfold Contact.subject_ok. intros [H|H]%andb_false_iff; apply Nat.leb_gt in H.
    - exists (Contact.mkIssue "subject" "Subject must be at least 5 characters").
      split; [|reflexivity]. unfold issues, Contact.contactSchema.
      rewrite !elem_of_app, !elem_check_min. right; right; left; left.
      split; [reflexivity | lia].
    - eexists. split; [|shelve]. unfold issues, Contact.contactSchema.
      rewrite !elem_of_app, !elem_check_max. right; right; left; right.
      split; [reflexivity | lia]. Unshelve. reflexivity. }
  destruct (String.eqb_spec field "message") as [->|_]; [|discriminate].
  unfold Contact.message_ok. intros [H|H]%andb_false_iff; apply Nat.leb_gt in H.
  - exists (Contact.mkIssue "message" "Message must be at least 10 characters").
    split; [|reflexivity]. unfold issues, Contact.contactSchema.
    rewrite !elem_of_app, !elem_check_min. right; right; right; left.
    split; [reflexivity | lia].
  - eexists. split; [|shelve]. unfold issues, Contact.contactSchema.
    rewrite !elem_of_app, !elem_check_max. right; right; right; right.
    split; [reflexivity | lia]. Unshelve. reflexivity.
Qed.

Lemma form_ok_fields :
  Contact.form_ok isEmail f = true
  <-> forall field, Contact.field_ok isEmail f field = true.
Proof.
  unfold Contact.form_ok. rewrite !andb_true_iff. split.
  - intros [[[Hn He] Hs] Hm] field. unfold Contact.field_ok.
    repeat (destruct (JS.seq field _); [assumption|]). reflexivity.
  - intros H. repeat split.
    + exact (H "name").
    + exact (H "email").
    + exact (H "subject").
    + exact (H "message").
Qed.

Lemma form_ok_no_issue : Contact.form_ok isEmail f = true <-> issues = [].
Proof.
  rewrite form_ok_fields. split.
  - intros Hall. apply elem_of_nil_inv. intros i Hi.
    destruct (issue_sound i Hi) as [Hbad _]. rewrite Hall in Hbad. discriminate.
  - intros Hnil field.
    destruct (Contact.field_ok isEmail f field) eqn:Hfield; [reflexivity|].
    destruct (issue_complete field Hfield) as (i & Hi & _).
    rewrite Hnil in Hi. apply elem_of_nil in Hi. contradiction.
Qed.

End ContactSchema.

(** The entries of [fieldErrors] are those already present and the
    issues with a truthy path. *)
Lemma collect_errors_lookup (issues : list Contact.Issue) (k : string) :
  forall m : gmap string string,
  (is_Some (foldl (fun fieldErrors err =>
                     if JS.truthy (Contact.path err)
                     then <[Contact.path err := Contact.issue_message err]> fieldErrors
                     else fieldErrors) m issues !! k)
   <-> is_Some (m !! k)
       \/ exists i, i ∈ issues /\ Contact.path i = k
                    /\ JS.truthy (Contact.path i) = true)
  /\ (forall msg,
        foldl (fun fieldErrors err =>
                 if JS.truthy (Contact.path err)
                 then <[Contact.path err := Contact.issue_message err]> fieldErrors
                 else fieldErrors) m issues !! k = Some msg ->
        m !! k = Some msg
        \/ exists i, i ∈ issues /\ Contact.issue_message i = msg).
Proof.
  induction issues as [|i issues IH]; intros m; simpl.
  - split.
    + split; [tauto|]. intros [H|(i & Hi & _)]; [exact H|].
      apply elem_of_nil in Hi. contradiction.
    + intros msg H. left. exact H.
  - destruct (IH (if JS.truthy (Contact.path i)
                  then <[Contact.path i := Contact.issue_message i]> m else m))
      as [IH1 IH2].
    split.
    + rewrite IH1. setoid_rewrite elem_of_cons.
      destruct (JS.truthy (Contact.path i)) eqn:Ht.
      * rewrite lookup_insert_is_Some'. split.
        -- intros [[Hk|Hm]|(j & Hj & Hp & Htj)].
           ++ right. exists i. repeat split; [left; reflexivity | exact Hk | exact Ht].
           ++ left. exact Hm.
           ++ right. exists j. repeat split; [right; exact Hj | exact Hp | exact Htj].
        -- intros [Hm|(j & [->|Hj] & Hp & Htj)].
           ++ left. right. exact Hm.
           ++ left. left. exact Hp.
           ++ right. exists j. repeat split; assumption.
      * split.
        -- intros [Hm|(j & Hj & Hp & Htj)]; [left; exact Hm|].
           right. exists j. repeat split; [right; exact Hj | exact Hp | exact Htj].
        -- intros [Hm|(j & [->|Hj] & Hp & Htj)]; [left; exact Hm | congruence |].
           right. exists j. repeat split; assumption.
    + intros msg Hmsg. destruct (IH2 msg Hmsg) as [Hm|(j & Hj & Hjm)].
      * destruct (JS.truthy (Contact.path i)); [|left; exact Hm].
        apply lookup_insert_Some in Hm as [[_ Hm]|[_ Hm]].
        -- right. exists i. split; [apply elem_of_cons; left; reflexivity | exact Hm].
        -- left. exact Hm.
      * right. exists j. split; [apply elem_of_cons; right; exact Hj | exact Hjm].
Qed.

(** C9: when some field of the contact form breaks its bounds (name of 2
    to 100 characters, a valid e-mail of at most 255, subject of 5 to
    200, message of 10 to 1000), the handler issues no insert and no
    notification and sets a non-empty error message for exactly the
    fields that break their bounds; an insert is issued only for a form
    that passes, so the check comes first. *)
Theorem contact_validation_precedes_insert
    (isEmail : string -> bool) (resp : Response unit) (st : Contact.State) :
  let f := Contact.formData st in
  let out := Contact.handleSubmit isEmail resp st in
  (Contact.form_ok isEmail f = false ->
     Contact.out_inserts out = []
     /\ Contact.out_toasts out = []
     /\ Contact.errors (Contact.out_state out) <> ∅
     /\ (forall field,
           is_Some (Contact.errors (Contact.out_state out) !! field)
           <-> Contact.field_ok isEmail f field = false)
     /\ (forall field msg,
           Contact.errors (Contact.out_state out) !! field = Some msg -> msg <> "")
     /\ Contact.formData (Contact.out_state out) = f
     /\ Contact.submitted (Contact.out_state out) = Contact.submitted st)
  /\ (Contact.form_ok isEmail f = true ->
        Contact.out_inserts out = [f]
        /\ Contact.errors (Contact.out_state out) = ∅)
  /\ (Contact.out_inserts out <> [] -> Contact.form_ok isEmail f = true).
Proof.
  intros f out.
  assert (Hpass : Contact.form_ok isEmail f = true ->
                  Contact.out_inserts out = [f]
                  /\ Contact.errors (Contact.out_state out) = ∅).
  { intros Hok. apply form_ok_no_issue in Hok.
    subst out. unfold Contact.handleSubmit, Contact.safeParse. fold f. rewrite Hok.
    destruct f. destruct resp; split; reflexivity. }
  assert (Hfail : Contact.form_ok isEmail f = false ->
                  out = Contact.mkSubmitOutcome
                          (Contact.mkState f
                             (Contact.collect_errors (Contact.contactSchema isEmail f))
                             (Contact.loading st) (Contact.submitted st)) [] []).
  { intros Hbad. subst out. unfold Contact.handleSubmit, Contact.safeParse. fold f.
    destruct (Contact.contactSchema isEmail f) as [|i issues] eqn:Hissues;
      [|reflexivity].
    apply form_ok_no_issue in Hissues. congruence. }
  split; [|split; [exact Hpass|]].
  - intros Hbad. rewrite (Hfail Hbad). cbn [Contact.out_inserts Contact.out_toasts
      Contact.out_state Contact.errors Contact.formData Contact.submitted].
    assert (Hdom : forall field,
               is_Some (Contact.collect_errors (Contact.contactSchema isEmail f) !! field)
               <-> Contact.field_ok isEmail f field = false).
    { intros field. unfold Contact.collect_errors.
      rewrite (proj1 (collect_errors_lookup _ field ∅)). rewrite lookup_empty. split.
      - intros [[x Hx]|(i & Hi & <- & _)]; [discriminate|].
        apply (issue_sound isEmail f i Hi).
      - intros Hfield. right.
        destruct (issue_complete isEmail f field Hfield) as (i & Hi & Hp).
        exists i. split; [exact Hi|]. split; [exact Hp|].
        apply (issue_sound isEmail f i Hi). }
    split; [reflexivity|]. split; [reflexivity|]. split; [|split; [exact Hdom|]].
    + intros Hempty.
      assert (exists field, Contact.field_ok isEmail f field = false) as [field Hfield].
      { destruct (Contact.field_ok isEmail f "name") eqn:H1; [|eauto].
        destruct (Contact.field_ok isEmail f "email") eqn:H2; [|eauto].
        destruct (Contact.field_ok isEmail f "subject") eqn:H3; [|eauto].
        destruct (Contact.field_ok isEmail f "message") eqn:H4; [|eauto].
        exfalso. revert Hbad. unfold Contact.form_ok.
        unfold Contact.field_ok in H1, H2, H3, H4. simpl in H1, H2, H3, H4.
        rewrite H1, H2, H3, H4. discriminate. }
      apply Hdom in Hfield. rewrite Hempty, lookup_empty in Hfield.
      destruct Hfield as [x Hx]. discriminate.
    + split; [|split; reflexivity].
      intros field msg Hmsg. unfold Contact.collect_errors in Hmsg.
      apply (proj2 (collect_errors_lookup _ field ∅)) in Hmsg.
      destruct Hmsg as [Hm|(i & Hi & <-)]; [rewrite lookup_empty in Hm; discriminate|].
      apply (issue_sound isEmail f i Hi).
  - intros Hins. destruct (Contact.form_ok isEmail f) eqn:Hok; [reflexivity|].
    rewrite (Hfail eq_refl) in Hins. contradiction.
Qed.

Lemma contact_validation_precedes_insert_witness :
  let out := Contact.handleSubmit Contact.sample_isEmail (Ok tt) sample_contact_state in
  Contact.out_inserts out = []
  /\ Contact.errors (Contact.out_state out) !! "name"
     = Some "Name must be at least 2 characters"
  /\ Contact.errors (Contact.out_state out) !! "email" = None.
Proof.
  intros out.
  destruct (proj1 (contact_validation_precedes_insert Contact.sample_isEmail (Ok tt)
                     sample_contact_state) eq_refl) as (Hins & _).
  split; [exact Hins|]. split; reflexivity.
Defined.

(** ** Report submission *)

Lemma slice0_length {A} (l : list A) (e : Z) :
  0 <= e -> Z.of_nat (length (JS.slice0 l e)) <= e.
Proof.
  intros He. unfold JS.slice0. rewrite length_take.
  destruct (Z.ltb_spec e 0); lia.
Qed.

Lemma remove_at_length {A} (index : nat) (l : list A) :
  (length (ReportNow.remove_at index l) <= length l)%nat.
Proof.
  unfold ReportNow.remove_at. rewrite length_fmap.
  etransitivity; [apply sublist_length, filter_sublist_of|].
  rewrite length_imap. reflexivity.
Qed.

Lemma step_images_bound (st : ReportNow.State) (ev : ReportNow.Event) :
  (length (ReportNow.images st) <= 5)%nat ->
  (length (ReportNow.images (ReportNow.step st ev)) <= 5)%nat.
Proof.
  intros Hst. destruct ev as [field value|lat lon|files|index]; simpl;
    try exact Hst.
  - destruct files as [fs|]; simpl; [|exact Hst].
    rewrite length_app.
    pose proof (slice0_length fs (5 - Z.of_nat (length (ReportNow.images st)))).
    lia.
  - pose proof (remove_at_length index (ReportNow.images st)). lia.
Qed.

(** However the form is used, it never holds more than five images. *)
Lemma run_images_bound (evs : list ReportNow.Event) :
  forall st : ReportNow.State,
  (length (ReportNow.images st) <= 5)%nat ->
  (length (ReportNow.images (ReportNow.run evs st)) <= 5)%nat.
Proof.
  induction evs as [|ev evs IH]; intros st Hst; [exact Hst|].
  apply (IH (ReportNow.step st ev)), step_images_bound, Hst.
Qed.

Lemma uploaded_from_length (env : ReportNow.Env) (imgs : list ReportNow.File) :
  forall i : nat, (length (ReportNow.uploaded_from env i imgs) <= length imgs)%nat.
Proof.
  induction imgs as [|image rest IH]; intros i; simpl; [lia|].
  specialize (IH (S i)). destruct (ReportNow.upload_error env i); simpl; lia.
Qed.

(** The loop attempts every image and pushes the URL of each one whose
    upload succeeded, in order. *)
Lemma upload_loop_spec (env : ReportNow.Env) (uid : string)
    (imgs : list ReportNow.File) :
  forall (i : nat) (imageUrls : list string),
  length (fst (ReportNow.upload_loop env uid i imgs imageUrls)) = length imgs
  /\ snd (ReportNow.upload_loop env uid i imgs imageUrls)
     = imageUrls ++ (ReportNow.url_of env uid <$> ReportNow.uploaded_from env i imgs).
Proof.
  induction imgs as [|image rest IH]; intros i imageUrls; simpl.
  - split; [reflexivity | rewrite app_nil_r; reflexivity].
  - destruct (ReportNow.upload_error env i) as [e|].
    + destruct (IH (S i) imageUrls) as [IH1 IH2].
      destruct (ReportNow.upload_loop env uid (S i) rest imageUrls) as [attempted urls].
      simpl in *. split; [f_equal; exact IH1 | exact IH2].
    + destruct (IH (S i)
                   (imageUrls
                    ++ [ReportNow.getPublicUrl env
                          (ReportNow.fileName_of uid (ReportNow.date_now env i) image)]))
        as [IH1 IH2].
      destruct (ReportNow.upload_loop env uid (S i) rest _) as [attempted urls].
      simpl in *. split; [f_equal; exact IH1|].
      rewrite IH2, <- app_assoc. reflexivity.
Qed.

(** C1: take the form in any state it can reach, with category, title
    and description filled and a signed-in user.  Submitting attempts the
    upload of every image and then issues one insert whose [image_urls]
    are the public URLs of the images whose upload succeeded, one each in
    order and at most five; a failed upload only leaves its URL out.
    When the insert succeeds, the created row has status submitted and
    these [image_urls]. *)
Theorem submission_creates_submitted_row
    (param : option string) (evs : list ReportNow.Event)
    (uid : string) (env : ReportNow.Env) :
  let st := ReportNow.run evs (ReportNow.initial param) in
  ReportNow.required_filled (ReportNow.formData st) = true ->
  let out := ReportNow.handleSubmit (Some uid) env st in
  let urls := ReportNow.url_of env uid <$> ReportNow.uploaded env st in
  length urls = length (ReportNow.uploaded env st)
  /\ (length urls <= 5)%nat
  /\ length (ReportNow.out_uploads out) = length (ReportNow.images st)
  /\ (exists row, ReportNow.out_inserts out = [row]
                  /\ ReportNow.ins_image_urls row = urls
                  /\ ReportNow.ins_user_id row = uid)
  /\ (forall g, ReportNow.insert_answer env = Ok g ->
        exists r, ReportNow.out_created out = Some r
                  /\ status r = submitted
                  /\ image_urls r = Some urls
                  /\ report_number r = ReportNow.gen_report_number g
                  /\ ReportNow.out_toasts out
                     = [ReportNow.toast_submitted (ReportNow.gen_report_number g)])
  /\ (forall message, ReportNow.insert_answer env = Err message ->
        ReportNow.out_created out = None
        /\ ReportNow.out_toasts out = [ReportNow.toast_submission_failed message]).
Proof.
  intros st Hreq out urls.
  assert (Hfive : (length (ReportNow.images st) <= 5)%nat).
  { apply run_images_bound. simpl. lia. }
  destruct (upload_loop_spec env uid (ReportNow.images st) 0%nat []) as [Hatt Hurls].
  simpl in Hurls. fold (ReportNow.uploaded env st) in Hurls. fold urls in Hurls.
  split; [apply length_fmap|]. split.
  { subst urls. rewrite length_fmap.
    pose proof (uploaded_from_length env (ReportNow.images st) 0%nat).
    unfold ReportNow.uploaded. lia. }
  subst out. unfold ReportNow.handleSubmit. rewrite Hreq. cbn [negb].
  destruct (ReportNow.upload_loop env uid 0 (ReportNow.images st) [])
    as [attempted imageUrls].
  cbn [fst snd] in Hatt, Hurls. subst imageUrls.
  destruct (ReportNow.insert_answer env) as [g|message]; cbn.
  - split; [exact Hatt|]. split; [eexists; repeat split|]. split.
    + intros g' [= <-]. eexists. repeat split.
    + intros message [=].
  - split; [exact Hatt|]. split; [eexists; repeat split|]. split.
    + intros g [=].
    + intros message' [= <-]. split; reflexivity.
Qed.

Lemma submission_creates_submitted_row_witness :
  let st := ReportNow.run sample_form_events (ReportNow.initial (Some "pothole")) in
  let out := ReportNow.handleSubmit (Some "u-1") sample_env st in
  length (ReportNow.images st) = 4%nat
  /\ length (ReportNow.out_uploads out) = 4%nat
  /\ exists r, ReportNow.out_created out = Some r
               /\ status r = submitted
               /\ image_urls r
                  = Some ["https://cdn.example/report-images/u-1/1700000000000-b.jpg";
                          "https://cdn.example/report-images/u-1/1700000000002-d.jpg";
                          "https://cdn.example/report-images/u-1/1700000000003-e.jpg"].
Proof.
  intros st out.
  destruct (submission_creates_submitted_row (Some "pothole") sample_form_events
              "u-1" sample_env eq_refl)
    as (_ & _ & Hatt & _ & Hok & _).
  split; [reflexivity|]. split; [exact Hatt|].
  destruct (Hok _ eq_refl) as (r & Hr & Hs & Hi & _).
  exists r. split; [exact Hr|]. split; [exact Hs|]. rewrite Hi. reflexivity.
Defined.

(** * Further properties of the screens *)

(** ** Report tracking *)

Lemma eq_report_number_elem (reportId : string) (table : list Report) (r : Report) :
  r ∈ Track.eq_report_number reportId table <-> report_number r = reportId /\ r ∈ table.
Proof. unfold Track.eq_report_number. rewrite list_elem_of_filter. tauto. Qed.

(** X1: whatever the table holds, and whether the request is served
    or fails, [searchReport] ends in one of three ways: the displayed report is the one displayed before and a
    destructive notification is raised; or nothing is displayed, "not
    found" is raised and no row of the table carries the identifier; or a
    row of the table carrying exactly the identifier looked up (the only
    such row) is displayed and nothing is raised.  It never displays a row
    with another tracking number. *)
Theorem searchReport_displays_matching_row
    (arg : option string) (failure : option string) (table : list Report)
    (st : Track.State) :
  let res := Track.searchReport arg (Track.lookup failure table) st in
  let reportId := Track.reportId_of arg st in
  (Track.report (fst res) = Track.report st
   /\ exists t, snd res = [t] /\ toast_destructive t = true
                /\ t <> Track.toast_not_found)
  \/ (Track.report (fst res) = None
      /\ snd res = [Track.toast_not_found]
      /\ Forall (fun r => report_number r <> reportId) table)
  \/ (exists r, Track.report (fst res) = Some r
                /\ snd res = []
                /\ r ∈ table
                /\ report_number r = reportId
                /\ Track.eq_report_number reportId table = [r]).
Proof.
  intros res reportId. subst res. unfold Track.searchReport. fold reportId.
  destruct (JS.truthy reportId) eqn:Hid; simpl;
    [|left; split; [reflexivity|]; eexists; repeat split; discriminate].
  unfold Track.lookup.
  destruct failure as [message|];
    [left; split; [reflexivity|]; eexists; repeat split; discriminate|].
  destruct (Track.eq_report_number reportId table) as [|r [|r' rows]] eqn:Hrows; simpl.
  - right; left. repeat split.
    apply Forall_forall. intros r Hr Heq.
    assert (r ∈ Track.eq_report_number reportId table) as Hin
      by (apply eq_report_number_elem; split; assumption).
    rewrite Hrows in Hin. apply elem_of_nil in Hin. exact Hin.
  - right; right. exists r.
    assert (r ∈ Track.eq_report_number reportId table) as Hin
      by (rewrite Hrows; apply list_elem_of_singleton; reflexivity).
    apply eq_report_number_elem in Hin as [Hnum Hin].
    repeat split; assumption.
  - left. split; [reflexivity|]. eexists. repeat split. discriminate.
Qed.

(** X2: tracking numbers are not assumed unique: when two or more rows
    carry the identifier, the lookup fails as a whole (as it does when
    the request itself fails), the displayed
    report stays what it was and the only notification is "Search
    failed"; none of the matching rows is picked. *)
Theorem searchReport_ambiguous_number
    (arg : option string) (failure : option string) (table : list Report)
    (st : Track.State) :
  Track.reportId_of arg st <> "" ->
  (2 <= length (Track.eq_report_number (Track.reportId_of arg st) table))%nat ->
  let res := Track.searchReport arg (Track.lookup failure table) st in
  Track.report (fst res) = Track.report st
  /\ Track.loading (fst res) = false
  /\ exists message, snd res = [Track.toast_search_failed message].
Proof.
  intros Hid Htwo res. subst res. unfold Track.searchReport.
  rewrite (truthy_nonempty _ Hid). simpl. unfold Track.lookup.
  destruct failure as [message|]; [simpl; repeat split; eexists; reflexivity|].
  destruct (Track.eq_report_number _ table) as [|r [|r' rows]]; simpl in Htwo; try lia.
  simpl. repeat split. eexists. reflexivity.
Qed.

Lemma searchReport_ambiguous_number_witness :
  let st := Track.mkState "" (Some (sample_report "CIV-8" assigned)) [] false false in
  let res := Track.searchReport (Some "CIV-7")
                                 (Track.lookup None duplicated_number_table) st in
  Track.report (fst res) = Some (sample_report "CIV-8" assigned)
  /\ Track.loading (fst res) = false.
Proof.
  intros st res.
  destruct (searchReport_ambiguous_number (Some "CIV-7") None duplicated_number_table st)
    as (H1 & H2 & _).
  - vm_compute. discriminate.
  - vm_compute. lia.
  - split; [exact H1 | exact H2].
Defined.

(** X3: the completed steps of the timeline are a prefix of it: the
    first [index + 1] steps, where [index] is the position of the report's
    status in the workflow (none for a rejected report); and the one
    current step, if any, is the step at that position, i.e. the last
    completed one. *)
Theorem timeline_completed_prefix (r : Report) :
  let n := Z.to_nat (Track.getStatusIndex (status r) + 1) in
  Track.isCompleted <$> Track.timeline r
  = replicate n true ++ replicate (5 - n) false
  /\ Track.isCurrent <$> Track.timeline r
     = (fun i => bool_decide (Z.of_nat i = Track.getStatusIndex (status r)))
         <$> seq 0 5
  /\ (n <= 5)%nat.
Proof.
  unfold Track.timeline, Track.render_step.
  destruct (status r); cbn zeta; (split; [|split]);
    first [vm_compute; reflexivity | vm_compute; lia].
Qed.

Lemma progress_width_value (r : Report) :
  (Track.progress_width r == inject_Z (25 * Track.getStatusIndex (status r)))%Q.
Proof.
  unfold Track.progress_width. rewrite getStatusIndex_table.
  destruct (status r); reflexivity.
Qed.

(** X4: the progress line is 25 percent wide per workflow position: its
    width stays between 0 and 100 for the five workflow statuses, reaches
    100 only for a resolved report, and is negative (-25) for a rejected
    one. *)
Theorem progress_width_range (r : Report) :
  (status r <> rejected ->
     (0 <= Track.progress_width r)%Q /\ (Track.progress_width r <= 100)%Q)
  /\ ((Track.progress_width r == 100)%Q <-> status r = resolved)
  /\ (status r = rejected -> (Track.progress_width r == -25)%Q).
Proof.
  pose proof (progress_width_value r) as Hw. revert Hw.
  rewrite getStatusIndex_table.
  destruct (status r); intros Hw; rewrite !Hw; (split; [|split]);
    try (intros _; split; discriminate);
    try (intros H; exfalso; apply H; reflexivity);
    try (split; [intros H; discriminate H | intros H; discriminate H]);
    try (intros H; discriminate H); try reflexivity;
    try (split; reflexivity).
Qed.

Lemma progress_width_range_witness :
  (Track.progress_width (sample_report "CIV-2" rejected) == -25)%Q
  /\ (0 <= Track.progress_width (sample_report "CIV-1" in_review))%Q.
Proof.
  split.
  - apply (proj2 (proj2 (progress_width_range (sample_report "CIV-2" rejected)))).
    reflexivity.
  - apply (proj1 (progress_width_range (sample_report "CIV-1" in_review))).
    discriminate.
Defined.

Lemma string_length_app (a b : string) :
  String.length (a +:+ b) = (String.length a + String.length b)%nat.
Proof. induction a as [|c a IH]; simpl; [reflexivity | rewrite IH; reflexivity]. Qed.

Lemma filter_Boolean_nonempty (l : list (option string)) :
  Forall (fun v => v <> "") (JS.filter_Boolean l).
Proof.
  unfold JS.filter_Boolean. induction l as [|[[|c v]|] l IH]; simpl;
    [constructor | exact IH | | exact IH].
  constructor; [discriminate | exact IH].
Qed.

Lemma join_length (sep : string) (l : list string) :
  l <> [] ->
  String.length (JS.join sep l)
  = (sum_list (String.length <$> l) + String.length sep * (length l - 1))%nat.
Proof.
  induction l as [|x [|y l] IH]; intros Hne; [congruence | simpl; lia |].
  change (JS.join sep (x :: y :: l)) with (x +:+ sep +:+ JS.join sep (y :: l)).
  rewrite !string_length_app, IH by discriminate. simpl. lia.
Qed.

Lemma join_truthy (sep : string) (l : list string) :
  l <> [] -> Forall (fun v => v <> "") l -> JS.truthy (JS.join sep l) = true.
Proof.
  destruct l as [|x [|y l]]; intros Hne Hall; [congruence | |];
    apply Forall_cons in Hall as [Hx _]; destruct x; try congruence; reflexivity.
Qed.

(** X5: the location line of the details skips the address parts that
    are missing or empty: with none present it reads "Not specified";
    otherwise it is the present parts in the order address, city, state,
    separated by one ", " each, so its length is the length of the parts
    plus two per separator, and it is never empty. *)
Theorem location_line_skips_missing (r : Report) :
  let present := JS.filter_Boolean [address r; city r; state r] in
  Track.location_line r <> ""
  /\ (present = [] -> Track.location_line r = "Not specified")
  /\ (present <> [] ->
      Track.location_line r = JS.join ", " present
      /\ String.length (Track.location_line r)
         = (sum_list (String.length <$> present) + 2 * (length present - 1))%nat).
Proof.
  intros present. unfold Track.location_line. fold present.
  assert (Hpresent : present <> [] ->
            JS.or_else (JS.join ", " present) "Not specified" = JS.join ", " present).
  { intros Hne. unfold JS.or_else.
    rewrite (join_truthy _ _ Hne (filter_Boolean_nonempty _)). reflexivity. }
  split; [|split].
  - destruct present as [|x l] eqn:Hp; [discriminate|].
    rewrite Hpresent by discriminate. intros Hempty.
    pose proof (join_truthy ", " (x :: l)) as Ht. rewrite Hempty in Ht.
    pose proof (filter_Boolean_nonempty [address r; city r; state r]) as Hall.
    fold present in Hall. rewrite Hp in Hall.
    specialize (Ht ltac:(discriminate) Hall). discriminate.
  - intros ->. reflexivity.
  - intros Hne. rewrite (Hpresent Hne). split; [reflexivity|].
    rewrite (join_length _ _ Hne). reflexivity.
Qed.

Lemma location_line_skips_missing_witness :
  Track.location_line (sample_report "CIV-1" assigned) = "MG Road, Maharashtra"
  /\ String.length (Track.location_line (sample_report "CIV-1" assigned)) = 20%nat.
Proof.
  destruct (proj2 (proj2 (location_line_skips_missing (sample_report "CIV-1" assigned))))
    as [H1 H2].
  - discriminate.
  - split; [exact H1 | exact H2].
Defined.

(** ** Admin dashboard *)

Lemma fetchReports_keeps_stats (resp : Response (option (list Report)))
    (st : Admin.State) :
  Admin.stats st = Admin.computeStats (Admin.reports st) ->
  Admin.stats (Admin.fetchReports resp st)
  = Admin.computeStats (Admin.reports (Admin.fetchReports resp st)).
Proof. intros Hst. destruct resp as [data|message]; simpl; [reflexivity | exact Hst]. Qed.

Lemma step_keeps_stats (st : Admin.State) (ev : Admin.Event) :
  Admin.stats st = Admin.computeStats (Admin.reports st) ->
  Admin.stats (Admin.step st ev)
  = Admin.computeStats (Admin.reports (Admin.step st ev)).
Proof.
  intros Hst. destruct ev; simpl; try exact Hst.
  - apply fetchReports_keeps_stats, Hst.
  - unfold Admin.handleUpdateReport.
    destruct (Admin.selectedReport st); [|exact Hst].
    destruct upd as [[]|message]; simpl; [|exact Hst].
    apply (fetchReports_keeps_stats refetch
             (Admin.set_selectedReport None (Admin.set_updating true st))), Hst.
Qed.

(** X6: whatever happens on the dashboard (fetches that succeed or fail,
    searches, filter changes, dialogs opened, edited, saved or closed),
    the four tiles are always the statistics of the list currently held:
    in particular the total is its length, and the search result never
    shows more rows than the total. *)
Theorem stats_follow_reports (evs : list Admin.Event) :
  let st := Admin.run evs Admin.initial in
  Admin.stats st = Admin.computeStats (Admin.reports st)
  /\ Admin.n_total (Admin.stats st) = length (Admin.reports st)
  /\ (length (Admin.filteredReports st) <= Admin.n_total (Admin.stats st))%nat.
Proof.
  intros st.
  assert (Hinv : Admin.stats st = Admin.computeStats (Admin.reports st)).
  { subst st. unfold Admin.run.
    assert (forall s, Admin.stats s = Admin.computeStats (Admin.reports s) ->
              Admin.stats (foldl Admin.step s evs)
              = Admin.computeStats (Admin.reports (foldl Admin.step s evs))) as H.
    { induction evs as [|ev evs IH]; intros s Hs; [exact Hs|].
      simpl. apply IH, step_keeps_stats, Hs. }
    apply H. reflexivity. }
  split; [exact Hinv|]. rewrite Hinv. simpl. split; [reflexivity|].
  apply sublist_length, filter_sublist_of.
Qed.

Lemma filled_or_default (o : option string) :
  filled (JS.or_default o "") = o ≫= filled.
Proof. destruct o as [[|c v]|]; reflexivity. Qed.

(** X7: saving a dialog exactly as it was opened sends the report's own
    values back: the status always, the assignee and the remarks when the
    report has non-empty ones, and a fresh [resolved_at] whenever the
    report is already resolved (so saving a resolved report again moves
    its resolution time). *)
Theorem save_after_open_resends_values
    (report : Report) (st : Admin.State) (now : string) (upd : Response unit)
    (refetch : Response (option (list Report))) :
  exists fields : gmap string string,
    Admin.out_requests
      (Admin.handleUpdateReport now upd refetch (Admin.openReport report st))
    = [Admin.mkUpdateRequest fields (id report)]
    /\ fields !! "status" = Some (status_name (status report))
    /\ fields !! "assigned_to" = assigned_to report ≫= filled
    /\ fields !! "authority_remarks" = authority_remarks report ≫= filled
    /\ fields !! "resolved_at"
       = (if decide (status report = resolved) then Some now else None).
Proof.
  exists (Admin.build_updates (Admin.updateData (Admin.openReport report st)) now).
  split; [unfold Admin.handleUpdateReport; simpl; destruct upd; reflexivity|].
  rewrite build_updates_status, build_updates_assigned_to, build_updates_remarks,
    build_updates_resolved_at.
  cbn [Admin.openReport Admin.updateData Admin.form_status Admin.form_assigned_to
       Admin.form_remarks].
  rewrite !filled_or_default.
  repeat split; destruct (status report); reflexivity.
Qed.

Lemma lower_upper_unit (c : ascii) :
  JS.lower_unit (JS.upper_ascii c) = JS.lower_unit c.
Proof. destruct c as [[] [] [] [] [] [] [] []]; reflexivity. Qed.

Lemma toLowerCase_asciiUpper (s : string) :
  JS.toLowerCase (JS.asciiUpper s) = JS.toLowerCase s.
Proof.
  induction s as [|c s IH]; [reflexivity|].
  simpl. rewrite lower_upper_unit, IH. reflexivity.
Qed.

Lemma lower_lower_unit (c : ascii) :
  JS.lower_unit (JS.lower_unit c) = JS.lower_unit c.
Proof. destruct c as [[] [] [] [] [] [] [] []]; reflexivity. Qed.

Lemma toLowerCase_idem (s : string) :
  JS.toLowerCase (JS.toLowerCase s) = JS.toLowerCase s.
Proof.
  induction s as [|c s IH]; [reflexivity|].
  simpl. rewrite lower_lower_unit, IH. reflexivity.
Qed.

(** X8: the search box ignores the letter case of what is typed: the
    query with its letters a to z in upper case, or the query in lower
    case, selects the same reports in the same order as the query
    itself. *)
Theorem search_ignores_query_case (q : string) (st : Admin.State) :
  Admin.filteredReports (Admin.set_searchQuery (JS.asciiUpper q) st)
  = Admin.filteredReports (Admin.set_searchQuery q st)
  /\ Admin.filteredReports (Admin.set_searchQuery (JS.toLowerCase q) st)
     = Admin.filteredReports (Admin.set_searchQuery q st).
Proof.
  unfold Admin.filteredReports, Admin.search_predicate. simpl.
  rewrite toLowerCase_asciiUpper, toLowerCase_idem. split; reflexivity.
Qed.

Lemma startsWith_refl (s : string) : JS.startsWith s s = true.
Proof.
  induction s as [|c s IH]; [reflexivity|].
  simpl. rewrite Ascii.eqb_refl, IH. reflexivity.
Qed.

Lemma includes_refl (s : string) : JS.includes s s = true.
Proof. destruct s; simpl; [reflexivity|]. rewrite Ascii.eqb_refl, startsWith_refl. reflexivity. Qed.

(** X9: a fetched report is kept by every query that reads, once lower
    cased, as its lower-cased tracking number, as its lower-cased title
    or, for a report with a city, as its lower-cased city.  So typing
    one of these fields as it is stored finds the report, and so does
    every spelling of the field that [toLowerCase] sends to the same
    string. *)
Theorem search_finds_own_fields (st : Admin.State) (r : Report) (q : string) :
  r ∈ Admin.reports st ->
  JS.toLowerCase q = JS.toLowerCase (report_number r)
  \/ JS.toLowerCase q = JS.toLowerCase (title r)
  \/ (exists c, city r = Some c /\ JS.toLowerCase q = JS.toLowerCase c) ->
  r ∈ Admin.filteredReports (Admin.set_searchQuery q st).
Proof.
  intros Hr Hq. unfold Admin.filteredReports. simpl.
  rewrite elem_of_List_filter. split; [exact Hr|].
  unfold Admin.search_predicate.
  destruct Hq as [-> | [-> | (c & Hc & ->)]].
  - rewrite includes_refl.
    destruct (JS.includes (JS.toLowerCase (title r)) _); reflexivity.
  - rewrite includes_refl. reflexivity.
  - rewrite Hc, includes_refl.
    destruct (JS.includes (JS.toLowerCase (title r)) _);
      destruct (JS.includes (JS.toLowerCase (report_number r)) _); reflexivity.
Qed.

Lemma search_finds_own_fields_witness :
  sample_report "CIV-1" assigned
  ∈ Admin.filteredReports (Admin.set_searchQuery "civ-1" sample_admin_state).
Proof.
  apply (search_finds_own_fields sample_admin_state (sample_report "CIV-1" assigned)
           "civ-1").
  - apply list_elem_of_singleton. reflexivity.
  - left. reflexivity.
Defined.

Lemma stats_follow_reports_witness :
  let st := Admin.run sample_admin_events Admin.initial in
  Admin.stats st = Admin.mkStats 1 0 0 1
  /\ length (Admin.filteredReports st) = 1%nat.
Proof.
  intros st. destruct (stats_follow_reports sample_admin_events) as (H & _ & _).
  split; [exact H | reflexivity].
Defined.

Lemma append_cons (x : ascii) (a b : string) : String x a +:+ b = String x (a +:+ b).
Proof. reflexivity. Qed.

Lemma append_assoc_string (a b c : string) : (a +:+ b) +:+ c = a +:+ (b +:+ c).
Proof.
  induction a as [|x a IH]; [reflexivity|].
  rewrite !append_cons, IH. reflexivity.
Qed.

Lemma startsWith_prefix (n h : string) :
  JS.startsWith n h = true <-> exists b, h = n +:+ b.
Proof.
  revert h. induction n as [|x n IH]; intros h.
  - split; [intros _; exists h; reflexivity | reflexivity].
  - destruct h as [|y h]; [split; [discriminate | intros [b Hb]; discriminate]|].
    cbn [JS.startsWith]. rewrite andb_true_iff, IH. split.
    + intros [Hxy [b ->]]. apply Ascii.eqb_eq in Hxy. subst y. exists b. reflexivity.
    + intros [b Hb]. rewrite append_cons in Hb. injection Hb as -> ->.
      split; [apply Ascii.eqb_refl | eauto].
Qed.

(** [includes] is the occurrence of the needle somewhere in the hay. *)
Lemma includes_infix (h n : string) :
  JS.includes h n = true <-> exists a b, h = a +:+ n +:+ b.
Proof.
  induction h as [|y h IH].
  - cbn [JS.includes]. rewrite orb_false_r, startsWith_prefix. split.
    + intros [b Hb]. exists "", b. exact Hb.
    + intros (a & b & Hab). destruct a as [|x a]; [|discriminate].
      exists b. exact Hab.
  - cbn [JS.includes]. rewrite orb_true_iff, startsWith_prefix, IH. split.
    + intros [[b Hb] | (a & b & Hab)].
      * exists "", b. exact Hb.
      * exists (String y a), b. rewrite append_cons, Hab. reflexivity.
    + intros (a & b & Hab). destruct a as [|x a].
      * left. exists b. exact Hab.
      * right. rewrite append_cons in Hab. injection Hab as -> ->. eauto.
Qed.

Lemma includes_trans (h m n : string) :
  JS.includes h m = true -> JS.includes m n = true -> JS.includes h n = true.
Proof.
  rewrite !includes_infix. intros (a & b & ->) (c & d & ->).
  exists (a +:+ c), (d +:+ b). rewrite !append_assoc_string. reflexivity.
Qed.

Lemma filter_sublist_weaker {A} (p p' : A -> bool) (l : list A) :
  (forall x, p x = true -> p' x = true) ->
  sublist (List.filter p l) (List.filter p' l).
Proof.
  intros Himp. induction l as [|x l IH]; simpl; [constructor|].
  destruct (p x) eqn:Hp.
  - rewrite (Himp x Hp). apply sublist_skip, IH.
  - destruct (p' x); [apply sublist_cons, IH | exact IH].
Qed.

(** X10: a query narrows the list of another query whenever its
    lower-cased form contains the lower-cased form of the other: the
    reports it selects are then a subsequence of those the other
    selects.  Typing further characters before or after a query is such
    a step as long as lower-casing the longer text leaves the lower-cased
    shorter text in it, which is so for all texts of code units below
    256. *)
Theorem search_narrows_as_typed (q q' : string) (st : Admin.State) :
  JS.includes (JS.toLowerCase q') (JS.toLowerCase q) = true ->
  sublist (Admin.filteredReports (Admin.set_searchQuery q' st))
          (Admin.filteredReports (Admin.set_searchQuery q st)).
Proof.
  intros Hq. unfold Admin.filteredReports. simpl.
  apply filter_sublist_weaker. intros r.
  unfold Admin.search_predicate.
  set (a := JS.toLowerCase q) in *. set (b := JS.toLowerCase q') in *.
  destruct (JS.includes (JS.toLowerCase (title r)) b) eqn:Ht.
  { rewrite (includes_trans _ _ _ Ht Hq). reflexivity. }
  destruct (JS.includes (JS.toLowerCase (report_number r)) b) eqn:Hn.
  { rewrite (includes_trans _ _ _ Hn Hq).
    destruct (JS.includes (JS.toLowerCase (title r)) a); reflexivity. }
  destruct (city r) as [c|]; simpl; [|discriminate].
  destruct (JS.includes (JS.toLowerCase c) b) eqn:Hc; [|discriminate].
  rewrite (includes_trans _ _ _ Hc Hq). intros _.
  destruct (JS.includes (JS.toLowerCase (title r)) a);
    destruct (JS.includes (JS.toLowerCase (report_number r)) a); reflexivity.
Qed.

Lemma search_narrows_as_typed_witness :
  sublist
    (Admin.filteredReports (Admin.set_searchQuery ("Civ" +:+ "-1") sample_admin_state))
    (Admin.filteredReports (Admin.set_searchQuery "Civ" sample_admin_state)).
Proof.
  apply (search_narrows_as_typed "Civ" ("Civ" +:+ "-1") sample_admin_state).
  reflexivity.
Defined.

(** ** Leaderboard *)

Lemma count_badges_from (badgeCounts : list string) (k : string) :
  forall m : gmap string nat,
  default 0%nat
    (foldl (fun m b => <[b := (default 0%nat (m !! b) + 1)%nat]> m) m badgeCounts !! k)
  = (default 0%nat (m !! k) + count_occ string_dec badgeCounts k)%nat.
Proof.
  induction badgeCounts as [|b l IH]; intros m; simpl; [lia|].
  rewrite IH. destruct (string_dec b k) as [->|Hne].
  - rewrite lookup_insert_eq. simpl. lia.
  - rewrite lookup_insert_ne by exact Hne. reflexivity.
Qed.

Lemma fetched_board (user : option string) (data : list Leaderboard.Profile)
    (badges : option (list string)) (st : Leaderboard.State) :
  Leaderboard.leaderboard (Leaderboard.fetchLeaderboard user (Ok (Some data)) badges st)
  = Leaderboard.enrich (Leaderboard.count_badges (default [] badges)) <$> data.
Proof.
  unfold Leaderboard.fetchLeaderboard. simpl.
  destruct user as [uid|]; [|reflexivity].
  destruct (_ =? -1); [reflexivity|].
  destruct (_ !! _); reflexivity.
Qed.

(** X11: the board lists the fetched profiles one for one, in the fetched
    order, and the badge count of each entry is the number of fetched
    [user_badges] rows of that user (0 when there is none, or when the
    badge query gave nothing). *)
Theorem board_counts_badge_rows
    (user : option string) (data : list Leaderboard.Profile)
    (badges : option (list string)) (st : Leaderboard.State) :
  Leaderboard.leaderboard (Leaderboard.fetchLeaderboard user (Ok (Some data)) badges st)
  = (fun p => entry_of p (count_occ string_dec (default [] badges)
                                    (Leaderboard.p_user_id p))) <$> data.
Proof.
  rewrite fetched_board. apply list_fmap_ext. intros i p _.
  unfold Leaderboard.enrich, entry_of, Leaderboard.count_badges. f_equal.
  rewrite count_badges_from, lookup_empty. reflexivity.
Qed.

Lemma findIndex_from_first {A} (p : A -> bool) (l : list A) :
  forall (k : Z) (i : nat) (x : A),
  l !! i = Some x -> p x = true ->
  (forall j y, (j < i)%nat -> l !! j = Some y -> p y = false) ->
  JS.findIndex_from p l k = k + Z.of_nat i.
Proof.
  induction l as [|y l IH]; intros k i x Hi Hx Hfirst; [discriminate|].
  destruct i as [|i]; simpl in *.
  - injection Hi as ->. rewrite Hx. lia.
  - rewrite (Hfirst 0%nat y ltac:(lia) eq_refl).
    rewrite (IH (k + 1) i x Hi Hx); [lia|].
    intros j z Hj Hz. apply (Hfirst (S j) z); [lia | exact Hz].
Qed.

(** X12: whatever the order of the fetched profiles, the rank shown to a
    signed-in user is the position (counted from 1) of the first fetched
    profile that carries their id, and the points shown are that
    profile's; the rank lies between 1 and the number of profiles. *)
Theorem user_rank_is_first_position
    (uid : string) (data : list Leaderboard.Profile) (badges : option (list string))
    (st : Leaderboard.State) (i : nat) (p : Leaderboard.Profile) :
  data !! i = Some p ->
  Leaderboard.p_user_id p = uid ->
  (forall j q, (j < i)%nat -> data !! j = Some q -> Leaderboard.p_user_id q <> uid) ->
  let st' := Leaderboard.fetchLeaderboard (Some uid) (Ok (Some data)) badges st in
  Leaderboard.userRank st' = Some (Z.of_nat i + 1)
  /\ Leaderboard.userPoints st' = Leaderboard.p_points p
  /\ 1 <= Z.of_nat i + 1 <= Z.of_nat (length (Leaderboard.leaderboard st')).
Proof.
  intros Hi Hp Hfirst st'.
  pose proof (fetched_board (Some uid) data badges st) as Hboard. fold st' in Hboard.
  set (m := Leaderboard.count_badges (default [] badges)) in *.
  set (entries := Leaderboard.enrich m <$> data) in *.
  assert (Hei : entries !! i = Some (Leaderboard.enrich m p)).
  { subst entries. rewrite list_lookup_fmap, Hi. reflexivity. }
  assert (Hfind : JS.findIndex (fun e => JS.seq (Leaderboard.user_id e) uid) entries
                  = Z.of_nat i).
  { unfold JS.findIndex.
    rewrite (findIndex_from_first _ entries 0 i _ Hei); [lia | |].
    - simpl. apply String.eqb_eq, Hp.
    - intros j e Hj He. subst entries. rewrite list_lookup_fmap in He.
      destruct (data !! j) as [q|] eqn:Hq; [|discriminate].
      injection He as <-. simpl. apply String.eqb_neq. eapply Hfirst; eassumption. }
  split; [|split].
  - subst st'. unfold Leaderboard.fetchLeaderboard. fold m. simpl. fold entries.
    rewrite Hfind. replace (Z.of_nat i =? -1) with false by (symmetry; apply Z.eqb_neq; lia).
    rewrite Nat2Z.id, Hei. reflexivity.
  - subst st'. unfold Leaderboard.fetchLeaderboard. fold m. simpl. fold entries.
    rewrite Hfind. replace (Z.of_nat i =? -1) with false by (symmetry; apply Z.eqb_neq; lia).
    rewrite Nat2Z.id, Hei. reflexivity.
  - rewrite Hboard. apply lookup_lt_Some in Hei. lia.
Qed.

Lemma user_rank_is_first_position_witness :
  let st' := Leaderboard.fetchLeaderboard (Some "u-1") (Ok (Some unsorted_profiles))
               None Leaderboard.initial in
  Leaderboard.userRank st' = Some 3 /\ Leaderboard.userPoints st' = 180.
Proof.
  intros st'.
  destruct (user_rank_is_first_position "u-1" unsorted_profiles None
              Leaderboard.initial 2%nat
              (Leaderboard.mkProfile "p-2" "u-1" None 180 None) eq_refl eq_refl)
    as (H1 & H2 & _).
  - intros [|[|j]] q Hj Hq; [| |lia]; injection Hq as <-; discriminate.
  - split; [exact H1 | exact H2].
Defined.

Lemma substring_prefix_length (m : nat) (s : string) :
  (String.length (String.substring 0 m s) <= m)%nat.
Proof.
  revert s. induction m as [|m IH]; intros [|c s]; simpl; try lia.
  specialize (IH s). lia.
Qed.

Lemma split_spaces (n : nat) :
  JS.split " "%char (spaces n) = replicate (S n) EmptyString.
Proof. induction n as [|n IH]; [reflexivity|]. simpl. rewrite IH. reflexivity. Qed.

Lemma join_empties (k : nat) : JS.join "" (replicate k EmptyString) = "".
Proof.
  induction k as [|[|k] IH]; [reflexivity | reflexivity |].
  change (JS.join "" (replicate (S (S k)) "")) with
    ("" +:+ "" +:+ JS.join "" (replicate (S k) "")).
  rewrite IH. reflexivity.
Qed.

Lemma split_head (c : ascii) (s : string) :
  Ascii.eqb c " "%char = false ->
  exists w ws, JS.split " "%char (String c s) = String c w :: ws.
Proof.
  intros Hc. simpl. rewrite Hc.
  destruct (JS.split " "%char s) as [|w ws]; eauto.
Qed.

Lemma join_first_chars (c : ascii) (w : string) (ws : list string) :
  exists t, JS.join "" (Leaderboard.first_char <$> (String c w :: ws)) = String c t.
Proof.
  destruct ws as [|w' ws]; [exists ""; reflexivity|].
  eexists. cbn [fmap list_fmap Leaderboard.first_char].
  change (JS.join "" (String c "" :: ?l)) with (String c "" +:+ "" +:+ JS.join "" l).
  reflexivity.
Qed.

(** X13: the initials on an avatar are at most two characters; a missing
    or empty name gives "U"; a name made of spaces only gives no initials
    at all (not "U"); and a name that starts with an ASCII character
    other than a space gives initials that start with that character,
    in upper case if it is a letter.  Of the built-in [toUpperCase] this
    uses only that it keeps the empty string and turns a leading ASCII
    character into its upper case ahead of the upper case of the rest. *)
Theorem getInitials_shape (toUpperCase : string -> string) :
  toUpperCase "" = "" ->
  (forall (c : ascii) (s : string),
      (nat_of_ascii c < 128)%nat ->
      toUpperCase (String c s) = String (JS.upper_ascii c) (toUpperCase s)) ->
  (forall name,
      (String.length (Leaderboard.getInitials toUpperCase name) <= 2)%nat)
  /\ Leaderboard.getInitials toUpperCase None = "U"
  /\ Leaderboard.getInitials toUpperCase (Some "") = "U"
  /\ (forall (c : ascii) (s : string),
        c <> " "%char ->
        (nat_of_ascii c < 128)%nat ->
        exists t, Leaderboard.getInitials toUpperCase (Some (String c s))
                  = String (JS.upper_ascii c) t)
  /\ (forall n, Leaderboard.getInitials toUpperCase (Some (spaces (S n))) = "").
Proof.
  intros Hempty Hascii.
  split; [|split; [reflexivity|split; [reflexivity|split]]].
  - intros [[|c s]|]; simpl; try lia. apply substring_prefix_length.
  - intros c s Hc Hlow.
    assert (Ascii.eqb c " "%char = false) as Hcb by (apply Ascii.eqb_neq; exact Hc).
    destruct (split_head c s Hcb) as (w & ws & Hsplit).
    destruct (join_first_chars c w ws) as (t & Hjoin).
    unfold Leaderboard.getInitials. cbn [JS.truthy].
    rewrite Hsplit, Hjoin, (Hascii c t Hlow). simpl. eexists. reflexivity.
  - intros n. unfold Leaderboard.getInitials. cbn [spaces JS.truthy].
    change (String " "%char (spaces n)) with (spaces (S n)).
    rewrite split_spaces.
    rewrite fmap_replicate. cbn [Leaderboard.first_char].
    rewrite join_empties, Hempty. reflexivity.
Qed.

Lemma getInitials_shape_witness :
  exists t, Leaderboard.getInitials JS.asciiUpper (Some "asha rao") = String "A"%char t.
Proof.
  apply (proj1 (proj2 (proj2 (proj2
           (getInitials_shape JS.asciiUpper eq_refl (fun c s _ => eq_refl)))))
           "a"%char "sha rao").
  - discriminate.
  - vm_compute. lia.
Defined.

(** ** Education and quizzes *)



Lemma anonymous_step (ev : Education.Event)
    (cfg : Education.State * list Education.ProgressRow) :
  Education.user (fst cfg) = None ->
  Education.user (fst (Education.step ev cfg)) = None
  /\ snd (Education.step ev cfg) = snd cfg
  /\ Education.userProgress (fst (Education.step ev cfg))
     = Education.userProgress (fst cfg)
  /\ step_inserts ev cfg = [].
Proof.
  destruct cfg as [st table]. cbn [fst snd]. intros Huser.
  destruct ev as [answerIndex accepted| |categoryId|];
    cbn [Education.step step_inserts fst snd].
  - destruct (handleAnswer_effect answerIndex accepted table st) as [Hu Heff].
    simpl in Hu. rewrite Huser in Hu.
    destruct Heff as [Hins Hprog Htab | uid q isCorrect Huid _ _ _ _];
      [|congruence].
    repeat split; assumption.
  - destruct (handleNext_frame st) as [Hu Hp]. rewrite Hu, Hp.
    repeat split; assumption.
  - repeat split; assumption.
  - repeat split; assumption.
Qed.

(** X15: a visitor who is not signed in leaves no trace: along any
    sequence of answers and moves, no insert is issued, the table is not
    touched and the local progress list stays as it was. *)
Theorem anonymous_answers_leave_no_trace
    (evs : list Education.Event) (st : Education.State)
    (table : list Education.ProgressRow) :
  Education.user st = None ->
  let cfg' := Education.run evs (st, table) in
  Education.inserts_of evs (st, table) = []
  /\ snd cfg' = table
  /\ Education.userProgress (fst cfg') = Education.userProgress st.
Proof.
  intros Huser.
  assert (forall cfg, Education.user (fst cfg) = None ->
            Education.inserts_of evs cfg = []
            /\ snd (Education.run evs cfg) = snd cfg
            /\ Education.userProgress (fst (Education.run evs cfg))
               = Education.userProgress (fst cfg)) as H.
  { induction evs as [|ev evs IH]; intros cfg Hcfg; [repeat split|].
    rewrite run_cons, inserts_of_cons.
    destruct (anonymous_step ev cfg Hcfg) as (Hu & Ht & Hp & Hi).
    destruct (IH _ Hu) as (IH1 & IH2 & IH3).
    rewrite Hi, IH1, IH2, IH3, Ht, Hp. repeat split. }
  apply (H (st, table) Huser).
Qed.

Lemma anonymous_answers_leave_no_trace_witness :
  let st := Education.mkState None sample_quizzes [] (Some "civic") 0 None false in
  let cfg' := Education.run sample_session (st, sample_progress_table) in
  snd cfg' = sample_progress_table /\ Education.userProgress (fst cfg') = [].
Proof.
  intros st cfg'.
  destruct (anonymous_answers_leave_no_trace sample_session st sample_progress_table
              eq_refl) as (_ & H2 & H3).
  split; [exact H2 | exact H3].
Defined.

Lemma step_quizzes (ev : Education.Event)
    (cfg : Education.State * list Education.ProgressRow) :
  Education.quizzes (fst (Education.step ev cfg)) = Education.quizzes (fst cfg).
Proof.
  destruct cfg as [st table].
  destruct ev as [answerIndex accepted| |categoryId|]; cbn [Education.step fst].
  - unfold Education.handleAnswer.
    destruct (Education.showResult st); [reflexivity|].
    destruct (_ !! _); [|reflexivity].
    destruct (Education.user st); [|reflexivity].
    destruct (JS.some _ _); reflexivity.
  - unfold Education.handleNext. destruct (_ <? _); reflexivity.
  - reflexivity.
  - reflexivity.
Qed.

Lemma getCategoryQuizzes_ext (st st' : Education.State) (c : option string) :
  Education.quizzes st' = Education.quizzes st ->
  Education.getCategoryQuizzes st' c = Education.getCategoryQuizzes st c.
Proof. intros H. unfold Education.getCategoryQuizzes. rewrite H. reflexivity. Qed.

Lemma category_nonempty (st : Education.State) (c : string) :
  (exists q, q ∈ Education.quizzes st /\ Education.category_id q = c) ->
  (0 < length (Education.getCategoryQuizzes st (Some c)))%nat.
Proof.
  intros (q & Hq & Hc).
  assert (q ∈ Education.getCategoryQuizzes st (Some c)) as Hin.
  { apply elem_of_List_filter. split; [exact Hq | apply String.eqb_eq, Hc]. }
  destruct (Education.getCategoryQuizzes st (Some c)); [|simpl; lia].
  apply elem_of_nil in Hin. contradiction.
Qed.

Lemma step_in_range (ev : Education.Event)
    (cfg : Education.State * list Education.ProgressRow) :
  start_enabled (Education.quizzes (fst cfg)) ev ->
  in_range (fst cfg) -> in_range (fst (Education.step ev cfg)).
Proof.
  destruct cfg as [st table]. cbn [fst]. intros Hstart Hrange.
  destruct ev as [answerIndex accepted| |categoryId|]; cbn [Education.step fst].
  - unfold in_range in *. unfold Education.handleAnswer.
    destruct (Education.showResult st); [exact Hrange|].
    destruct (_ !! _); [|exact Hrange].
    destruct (Education.user st); [|exact Hrange].
    destruct (JS.some _ _); exact Hrange.
  - unfold in_range in *. unfold Education.handleNext.
    destruct (Z.ltb_spec (Z.of_nat (Education.currentQuizIndex st))
                (Z.of_nat (length (Education.getCategoryQuizzes st
                                     (Education.selectedCategory st))) - 1));
      cbn [fst Education.selectedCategory Education.currentQuizIndex]; [|exact I].
    destruct (Education.selectedCategory st) as [c|]; [|exact I].
    unfold Education.getCategoryQuizzes in *. simpl in *. lia.
  - unfold in_range. simpl. apply (category_nonempty st categoryId Hstart).
  - exact I.
Qed.

(** X16: in quiz mode there is always a current question.  Start from a
    state where this holds (for instance the category screen) and let the
    user start quizzes on categories that have questions, answer, press
    Next and leave, in any order: the current index always points at a
    question of the selected category, so the handler never meets an
    undefined question there and the "no quizzes" fallback is not
    reached. *)
Theorem quiz_index_stays_in_range
    (evs : list Education.Event) (st : Education.State)
    (table : list Education.ProgressRow) :
  in_range st ->
  Forall (start_enabled (Education.quizzes st)) evs ->
  let cfg' := Education.run evs (st, table) in
  in_range (fst cfg')
  /\ (forall c, Education.selectedCategory (fst cfg') = Some c ->
        is_Some (Education.getCategoryQuizzes (fst cfg') (Some c)
                   !! Education.currentQuizIndex (fst cfg'))
        /\ forall a accepted,
             Education.out_threw
               (Education.handleAnswer a accepted (snd cfg') (fst cfg')) = false).
Proof.
  intros Hrange Hstart cfg'.
  assert (Hfinal : in_range (fst cfg')).
  { subst cfg'. revert st table Hrange Hstart.
    induction evs as [|ev evs IH]; intros st table Hrange Hstart; [exact Hrange|].
    rewrite run_cons. apply Forall_cons in Hstart as [Hev Hevs].
    destruct (Education.step ev (st, table)) as [st1 table1] eqn:Hstep.
    apply IH.
    - change st1 with (fst (st1, table1)). rewrite <- Hstep.
      apply step_in_range; assumption.
    - change st1 with (fst (st1, table1)). rewrite <- Hstep, step_quizzes. exact Hevs. }
  split; [exact Hfinal|].
  intros c Hc. unfold in_range in Hfinal. rewrite Hc in Hfinal.
  apply lookup_lt_is_Some_2 in Hfinal as Hsome. split; [exact Hsome|].
  intros a accepted. unfold Education.handleAnswer.
  destruct (Education.showResult (fst cfg')); [reflexivity|].
  rewrite Hc. destruct Hsome as [q Hq]. rewrite Hq.
  destruct (Education.user (fst cfg')); [|reflexivity].
  destruct (JS.some _ _); reflexivity.
Qed.

Lemma quiz_index_stays_in_range_witness :
  let st := Education.mkState (Some "u-1") sample_quizzes [] None 0 None false in
  let cfg' := Education.run
                [Education.Start "civic"; Education.Answer 1 true; Education.Next;
                 Education.Next; Education.Start "traffic"; Education.Next;
                 Education.Start "civic"; Education.Next]
                (st, []) in
  in_range (fst cfg')
  /\ Education.selectedCategory (fst cfg') = Some "civic"
  /\ Education.currentQuizIndex (fst cfg') = 1%nat.
Proof.
  intros st cfg'.
  assert (Hcivic : exists q, q ∈ sample_quizzes /\ Education.category_id q = "civic").
  { eexists. split; [apply elem_of_cons; left; reflexivity | reflexivity]. }
  assert (Htraffic : exists q, q ∈ sample_quizzes /\ Education.category_id q = "traffic").
  { eexists. split; [apply elem_of_cons; right; apply elem_of_cons; left; reflexivity
                    | reflexivity]. }
  destruct (quiz_index_stays_in_range
              [Education.Start "civic"; Education.Answer 1 true; Education.Next;
               Education.Next; Education.Start "traffic"; Education.Next;
               Education.Start "civic"; Education.Next]
              st [] I) as [H _].
  - repeat constructor; assumption.
  - split; [exact H|]. split; reflexivity.
Defined.

Lemma nexts_succ (k : nat) (st : Education.State) :
  Education.nexts (S k) st = fst (Education.handleNext (Education.nexts k st)).
Proof. reflexivity. Qed.

(** X17: a quiz of [n] questions takes exactly [n] presses of "Next":
    after starting it, [k < n] presses lead to question [k] with the
    answer and the result cleared, the press on question [k] asks for a
    refresh exactly when [k = n - 1], and that last press leaves quiz
    mode. *)
Theorem quiz_ends_after_last_question (st : Education.State) (c : string) (k : nat) :
  let n := length (Education.getCategoryQuizzes st (Some c)) in
  (k < n)%nat ->
  let sk := Education.nexts k (Education.handleStartQuiz c st) in
  Education.selectedCategory sk = Some c
  /\ Education.currentQuizIndex sk = k
  /\ Education.selectedAnswer sk = None
  /\ Education.showResult sk = false
  /\ snd (Education.handleNext sk) = bool_decide (k = (n - 1)%nat)
  /\ Education.selectedCategory (fst (Education.handleNext sk))
     = (if bool_decide (k = (n - 1)%nat) then None else Some c).
Proof.
  intros n Hk sk. subst sk.
  set (sk := Education.nexts k (Education.handleStartQuiz c st)).
  assert (Hwalk : Education.quizzes sk = Education.quizzes st
                  /\ Education.selectedCategory sk = Some c
                  /\ Education.currentQuizIndex sk = k
                  /\ Education.selectedAnswer sk = None
                  /\ Education.showResult sk = false).
  { subst sk. induction k as [|k IH]; [repeat split|].
    destruct (IH ltac:(lia)) as (Hq & Hc & Hi & Ha & Hs).
    rewrite nexts_succ. unfold Education.handleNext.
    rewrite Hc, Hi, (getCategoryQuizzes_ext st _ (Some c) Hq). fold n.
    destruct (Z.ltb_spec (Z.of_nat k) (Z.of_nat n - 1)); [|lia].
    cbn. repeat split; first [assumption | lia]. }
  destruct Hwalk as (Hq & Hc & Hi & Ha & Hs).
  repeat (split; [assumption|]).
  unfold Education.handleNext.
  rewrite Hc, Hi, (getCategoryQuizzes_ext st sk (Some c) Hq). fold n.
  destruct (Z.ltb_spec (Z.of_nat k) (Z.of_nat n - 1));
    cbn [fst snd Education.selectedCategory].
  - rewrite bool_decide_eq_false_2 by lia. split; reflexivity.
  - rewrite bool_decide_eq_true_2 by lia. split; reflexivity.
Qed.

Lemma quiz_ends_after_last_question_witness :
  let sk := Education.nexts 1 (Education.handleStartQuiz "civic" sample_quiz_state) in
  Education.currentQuizIndex sk = 1%nat
  /\ snd (Education.handleNext sk) = true.
Proof.
  intros sk.
  destruct (quiz_ends_after_last_question sample_quiz_state "civic" 1)
    as (_ & Hi & _ & _ & Hn & _).
  - simpl. lia.
  - split; [exact Hi | exact Hn].
Defined.

Lemma filter_length_le {A} (p : A -> bool) (l : list A) :
  (length (List.filter p l) <= length l)%nat.
Proof. apply sublist_length, filter_sublist_of. Qed.

Lemma filter_disjoint_length {A} (p1 p2 : A -> bool) (l : list A) :
  (forall x, x ∈ l -> p1 x = true -> p2 x = true -> False) ->
  (length (List.filter p1 l) + length (List.filter p2 l) <= length l)%nat.
Proof.
  induction l as [|x l IH]; intros Hdis; [simpl; lia|].
  assert (IH' : (length (List.filter p1 l) + length (List.filter p2 l) <= length l)%nat).
  { apply IH. intros y Hy. apply Hdis, elem_of_cons. right. exact Hy. }
  specialize (Hdis x ltac:(apply elem_of_cons; left; reflexivity)).
  simpl. destruct (p1 x), (p2 x); simpl;
    first [exfalso; apply Hdis; reflexivity | lia].
Qed.

Lemma NoDup_fmap_eq {A B} (f : A -> B) (l : list A) (x y : A) :
  NoDup (f <$> l) -> x ∈ l -> y ∈ l -> f x = f y -> x = y.
Proof.
  intros Hnd Hx Hy Hf.
  apply list_elem_of_lookup in Hx as [i Hi]. apply list_elem_of_lookup in Hy as [j Hj].
  assert (i = j) as Hij.
  { eapply (NoDup_lookup (f <$> l) i j (f x) Hnd).
    - rewrite list_lookup_fmap, Hi. reflexivity.
    - rewrite list_lookup_fmap, Hj, Hf. reflexivity. }
  subst j. congruence.
Qed.

(** X18: the counters of a category never exceed what they are taken
    from: correct answers are among the completed ones, which are among
    the user's progress records; and, question ids being distinct, a
    progress record counts for one category at most, so the completed
    counts of two different categories together do not exceed the number
    of progress records. *)
Theorem category_counters_bounded (st : Education.State) :
  (forall c,
      let p := Education.getCategoryProgress st c in
      (Education.correct p <= Education.completed p)%nat
      /\ (Education.completed p <= length (Education.userProgress st))%nat)
  /\ (NoDup (Education.id <$> Education.quizzes st) ->
      forall c1 c2, c1 <> c2 ->
        (Education.completed (Education.getCategoryProgress st c1)
         + Education.completed (Education.getCategoryProgress st c2)
         <= length (Education.userProgress st))%nat).
Proof.
  split.
  - intros c p. subst p. unfold Education.getCategoryProgress. simpl.
    split; apply filter_length_le.
  - intros Hnd c1 c2 Hne. unfold Education.getCategoryProgress. simpl.
    apply filter_disjoint_length. intros p _ H1 H2.
    apply some_id_elem, list_elem_of_fmap in H1 as (q1 & Hid1 & Hq1).
    apply some_id_elem, list_elem_of_fmap in H2 as (q2 & Hid2 & Hq2).
    apply elem_of_List_filter in Hq1 as [Hq1 Hc1].
    apply elem_of_List_filter in Hq2 as [Hq2 Hc2].
    apply String.eqb_eq in Hc1, Hc2.
    assert (q1 = q2) by (apply (NoDup_fmap_eq Education.id _ _ _ Hnd Hq1 Hq2); congruence).
    subst q2. congruence.
Qed.

Lemma category_counters_bounded_witness :
  (Education.completed (Education.getCategoryProgress duplicated_progress_state "civic")
   + Education.completed (Education.getCategoryProgress duplicated_progress_state "traffic")
   <= 2)%nat.
Proof.
  apply (proj2 (category_counters_bounded duplicated_progress_state)).
  - simpl. repeat constructor; rewrite ?elem_of_cons, ?elem_of_nil;
      intros H; repeat destruct H as [H|H]; try discriminate H; exact H.
  - discriminate.
Defined.

(** X19: the bound on records per (user, quiz) also holds across
    refetches and with inserts in flight, under two conditions: no
    answer is given on a question while an insert for that question is
    still awaited, and the progress every refetch brings is what the
    table holds for the user when it arrives.  Then, from the fetched
    progress on, the records of the table for a pair, together with the
    inserts for it that have not reached the table yet, never exceed the
    larger of 1 and the records the pair had; a refetch may arrive
    between the landing of an insert and the resumption of its
    handler. *)
Theorem records_bounded_across_refreshes
    (uid : string) (evs : list Education.LiveEvent) (st : Education.State)
    (table : list Education.ProgressRow) (quiz : string) :
  Education.user st = Some uid ->
  Education.userProgress st = Education.fetch_progress uid table ->
  calm evs (fetched st table) ->
  let cfg' := Education.live_run evs (fetched st table) in
  (Education.records_for uid quiz (Education.live_table cfg')
   + Education.unlanded_for quiz (Education.live_pending cfg')
   <= Nat.max 1 (Education.records_for uid quiz table))%nat.
Proof.
  intros Huser Hfetch Hcalm cfg'.
  destruct (live_run_bounds uid evs (fetched st table)
              (fetched_live_inv uid st table Huser Hfetch) Hcalm) as [_ Hb].
  destruct (Hb quiz) as [Hdb _]. fold cfg' in Hdb.
  unfold fetched in Hdb.
  cbn [Education.live_table Education.live_pending] in Hdb.
  unfold Education.unlanded_for at 2 in Hdb. cbn [List.filter length] in Hdb. lia.
Qed.

Lemma records_bounded_across_refreshes_witness :
  let st := Education.mkState (Some "u-1") sample_quizzes
              (Education.fetch_progress "u-1" sample_progress_table)
              (Some "civic") 0 None false in
  let cfg' := Education.live_run sample_live_refetch (fetched st sample_progress_table) in
  (Education.records_for "u-1" "q-3" (Education.live_table cfg') <= 1)%nat.
Proof.
  intros st cfg'.
  pose proof (records_bounded_across_refreshes "u-1" sample_live_refetch st
                sample_progress_table "q-3" eq_refl eq_refl) as H.
  cbv zeta in H. fold st cfg' in H.
  assert (Hcalm : calm sample_live_refetch (fetched st sample_progress_table))
    by (vm_compute; repeat split; reflexivity).
  specialize (H Hcalm).
  assert (Hmax : Nat.max 1 (Education.records_for "u-1" "q-3" sample_progress_table) = 1%nat)
    by reflexivity.
  lia.
Defined.

(** X20: a refresh whose progress query fails empties the local progress
    of a signed-in user; the next first answer on any question is then
    inserted again whatever the table already holds, so an accepted
    insert adds one more record for the pair. *)
Theorem failed_refresh_forgets_progress
    (uid : string) (quizData : option (list Education.Quiz))
    (st : Education.State) (table : list Education.ProgressRow)
    (q : Education.Quiz) (a : Z) :
  Education.user st = Some uid ->
  let st1 := fst (Education.session_step (st, table) (Education.Refreshed quizData false)) in
  Education.getCategoryQuizzes st1 (Education.selectedCategory st1)
    !! Education.currentQuizIndex st1 = Some q ->
  Education.showResult st1 = false ->
  let out := Education.handleAnswer a true table st1 in
  Education.userProgress st1 = []
  /\ Education.out_inserts out
     = [Education.mkProgressRow uid (Education.id q)
          (bool_decide (a = Education.correct_answer q))]
  /\ Education.records_for uid (Education.id q) (Education.out_table out)
     = S (Education.records_for uid (Education.id q) table).
Proof.
  intros Huser st1 Hq Hshow out.
  assert (Hprog : Education.userProgress st1 = []).
  { subst st1. cbn [Education.session_step fst snd].
    unfold Education.fetchData, Education.progress_answer. rewrite Huser. reflexivity. }
  assert (Huser1 : Education.user st1 = Some uid) by exact Huser.
  split; [exact Hprog|].
  subst out. unfold Education.handleAnswer.
  rewrite Hshow, Hq, Huser1, Hprog. cbn [JS.some existsb].
  cbn [Education.out_inserts Education.out_table]. split; [reflexivity|].
  rewrite records_for_snoc. cbn [Education.row_user_id Education.row_quiz_id].
  unfold JS.seq. rewrite !String.eqb_refl. simpl. lia.
Qed.

Lemma failed_refresh_forgets_progress_witness :
  let st := Education.mkState (Some "u-1") sample_quizzes
              [Education.mkUserProgress "q-1" true] (Some "civic") 0 None false in
  let st1 := fst (Education.session_step (st, sample_progress_table)
                    (Education.Refreshed (Some sample_quizzes) false)) in
  Education.records_for "u-1" "q-1"
    (Education.out_table (Education.handleAnswer 1 true sample_progress_table st1))
  = 2%nat.
Proof.
  intros st st1.
  destruct (failed_refresh_forgets_progress "u-1" (Some sample_quizzes) st
              sample_progress_table
              (Education.mkQuiz "q-1" "Who maintains city roads?"
                                ["State"; "Municipality"] 1 10 "civic")
              1 eq_refl eq_refl eq_refl) as (_ & _ & H).
  exact H.
Defined.

(** ** Contact form *)

Lemma error_shown_blank (m : gmap string string) (field other : string)
    (l s : bool) (f : Contact.FormData) :
  Contact.error_shown (Contact.mkState f (<[field := ""]> m) l s) other
  = if decide (field = other) then None
    else Contact.error_shown (Contact.mkState f m l s) other.
Proof.
  unfold Contact.error_shown. simpl. destruct (decide (field = other)) as [->|Hne].
  - rewrite lookup_insert_eq. reflexivity.
  - rewrite lookup_insert_ne by exact Hne. reflexivity.
Qed.

(** X21: editing a field of the contact form stores the value in that
    field only and removes the message shown under it, whatever the new
    value is; the messages under the other fields stay. *)
Theorem edit_clears_its_own_error (field value : string) (st : Contact.State) :
  let st' := Contact.handleChange field value st in
  Contact.error_shown st' field = None
  /\ (forall other, other <> field ->
        Contact.error_shown st' other = Contact.error_shown st other)
  /\ Contact.name (Contact.formData st')
     = (if JS.seq field "name" then value else Contact.name (Contact.formData st))
  /\ Contact.email (Contact.formData st')
     = (if JS.seq field "email" then value else Contact.email (Contact.formData st))
  /\ Contact.subject (Contact.formData st')
     = (if JS.seq field "subject" then value else Contact.subject (Contact.formData st))
  /\ Contact.message (Contact.formData st')
     = (if JS.seq field "message" then value else Contact.message (Contact.formData st)).
Proof.
  intros st'. subst st'. unfold Contact.handleChange.
  split; [|split].
  - destruct (JS.truthy (default "" (Contact.errors st !! field))) eqn:Ht.
    + rewrite error_shown_blank. rewrite decide_True by reflexivity. reflexivity.
    + unfold Contact.error_shown. simpl.
      destruct (Contact.errors st !! field) as [m|]; [|reflexivity].
      simpl in Ht. rewrite Ht. reflexivity.
  - intros other Hne.
    destruct (JS.truthy (default "" (Contact.errors st !! field))).
    + rewrite error_shown_blank. rewrite decide_False by congruence. reflexivity.
    + reflexivity.
  - unfold Contact.set_field, JS.seq. simpl.
    destruct (String.eqb_spec field "name") as [->|_]; [repeat split|].
    destruct (String.eqb_spec field "email") as [->|_]; [repeat split|].
    destruct (String.eqb_spec field "subject") as [->|_]; [repeat split|].
    destruct (String.eqb_spec field "message") as [->|_]; repeat split.
Qed.

Lemma edit_clears_its_own_error_witness :
  let st := Contact.out_state
              (Contact.handleSubmit Contact.sample_isEmail (Ok tt) sample_contact_state) in
  let st' := Contact.handleChange "name" "B" st in
  Contact.error_shown st "name" = Some "Name must be at least 2 characters"
  /\ Contact.error_shown st' "name" = None
  /\ Contact.error_shown st' "message"
     = Some "Message must be at least 10 characters".
Proof.
  intros st st'. subst st'.
  destruct (edit_clears_its_own_error "name" "B" st) as (H1 & H2 & _).
  split; [reflexivity|]. split; [exact H1|].
  rewrite (H2 "message") by discriminate. reflexivity.
Defined.

Lemma collect_from_lookup (issues : list Contact.Issue) (k : string) :
  forall m : gmap string string,
  foldl (fun fieldErrors err =>
           if JS.truthy (Contact.path err)
           then <[Contact.path err := Contact.issue_message err]> fieldErrors
           else fieldErrors) m issues !! k
  = match Contact.collect_errors issues !! k with
    | Some v => Some v
    | None => m !! k
    end.
Proof.
  unfold Contact.collect_errors.
  induction issues as [|i issues IH]; intros m; [reflexivity|].
  simpl. rewrite IH. rewrite (IH (if JS.truthy (Contact.path i) then _ else _)).
  destruct (foldl _ ∅ issues !! k); [reflexivity|].
  destruct (JS.truthy (Contact.path i)); [|rewrite lookup_empty; reflexivity].
  destruct (decide (Contact.path i = k)) as [->|Hne].
  - rewrite !lookup_insert_eq. reflexivity.
  - rewrite !lookup_insert_ne by exact Hne. rewrite lookup_empty. reflexivity.
Qed.

(** Of two groups of issues, the later one decides the message of a
    field it mentions. *)
Lemma collect_errors_app (a b : list Contact.Issue) (k : string) :
  Contact.collect_errors (a ++ b) !! k
  = match Contact.collect_errors b !! k with
    | Some v => Some v
    | None => Contact.collect_errors a !! k
    end.
Proof.
  unfold Contact.collect_errors at 1. rewrite foldl_app.
  apply collect_from_lookup.
Qed.

Lemma collect_errors_guarded (b : bool) (field msg k : string) :
  JS.truthy field = true ->
  Contact.collect_errors (if b then [Contact.mkIssue field msg] else []) !! k
  = if b && bool_decide (field = k) then Some msg else None.
Proof.
  intros Ht. destruct b; simpl; [|apply lookup_empty].
  unfold Contact.collect_errors. simpl. rewrite Ht.
  destruct (decide (field = k)) as [->|Hne].
  - rewrite bool_decide_eq_true_2 by reflexivity. apply lookup_insert_eq.
  - rewrite bool_decide_eq_false_2 by exact Hne.
    rewrite lookup_insert_ne by exact Hne. apply lookup_empty.
Qed.

Lemma failed_submit_errors (isEmail : string -> bool) (resp : Response unit)
    (st : Contact.State) :
  Contact.form_ok isEmail (Contact.formData st) = false ->
  Contact.errors (Contact.out_state (Contact.handleSubmit isEmail resp st))
  = Contact.collect_errors (Contact.contactSchema isEmail (Contact.formData st)).
Proof.
  intros Hbad. unfold Contact.handleSubmit, Contact.safeParse.
  destruct (Contact.contactSchema isEmail (Contact.formData st)) as [|i issues] eqn:Hissues;
    [|reflexivity].
  apply form_ok_no_issue in Hissues. congruence.
Qed.

Lemma schema_errors_lookup (isEmail : string -> bool) (f : Contact.FormData)
    (field : string) :
  Contact.collect_errors (Contact.contactSchema isEmail f) !! field
  = expected_error isEmail f field.
Proof.
  unfold Contact.contactSchema. rewrite !collect_errors_app.
  unfold Contact.check_min, Contact.check_max, Contact.check_email.
  replace (if isEmail (Contact.email f) then []
           else [Contact.mkIssue "email" "Please enter a valid email address"])
    with (if negb (isEmail (Contact.email f))
          then [Contact.mkIssue "email" "Please enter a valid email address"] else [])
    by (destruct (isEmail (Contact.email f)); reflexivity).
  rewrite !collect_errors_guarded by reflexivity.
  unfold expected_error, JS.seq, max_message.
  destruct (String.eqb_spec field "name") as [->|Hn].
  { rewrite !(bool_decide_eq_true_2 ("name" = "name")) by reflexivity.
    rewrite !(bool_decide_eq_false_2 (_ = "name")) by discriminate.
    rewrite !andb_false_r, !andb_true_r.
    destruct (100 <? String.length (Contact.name f))%nat;
      destruct (String.length (Contact.name f) <? 2)%nat; reflexivity. }
  destruct (String.eqb_spec field "email") as [->|He].
  { rewrite !(bool_decide_eq_true_2 ("email" = "email")) by reflexivity.
    rewrite !(bool_decide_eq_false_2 (_ = "email")) by discriminate.
    rewrite !andb_false_r, !andb_true_r.
    destruct (255 <? String.length (Contact.email f))%nat;
      destruct (isEmail (Contact.email f)); reflexivity. }
  destruct (String.eqb_spec field "subject") as [->|Hs].
  { rewrite !(bool_decide_eq_true_2 ("subject" = "subject")) by reflexivity.
    rewrite !(bool_decide_eq_false_2 (_ = "subject")) by discriminate.
    rewrite !andb_false_r, !andb_true_r.
    destruct (200 <? String.length (Contact.subject f))%nat;
      destruct (String.length (Contact.subject f) <? 5)%nat; reflexivity. }
  destruct (String.eqb_spec field "message") as [->|Hm].
  { rewrite !(bool_decide_eq_true_2 ("message" = "message")) by reflexivity.
    rewrite !(bool_decide_eq_false_2 (_ = "message")) by discriminate.
    rewrite !andb_false_r, !andb_true_r.
    destruct (1000 <? String.length (Contact.message f))%nat;
      destruct (String.length (Contact.message f) <? 10)%nat; reflexivity. }
  rewrite !bool_decide_eq_false_2 by congruence.
  rewrite !andb_false_r. reflexivity.
Qed.

(** X22: after a failed submission each field of the contact form
    carries one message, decided by its last failing check: a value that
    is too long gets the length message even when it also fails its own
    check (an over-long invalid e-mail is told about its length, not its
    validity); otherwise a short name, subject or message and an invalid
    e-mail get their own message; a field within its bounds, and any
    other key, gets none. *)
Theorem failed_submit_messages
    (isEmail : string -> bool) (resp : Response unit) (st : Contact.State) :
  Contact.form_ok isEmail (Contact.formData st) = false ->
  forall field,
    Contact.errors (Contact.out_state (Contact.handleSubmit isEmail resp st)) !! field
    = expected_error isEmail (Contact.formData st) field.
Proof.
  intros Hbad field. rewrite (failed_submit_errors isEmail resp st Hbad).
  apply schema_errors_lookup.
Qed.

Lemma failed_submit_messages_witness :
  Contact.errors
    (Contact.out_state
       (Contact.handleSubmit Contact.sample_isEmail (Ok tt) sample_long_email_state))
    !! "email"
  = Some "String must contain at most 255 character(s)".
Proof.
  rewrite (failed_submit_messages Contact.sample_isEmail (Ok tt)
             sample_long_email_state eq_refl "email").
  reflexivity.
Defined.

(** ** Report submission *)

Lemma slice0_free_slots {A} (l : list A) (used : nat) :
  (used <= 5)%nat ->
  JS.slice0 l (5 - Z.of_nat used) = take (5 - used) l.
Proof.
  intros Hused. unfold JS.slice0.
  destruct (Z.ltb_spec (5 - Z.of_nat used) 0); [lia|].
  destruct (Nat.le_gt_cases (5 - used) (length l)) as [Hle|Hgt].
  - f_equal. lia.
  - rewrite !take_ge by lia. reflexivity.
Qed.

(** X23: choosing files fills the free slots only: in any state the form
    can reach, the images already chosen are kept in order, the first
    [5 - images.length] of the newly selected files are appended in
    order, the rest are dropped, and the form fields are untouched. *)
Theorem image_selection_fills_free_slots
    (param : option string) (evs : list ReportNow.Event) (fs : list ReportNow.File) :
  let st := ReportNow.run evs (ReportNow.initial param) in
  let st' := ReportNow.handleImageUpload (Some fs) st in
  ReportNow.images st'
  = ReportNow.images st ++ take (5 - length (ReportNow.images st)) fs
  /\ length (ReportNow.images st')
     = Nat.min 5 (length (ReportNow.images st) + length fs)
  /\ ReportNow.formData st' = ReportNow.formData st.
Proof.
  intros st st'.
  assert (Hfive : (length (ReportNow.images st) <= 5)%nat).
  { apply run_images_bound. simpl. lia. }
  assert (Himg : ReportNow.images st'
                 = ReportNow.images st ++ take (5 - length (ReportNow.images st)) fs).
  { subst st'. simpl. rewrite (slice0_free_slots fs _ Hfive). reflexivity. }
  split; [exact Himg|]. split; [|reflexivity].
  rewrite Himg, length_app, length_take. lia.
Qed.

Lemma indexed_shift {A} (l : list A) (k : nat) :
  imap ((fun i x => ((k + i)%nat, x)) ∘ S) l = imap (fun i x => ((S k + i)%nat, x)) l.
Proof. apply imap_ext. intros i x _. simpl. f_equal. lia. Qed.

Lemma remove_before {A} (l : list A) :
  forall k target : nat, (target < k)%nat ->
  snd <$> List.filter (fun ix => negb (fst ix =? target)%nat)
                      (imap (fun i x => ((k + i)%nat, x)) l) = l.
Proof.
  induction l as [|x l IH]; intros k target Hlt; [reflexivity|].
  rewrite imap_cons, indexed_shift. cbn [List.filter fst].
  replace (k + 0 =? target)%nat with false by (symmetry; apply Nat.eqb_neq; lia).
  cbn [negb fmap list_fmap snd]. f_equal. apply IH. lia.
Qed.

Lemma remove_at_from {A} (l : list A) :
  forall k index : nat,
  snd <$> List.filter (fun ix => negb (fst ix =? k + index)%nat)
                      (imap (fun i x => ((k + i)%nat, x)) l)
  = take index l ++ drop (S index) l.
Proof.
  induction l as [|x l IH]; intros k index; [destruct index; reflexivity|].
  rewrite imap_cons, indexed_shift. cbn [List.filter fst].
  destruct index as [|index].
  - replace (k + 0 =? k + 0)%nat with true by (symmetry; apply Nat.eqb_refl).
    cbn [negb take drop app]. rewrite drop_0. apply remove_before. lia.
  - replace (k + 0 =? k + S index)%nat with false
      by (symmetry; apply Nat.eqb_neq; lia).
    cbn [negb fmap list_fmap snd take drop app]. f_equal.
    replace (k + S index)%nat with (S k + index)%nat by lia.
    apply (IH (S k) index).
Qed.

Lemma remove_at_take_drop {A} (index : nat) (l : list A) :
  ReportNow.remove_at index l = take index l ++ drop (S index) l.
Proof. apply (remove_at_from l 0 index). Qed.

(** X24: removing an image deletes exactly the image at that position
    and keeps the others in order (one image less); a position past the
    end removes nothing; the form fields are untouched. *)
Theorem removeImage_deletes_one_position (index : nat) (st : ReportNow.State) :
  let st' := ReportNow.removeImage index st in
  ReportNow.images st'
  = take index (ReportNow.images st) ++ drop (S index) (ReportNow.images st)
  /\ ((index < length (ReportNow.images st))%nat ->
      S (length (ReportNow.images st')) = length (ReportNow.images st))
  /\ ((length (ReportNow.images st) <= index)%nat ->
      ReportNow.images st' = ReportNow.images st)
  /\ ReportNow.formData st' = ReportNow.formData st.
Proof.
  intros st'. subst st'. cbn [ReportNow.removeImage ReportNow.with_images
    ReportNow.images ReportNow.formData].
  rewrite remove_at_take_drop. split; [reflexivity|]. split; [|split; [|reflexivity]].
  - intros Hlt. rewrite length_app, length_take, length_drop. lia.
  - intros Hge. rewrite take_ge, drop_ge by lia. apply app_nil_r.
Qed.

Lemma removeImage_deletes_one_position_witness :
  let st := ReportNow.run sample_form_events (ReportNow.initial None) in
  ReportNow.images (ReportNow.removeImage 9 st) = ReportNow.images st
  /\ length (ReportNow.images (ReportNow.removeImage 1 st)) = 3%nat.
Proof.
  intros st.
  destruct (removeImage_deletes_one_position 9 st) as (_ & _ & Hout & _).
  destruct (removeImage_deletes_one_position 1 st) as (_ & Hin & _).
  split.
  - apply Hout. vm_compute. lia.
  - assert (length (ReportNow.images st) = 4%nat) as H4 by reflexivity.
    rewrite H4 in Hin. specialize (Hin ltac:(lia)). lia.
Defined.

(** X25: a submission reaches the backend only from a form whose
    category, title and description are filled and with a signed-in
    user: otherwise no upload is attempted, no insert is issued and no
    row is created; with an empty required field the state is not even
    touched and the only notification is "Missing information". *)
Theorem no_request_without_required_fields
    (user : option string) (env : ReportNow.Env) (st : ReportNow.State) :
  let out := ReportNow.handleSubmit user env st in
  ((ReportNow.out_uploads out <> [] \/ ReportNow.out_inserts out <> []
    \/ ReportNow.out_created out <> None) ->
   ReportNow.required_filled (ReportNow.formData st) = true /\ user <> None)
  /\ (ReportNow.required_filled (ReportNow.formData st) = false ->
      out = ReportNow.mkSubmitOutcome st [] [] None [ReportNow.toast_missing])
  /\ (ReportNow.out_inserts out <> [] <->
      ReportNow.required_filled (ReportNow.formData st) = true /\ user <> None).
Proof.
  intros out. subst out. unfold ReportNow.handleSubmit.
  destruct (ReportNow.required_filled (ReportNow.formData st)) eqn:Hreq; cbn [negb].
  - destruct user as [uid|].
    + destruct (ReportNow.upload_loop env uid 0 (ReportNow.images st) [])
        as [attempted imageUrls].
      destruct (ReportNow.insert_answer env); cbn;
        (split; [intros _; split; [reflexivity | discriminate]|]);
        (split; [discriminate|]);
        (split; [intros _; split; [reflexivity | discriminate] | intros _; discriminate]).
    + cbn. split; [intros [H|[H|H]]; congruence|]. split; [discriminate|].
      split; [congruence | intros [_ H]; congruence].
  - cbn. split; [intros [H|[H|H]]; congruence|]. split; [reflexivity|].
    split; [congruence | intros [H _]; discriminate].
Qed.

Lemma no_request_without_required_fields_witness :
  let st := ReportNow.run [ReportNow.Change "title" "Pothole"] (ReportNow.initial None) in
  ReportNow.handleSubmit (Some "u-1") sample_env st
  = ReportNow.mkSubmitOutcome st [] [] None [ReportNow.toast_missing].
Proof.
  intros st.
  apply (proj1 (proj2 (no_request_without_required_fields (Some "u-1") sample_env st))).
  reflexivity.
Defined.

Lemma or_chain_head (a b c : option string) :
  JS.or_else (JS.or_else (JS.or_default a "") (JS.or_default b "")) (JS.or_default c "")
  = default "" (head (JS.filter_Boolean [a; b; c])).
Proof. destruct a as [[|x a]|], b as [[|y b]|], c as [[|z c]|]; reflexivity. Qed.

(** X26: when the browser gives a position, the coordinates are stored
    and "Location detected" is raised whatever the reverse geocoder says;
    category, severity, title, description and images are never touched.
    With an address in the geocoder's answer the four address fields are
    overwritten: the city is the first non-empty of city, town and
    village, and a part the answer lacks becomes empty (what was typed
    there is lost); without one they keep their values.  When the
    browser gives no position the form is unchanged. *)
Theorem located_position_fills_address
    (lat lon : Q) (geo : ReportNow.Geocode) (st : ReportNow.State) :
  let res := ReportNow.getLocation (ReportNow.Positioned lat lon geo) st in
  let f := ReportNow.formData st in
  let f' := ReportNow.formData (fst res) in
  snd res = [ReportNow.toast_location_detected]
  /\ ReportNow.latitude f' = Some lat /\ ReportNow.longitude f' = Some lon
  /\ ReportNow.images (fst res) = ReportNow.images st
  /\ (ReportNow.category f', ReportNow.severity f', ReportNow.title f',
      ReportNow.description f')
     = (ReportNow.category f, ReportNow.severity f, ReportNow.title f,
        ReportNow.description f)
  /\ match geo with
     | ReportNow.GeoAnswer display_name (Some a) =>
         ReportNow.address f' = default "" (head (JS.filter_Boolean [display_name]))
         /\ ReportNow.city f'
            = default "" (head (JS.filter_Boolean
                                  [ReportNow.geo_city a; ReportNow.geo_town a;
                                   ReportNow.geo_village a]))
         /\ ReportNow.state f' = default "" (head (JS.filter_Boolean [ReportNow.geo_state a]))
         /\ ReportNow.pincode f'
            = default "" (head (JS.filter_Boolean [ReportNow.geo_postcode a]))
     | _ =>
         (ReportNow.address f', ReportNow.city f', ReportNow.state f',
          ReportNow.pincode f')
         = (ReportNow.address f, ReportNow.city f, ReportNow.state f,
            ReportNow.pincode f)
     end
  /\ ReportNow.getLocation ReportNow.Unsupported st
     = (st, [ReportNow.toast_geolocation_unsupported])
  /\ ReportNow.getLocation ReportNow.Denied st = (st, [ReportNow.toast_location_error]).
Proof.
  intros res f f'. subst res f f'.
  cbn [ReportNow.getLocation]. unfold ReportNow.onPosition.
  destruct geo as [|display_name [a|]]; cbn; repeat split.
  - destruct display_name as [[|x d]|]; reflexivity.
  - apply or_chain_head.
  - destruct (ReportNow.geo_state a) as [[|x d]|]; reflexivity.
  - destruct (ReportNow.geo_postcode a) as [[|x d]|]; reflexivity.
Qed.

Lemma located_position_fills_address_witness :
  let f' := ReportNow.formData
              (fst (ReportNow.getLocation
                      (ReportNow.Positioned (1856 # 100)%Q (7378 # 100)%Q sample_geocode)
                      sample_typed_form)) in
  ReportNow.city f' = "Baner" /\ ReportNow.pincode f' = ""
  /\ ReportNow.category f' = "pothole".
Proof.
  intros f'.
  destruct (located_position_fills_address (1856 # 100)%Q (7378 # 100)%Q sample_geocode
              sample_typed_form) as (_ & _ & _ & _ & _ & (_ & Hc & _ & Hp) & _).
  split; [exact Hc|]. split; [exact Hp | reflexivity].
Defined.

(** X27: "Submit Another Report" after a successful submission brings the
    form back to its very first state (with no category preselected):
    fields, images, submitted flag and report number; and a submit
    pressed right then is refused for its missing fields without any
    request. *)
Theorem reset_after_submission
    (user : option string) (env : ReportNow.Env) (st : ReportNow.State) :
  let out := ReportNow.handleSubmit user env st in
  ReportNow.out_created out <> None ->
  let fresh := ReportNow.resetForm (ReportNow.out_state out) in
  fresh = ReportNow.initial None
  /\ forall user' env',
       ReportNow.handleSubmit user' env' fresh
       = ReportNow.mkSubmitOutcome fresh [] [] None [ReportNow.toast_missing].
Proof.
  intros out Hcreated fresh.
  assert (Hfresh : fresh = ReportNow.initial None).
  { subst fresh out. revert Hcreated. unfold ReportNow.handleSubmit.
    destruct (negb (ReportNow.required_filled (ReportNow.formData st)));
      [intros H; contradiction H; reflexivity|].
    destruct user as [uid|]; [|intros H; contradiction H; reflexivity].
    destruct (ReportNow.upload_loop env uid 0 (ReportNow.images st) []) as [att urls].
    destruct (ReportNow.insert_answer env) as [g|m];
      [reflexivity | intros H; contradiction H; reflexivity]. }
  split; [exact Hfresh|]. intros user' env'. rewrite Hfresh. reflexivity.
Qed.

Lemma reset_after_submission_witness :
  let st := ReportNow.run sample_form_events (ReportNow.initial (Some "pothole")) in
  ReportNow.resetForm (ReportNow.out_state (ReportNow.handleSubmit (Some "u-1") sample_env st))
  = ReportNow.initial None.
Proof.
  intros st.
  apply (reset_after_submission (Some "u-1") sample_env st).
  discriminate.
Defined.
